(** * oe-doom-launcher: peer registry, election and process supervision

    A shallow embedding of [src/main.c].  The C globals become one [state]
    record that every callback receives and returns; next to the globals the
    record carries the part of the outside world the callbacks act on (the
    GLib sources attached to the main loop, the live child processes, the
    clock) and a trace of the system-level effects performed so far.

    Calls that end the program ([g_error], which GLib documents as always
    fatal) are modelled by the [Fatal] outcome.  Console output ([g_print],
    [g_debug], [g_warning]) and [free] calls are not modelled. *)

From Stdlib Require Import ZArith List String Ascii Bool Lia.
From Stdlib Require Import DecimalString.
From Stdlib Require Import Sorting.Sorted Sorting.Permutation.
Import ListNotations.

Local Open Scope Z_scope.

(** ** Constants *)

Definition CLIENT_SERVICE_NAME : string := "_oe-doom-client._udp".
Definition HOST_SERVICE_NAME : string := "_oe-doom-host._udp".
Definition WAD_KEY : string := "wad".
Definition CAN_HOST_KEY : string := "can-host".

(** Values of the Avahi headers ([avahi-common/defs.h], [error.h]). *)
Definition AVAHI_LOOKUP_RESULT_OUR_OWN : Z := 16.
Definition AVAHI_ERR_COLLISION : Z := -8.

(** ** Strings *)

Definition Z_of_comparison (c : comparison) : Z :=
  match c with
  | Lt => -1
  | Eq => 0
  | Gt => 1
  end.

(** [g_strcmp0]: [strcmp] that accepts NULL; NULL sorts before every string.
    Only the sign of the result is specified, so it is normalised here.
    [String.compare] orders by unsigned byte value, as [strcmp] does. *)
Definition g_strcmp0 (str1 str2 : option string) : Z :=
  match str1, str2 with
  | None, None => 0
  | None, Some _ => -1
  | Some _, None => 1
  | Some a, Some b => Z_of_comparison (String.compare a b)
  end.

(** [snprintf(buf, 12, "%i", n)]: twelve bytes hold every [int]. *)
Definition string_of_Z (n : Z) : string :=
  NilZero.string_of_int (Z.to_int n).

(** What a reader of a [char*] sees of the bytes [s]: those before the
    first NUL byte. *)
Fixpoint c_str (s : string) : string :=
  match s with
  | EmptyString => EmptyString
  | String c rest =>
      if Ascii.eqb c "000"%char then EmptyString else String c (c_str rest)
  end.

(** The bytes of a TXT entry before and after its first ['='], found with
    [memchr] over the whole entry; no second part when there is no ['=']. *)
Fixpoint split_pair (text : string) : string * option string :=
  match text with
  | EmptyString => (EmptyString, None)
  | String c rest =>
      if Ascii.eqb c "="%char then (EmptyString, Some rest)
      else let (key, value) := split_pair rest in
           (String c key, value)
  end.

(** [avahi_string_list_get_pair]: a TXT entry is cut at its first ['='];
    an entry without one has a NULL value.  The key is copied with
    [avahi_strndup] (or [avahi_strdup]), which stops at a NUL byte.  The value
    is copied whole and its length returned apart; [resolve_callback] drops
    that length and reads the value as a string, so here it ends at a NUL
    byte as well. *)
Definition avahi_string_list_get_pair (text : string) : string * option string :=
  let (key, value) := split_pair text in
  (c_str key, option_map c_str value).

(** A [GStrvBuilder] collects [char*] values; [g_strv_builder_add] of NULL
    stores NULL, which ends the vector for every reader of the result. *)
Definition strv := list (option string).

Fixpoint strv_args (v : strv) : list string :=
  match v with
  | Some s :: rest => s :: strv_args rest
  | _ => []
  end.

(** ** Data *)

Module config.
Record t := mk {
  port : Z;
  zdoom : string;
  mp_wad : string;
  mp_map : string;
  mp_config : option string;
  sp_wad : string;
  sp_config : option string;
  can_host : bool;
  source_wait : Z
}.
End config.

Module remote_service.
Record t := mk {
  interface : Z;
  protocol : Z;
  port : Z;
  name : string;
  type : string;
  domain : string;
  hostname : string;
  wad : option string;
  flags : Z;
  can_host : bool
}.

Definition set_can_host (b : bool) (s : t) : t :=
  mk (interface s) (protocol s) (port s) (name s) (type s) (domain s)
     (hostname s) (wad s) (flags s) b.

Definition set_wad (w : option string) (s : t) : t :=
  mk (interface s) (protocol s) (port s) (name s) (type s) (domain s)
     (hostname s) w (flags s) (can_host s).
End remote_service.

(** An entry group is known by the services added to it (name, type, port);
    a group that was reset or just created is empty. *)
Definition AvahiEntryGroup := list (string * string * Z).

Module local_service.
Record t := mk {
  group : option AvahiEntryGroup;
  name : option string;
  type : string;
  port : Z;
  txt_records : list string
}.

Definition set_group (g : option AvahiEntryGroup) (s : t) : t :=
  mk g (name s) (type s) (port s) (txt_records s).

Definition set_name (n : option string) (s : t) : t :=
  mk (group s) n (type s) (port s) (txt_records s).
End local_service.

(** ** The registry order and identity *)

Definition our_own (flags : Z) : bool :=
  negb (Z.land flags AVAHI_LOOKUP_RESULT_OUR_OWN =? 0).

Definition remote_service_equal (a b : remote_service.t) : bool :=
  (g_strcmp0 (Some (remote_service.type a)) (Some (remote_service.type b)) =? 0)
  && (g_strcmp0 (Some (remote_service.name a)) (Some (remote_service.name b)) =? 0)
  && (remote_service.interface a =? remote_service.interface b)
  && (remote_service.protocol a =? remote_service.protocol b).

Definition cmp_remote_service (a b : remote_service.t) : Z :=
  if negb (Bool.eqb (remote_service.can_host a) (remote_service.can_host b)) then
    Z.b2z (remote_service.can_host b) - Z.b2z (remote_service.can_host a)
  else
    g_strcmp0 (Some (remote_service.name a)) (Some (remote_service.name b)).

(** The "Sorted insert" loop of [resolve_callback]: the new entry goes before
    the first entry it compares below, or to the tail. *)
Fixpoint sorted_insert (service : remote_service.t) (l : list remote_service.t)
  : list remote_service.t :=
  match l with
  | [] => [service]
  | c :: rest =>
      if cmp_remote_service service c <? 0 then service :: c :: rest
      else c :: sorted_insert service rest
  end.

(** The first loop of [on_source_timeout]. *)
Fixpoint count_others (l : list remote_service.t) : Z :=
  match l with
  | [] => 0
  | client :: rest =>
      (if Z.land (remote_service.flags client) AVAHI_LOOKUP_RESULT_OUR_OWN =? 0
       then 1 else 0) + count_others rest
  end.

(** The TXT loop of [resolve_callback].  [avahi_string_list_get_pair] fails
    only when memory runs out, so the loop's [continue] on failure is not
    modelled. *)
Fixpoint parse_txt (txt : list string) (service : remote_service.t)
  : remote_service.t :=
  match txt with
  | [] => service
  | text :: next =>
      let (key, value) := avahi_string_list_get_pair text in
      let service :=
        if g_strcmp0 (Some key) (Some CAN_HOST_KEY) =? 0 then
          remote_service.set_can_host (g_strcmp0 value (Some "1"%string) =? 0) service
        else if g_strcmp0 (Some key) (Some WAD_KEY) =? 0 then
          remote_service.set_wad value service
        else service in
      parse_txt next service
  end.

(** ** Program state and the world it acts on *)

(** A source attached to the GLib main loop. *)
Inductive GSource :=
| TimeoutSource (deadline : Z)
| ChildWatch (pid : Z).

(** System-level effects, newest first in the trace. *)
Inductive effect :=
| Kill (pid : Z)
| Waitpid (pid : Z)
| SpawnAsync (argv : list string) (child : option positive)
| SourceRemove (id : Z)
| TimeoutAdd (interval id : Z)
| ChildWatchAdd (pid id : Z)
| TimeoutDispatch (id at_time : Z)
| EntryGroupNew (type : string) (ok : bool)
| EntryGroupReset (type : string)
| EntryGroupFree (type : string)
| AddService (name type : string) (port : Z) (txt : list string) (ret : Z)
| Commit (type : string)
| MainLoopQuit.

Module world.
Record t := mk {
  now : Z;
  next_source_id : positive;
  sources : list (Z * GSource);
  children : list Z;
  trace : list effect;
  quit : bool
}.
End world.

Record state := mkState {
  timeout_source : Z;
  child_source : Z;
  child_pid : Z;
  local_client_service : local_service.t;
  local_host_service : local_service.t;
  client_service_list : list remote_service.t;
  current_host : option remote_service.t;
  single_player_running : bool;
  env : world.t
}.

Definition set_timeout_source (v : Z) (st : state) : state :=
  mkState v (child_source st) (child_pid st) (local_client_service st)
    (local_host_service st) (client_service_list st) (current_host st)
    (single_player_running st) (env st).

Definition set_child_source (v : Z) (st : state) : state :=
  mkState (timeout_source st) v (child_pid st) (local_client_service st)
    (local_host_service st) (client_service_list st) (current_host st)
    (single_player_running st) (env st).

Definition set_child_pid (v : Z) (st : state) : state :=
  mkState (timeout_source st) (child_source st) v (local_client_service st)
    (local_host_service st) (client_service_list st) (current_host st)
    (single_player_running st) (env st).

Definition set_local_client_service (v : local_service.t) (st : state) : state :=
  mkState (timeout_source st) (child_source st) (child_pid st) v
    (local_host_service st) (client_service_list st) (current_host st)
    (single_player_running st) (env st).

Definition set_local_host_service (v : local_service.t) (st : state) : state :=
  mkState (timeout_source st) (child_source st) (child_pid st)
    (local_client_service st) v (client_service_list st) (current_host st)
    (single_player_running st) (env st).

Definition set_client_service_list (v : list remote_service.t) (st : state)
  : state :=
  mkState (timeout_source st) (child_source st) (child_pid st)
    (local_client_service st) (local_host_service st) v (current_host st)
    (single_player_running st) (env st).

Definition set_current_host (v : option remote_service.t) (st : state) : state :=
  mkState (timeout_source st) (child_source st) (child_pid st)
    (local_client_service st) (local_host_service st) (client_service_list st)
    v (single_player_running st) (env st).

Definition set_single_player_running (v : bool) (st : state) : state :=
  mkState (timeout_source st) (child_source st) (child_pid st)
    (local_client_service st) (local_host_service st) (client_service_list st)
    (current_host st) v (env st).

Definition set_env (v : world.t) (st : state) : state :=
  mkState (timeout_source st) (child_source st) (child_pid st)
    (local_client_service st) (local_host_service st) (client_service_list st)
    (current_host st) (single_player_running st) v.

Definition log (e : effect) (st : state) : state :=
  let w := env st in
  set_env (world.mk (world.now w) (world.next_source_id w) (world.sources w)
             (world.children w) (e :: world.trace w) (world.quit w)) st.

Definition set_sources (v : list (Z * GSource)) (st : state) : state :=
  let w := env st in
  set_env (world.mk (world.now w) (world.next_source_id w) v
             (world.children w) (world.trace w) (world.quit w)) st.

Definition set_children (v : list Z) (st : state) : state :=
  let w := env st in
  set_env (world.mk (world.now w) (world.next_source_id w) (world.sources w)
             v (world.trace w) (world.quit w)) st.

Definition set_now (v : Z) (st : state) : state :=
  let w := env st in
  set_env (world.mk v (world.next_source_id w) (world.sources w)
             (world.children w) (world.trace w) (world.quit w)) st.

Definition set_quit (v : bool) (st : state) : state :=
  let w := env st in
  set_env (world.mk (world.now w) (world.next_source_id w) (world.sources w)
             (world.children w) (world.trace w) v) st.

Definition bump_source_id (st : state) : state :=
  let w := env st in
  set_env (world.mk (world.now w) (Pos.succ (world.next_source_id w))
             (world.sources w) (world.children w) (world.trace w)
             (world.quit w)) st.

(** What the outside answers during one callback: the result of
    [g_spawn_async] (the new pid, or failure), whether
    [avahi_entry_group_new] succeeds, and the return codes of the successive
    [avahi_entry_group_add_service_strlst] calls (once the list is used up
    the call succeeds). *)
Record oracle := mkOracle {
  spawn_async : option positive;
  entry_group_new : bool;
  add_service_ret : list Z
}.

(** Values that depend on the machine and on Avahi's renaming scheme. *)
Record platform := mkPlatform {
  machine_id : string;
  avahi_alternative_service_name : string -> string
}.

(** A callback either returns or ends the program through [g_error]. *)
Inductive result :=
| Ok (st : state)
| Fatal (st : state).

Definition bind (r : result) (k : state -> result) : result :=
  match r with
  | Ok st => k st
  | Fatal st => Fatal st
  end.

Notation "'do' st <- r ; k" := (bind r (fun st => k))
  (at level 10, st name, r at level 100, k at level 200).

Definition state_of (r : result) : state :=
  match r with
  | Ok st => st
  | Fatal st => st
  end.

(** ** GLib and process primitives *)

Definition g_source_remove (id : Z) (st : state) : state :=
  log (SourceRemove id)
    (set_sources
       (filter (fun s => negb (fst s =? id)) (world.sources (env st))) st).

Definition g_timeout_add (interval : Z) (st : state) : Z * state :=
  let id := Zpos (world.next_source_id (env st)) in
  let deadline := world.now (env st) + interval in
  (id, log (TimeoutAdd interval id)
         (bump_source_id
            (set_sources
               (world.sources (env st) ++ [(id, TimeoutSource deadline)]) st))).

Definition g_child_watch_add (pid : Z) (st : state) : Z * state :=
  let id := Zpos (world.next_source_id (env st)) in
  (id, log (ChildWatchAdd pid id)
         (bump_source_id
            (set_sources (world.sources (env st) ++ [(id, ChildWatch pid)]) st))).

(** [kill(pid, SIGINT); waitpid(pid, NULL, 0)]: when [waitpid] returns the
    process is gone (it was reaped now, or was no child any more). *)
Definition kill_and_wait (pid : Z) (st : state) : state :=
  log (Waitpid pid)
    (log (Kill pid)
       (set_children
          (filter (fun p => negb (p =? pid)) (world.children (env st))) st)).

Definition g_spawn_async (o : oracle) (argv : strv) (st : state)
  : option Z * state :=
  match spawn_async o with
  | Some p =>
      (Some (Zpos p),
       log (SpawnAsync (strv_args argv) (Some p))
         (set_children (Zpos p :: world.children (env st)) st))
  | None => (None, log (SpawnAsync (strv_args argv) None) st)
  end.

(** ** The launcher *)

Inductive which_service := client_service | host_service.

Definition get_service (w : which_service) (st : state) : local_service.t :=
  match w with
  | client_service => local_client_service st
  | host_service => local_host_service st
  end.

Definition set_service (w : which_service) (s : local_service.t) (st : state)
  : state :=
  match w with
  | client_service => set_local_client_service s st
  | host_service => set_local_host_service s st
  end.

Definition stop_service (w : which_service) (st : state) : state :=
  let service := get_service w st in
  match local_service.group service with
  | Some _ =>
      set_service w (local_service.set_group None service)
        (log (EntryGroupFree (local_service.type service))
           (log (EntryGroupReset (local_service.type service)) st))
  | None => st
  end.

Definition stop_source_timer (st : state) : state :=
  if timeout_source st =? 0 then st
  else set_timeout_source 0 (g_source_remove (timeout_source st) st).

Section Launcher.

Variable cfg : config.t.
Variable plat : platform.

(** [config.source_wait * 1000] passed as the [guint] interval (the product
    is taken not to overflow [int]). *)
Definition source_interval : Z := (config.source_wait cfg * 1000) mod 2 ^ 32.

Definition restart_source_timer (st : state) : state :=
  let st := stop_source_timer st in
  let (id, st) := g_timeout_add source_interval st in
  set_timeout_source id st.

Definition spawn_child (o : oracle) (argv : strv) (st : state) : result :=
  let st :=
    if child_pid st =? 0 then st
    else set_child_pid 0 (kill_and_wait (child_pid st) st) in
  let st :=
    if child_source st =? 0 then st
    else set_child_source 0 (g_source_remove (child_source st) st) in
  match g_spawn_async o argv st with
  | (None, st) => Fatal st
  | (Some pid, st) =>
      let st := set_child_pid pid st in
      let (id, st) := g_child_watch_add pid st in
      Ok (set_child_source id st)
  end.

Definition config_args (config_file : option string) : strv :=
  match config_file with
  | Some f => [Some "-config"%string; Some f]
  | None => []
  end.

Definition single_player_argv : strv :=
  [Some (config.zdoom cfg); Some "-iwad"%string; Some (config.sp_wad cfg)]
    ++ config_args (config.sp_config cfg).

Definition launch_single_player (o : oracle) (st : state) : result :=
  let st := stop_service host_service st in
  if negb (single_player_running st) then
    do st <- spawn_child o single_player_argv st ;
    Ok (set_single_player_running true st)
  else Ok st.

Definition join_argv (host : remote_service.t) : strv :=
  [Some (config.zdoom cfg); Some "-iwad"%string; remote_service.wad host;
   Some "-join"%string; Some (remote_service.hostname host);
   Some "-port"%string; Some (string_of_Z (remote_service.port host))]
    ++ config_args (config.mp_config cfg).

(** Called only right after [current_host] was assigned; with no current
    host the C code would dereference NULL. *)
Definition connect_to_host (o : oracle) (st : state) : result :=
  match current_host st with
  | None => Fatal st
  | Some host =>
      let st := stop_service host_service st in
      do st <- spawn_child o (join_argv host) st ;
      Ok (set_single_player_running false st)
  end.

(** The renaming done by [handle_collision]. *)
Definition rename_service (w : which_service) (st : state) : state :=
  let service := get_service w st in
  set_service w
    (local_service.set_name
       (option_map (avahi_alternative_service_name plat)
          (local_service.name service)) service) st.

(** [create_service], with the recursion through [handle_collision]
    unrolled along the return codes of the add-service calls. *)
Fixpoint create_service (new_ok : bool) (rets : list Z) (w : which_service)
    (st : state) {struct rets} : result :=
  let service := get_service w st in
  let name :=
    match local_service.name service with
    | Some n => n
    | None => machine_id plat
    end in
  let type := local_service.type service in
  let service := local_service.set_name (Some name) service in
  let st := set_service w service st in
  let opened :=
    match local_service.group service with
    | Some g => Some (g, st)
    | None =>
        if new_ok then
          Some ([], log (EntryGroupNew type true)
                      (set_service w
                         (local_service.set_group (Some []) service) st))
        else None
    end in
  match opened with
  | None => Ok (log (EntryGroupNew type false) st)
  | Some (_ :: _, st) => Ok st
  | Some ([], st) =>
      let added ret :=
        log (AddService name type (local_service.port service)
               (local_service.txt_records service) ret) st in
      let committed :=
        Ok (log (Commit type)
              (set_service w
                 (local_service.set_group
                    (Some [(name, type, local_service.port service)])
                    (get_service w st))
                 (added 0))) in
      match rets with
      | [] => committed
      | ret :: rets' =>
          if ret =? 0 then committed
          else if ret =? AVAHI_ERR_COLLISION then
            create_service new_ok rets' w
              (rename_service w (log (EntryGroupReset type) (added ret)))
          else Fatal (added ret)
      end
  end.

Definition host_argv (num_players : Z) : strv :=
  [Some (config.zdoom cfg); Some "-iwad"%string; Some (config.mp_wad cfg);
   Some "-deathmatch"%string; Some "+map"%string; Some (config.mp_map cfg);
   Some "-host"%string; Some (string_of_Z num_players);
   Some "-port"%string; Some (string_of_Z (config.port cfg))]
    ++ config_args (config.mp_config cfg).

Definition host_game (o : oracle) (num_players : Z) (st : state) : result :=
  do st <- spawn_child o (host_argv num_players) st ;
  let st := set_single_player_running false st in
  create_service (entry_group_new o) (add_service_ret o) host_service st.

Definition on_child_exit (o : oracle) (pid status : Z) (st : state) : result :=
  if negb (pid =? child_pid st) then Ok st
  else
    let st := set_child_source 0 st in
    let st := set_single_player_running false st in
    launch_single_player o st.

Definition on_source_timeout (o : oracle) (st : state) : result :=
  let other_count := count_others (client_service_list st) in
  let best := hd_error (client_service_list st) in
  do st <-
    match best with
    | Some best =>
        if remote_service.can_host best then
          if negb (Z.land (remote_service.flags best)
                     AVAHI_LOOKUP_RESULT_OUR_OWN =? 0) then
            if negb (other_count =? 0) then host_game o (other_count + 1) st
            else launch_single_player o st
          else Ok st
        else launch_single_player o st
    | None => launch_single_player o st
    end ;
  Ok (set_timeout_source 0 st).

Inductive AvahiResolverEvent :=
| AVAHI_RESOLVER_FOUND
| AVAHI_RESOLVER_FAILURE.

Inductive AvahiBrowserEvent :=
| AVAHI_BROWSER_NEW
| AVAHI_BROWSER_REMOVE
| AVAHI_BROWSER_CACHE_EXHAUSTED
| AVAHI_BROWSER_ALL_FOR_NOW
| AVAHI_BROWSER_FAILURE.

Inductive AvahiClientState :=
| AVAHI_CLIENT_S_REGISTERING
| AVAHI_CLIENT_S_RUNNING
| AVAHI_CLIENT_S_COLLISION
| AVAHI_CLIENT_FAILURE
| AVAHI_CLIENT_CONNECTING.

(** The record [resolve_callback] builds from its arguments: zeroed
    ([can_host] false, [wad] NULL), then filled from the TXT list. *)
Definition resolved_service (interface protocol : Z)
    (name type domain host_name : string) (port : Z) (txt : list string)
    (flags : Z) : remote_service.t :=
  parse_txt txt
    (remote_service.mk interface protocol port name type domain host_name
       None flags false).

Definition resolve_callback (o : oracle) (interface protocol : Z)
    (event : AvahiResolverEvent) (name type domain host_name : string)
    (port : Z) (txt : list string) (flags : Z) (st : state) : result :=
  match event with
  | AVAHI_RESOLVER_FAILURE => Fatal st
  | AVAHI_RESOLVER_FOUND =>
      let service :=
        resolved_service interface protocol name type domain host_name port
          txt flags in
      if g_strcmp0 (Some type) (Some CLIENT_SERVICE_NAME) =? 0 then
        let kept :=
          filter (fun c => negb (remote_service_equal service c))
            (client_service_list st) in
        let st := set_client_service_list (sorted_insert service kept) st in
        if Z.land (remote_service.flags service)
             AVAHI_LOOKUP_RESULT_OUR_OWN =? 0
        then Ok (restart_source_timer st)
        else Ok st
      else if g_strcmp0 (Some type) (Some HOST_SERVICE_NAME) =? 0 then
        if Z.land (remote_service.flags service)
             AVAHI_LOOKUP_RESULT_OUR_OWN =? 0
        then
          let st := set_current_host (Some service) st in
          do st <- connect_to_host o st ;
          Ok (stop_source_timer st)
        else Ok st
      else Ok st
  end.

Definition removal_matches (name type domain : string)
    (s : remote_service.t) : bool :=
  (g_strcmp0 (Some (remote_service.name s)) (Some name) =? 0)
  && (g_strcmp0 (Some (remote_service.type s)) (Some type) =? 0)
  && (g_strcmp0 (Some (remote_service.domain s)) (Some domain) =? 0).

(** The removal loop of [browse_callback] over the registry: the entries
    kept, and the state after the timer restarts done on the way. *)
Fixpoint remove_clients (name type domain : string)
    (l : list remote_service.t) (st : state)
  : list remote_service.t * state :=
  match l with
  | [] => ([], st)
  | client :: rest =>
      if removal_matches name type domain client then
        let st :=
          if Z.land (remote_service.flags client)
               AVAHI_LOOKUP_RESULT_OUR_OWN =? 0
          then restart_source_timer st
          else st in
        remove_clients name type domain rest st
      else
        let (kept, st) := remove_clients name type domain rest st in
        (client :: kept, st)
  end.

Definition browse_callback (o : oracle) (interface protocol : Z)
    (event : AvahiBrowserEvent) (name type domain : string) (flags : Z)
    (st : state) : result :=
  match event with
  | AVAHI_BROWSER_REMOVE =>
      let (kept, st) :=
        remove_clients name type domain (client_service_list st) st in
      let st := set_client_service_list kept st in
      match current_host st with
      | Some host =>
          if removal_matches name type domain host then
            let st := set_current_host None st in
            do st <- launch_single_player o st ;
            Ok (restart_source_timer st)
          else Ok st
      | None => Ok st
      end
  | AVAHI_BROWSER_NEW
  | AVAHI_BROWSER_CACHE_EXHAUSTED
  | AVAHI_BROWSER_ALL_FOR_NOW
  | AVAHI_BROWSER_FAILURE => Ok st
  end.

Definition avahi_client_callback (o : oracle) (s : AvahiClientState)
    (st : state) : result :=
  match s with
  | AVAHI_CLIENT_S_RUNNING =>
      create_service (entry_group_new o) (add_service_ret o) client_service st
  | AVAHI_CLIENT_FAILURE => Ok (set_quit true (log MainLoopQuit st))
  | _ => Ok st
  end.

(** ** The main loop *)

(** What the loop receives from outside.  Timer expiry is not listed: the
    loop itself fires a timeout source once its deadline has passed.
    [entry_group_callback] is left out: it only renames and republishes a
    local service, and touches neither the registry, the timer nor the
    child. *)
Inductive event :=
| resolved (interface protocol : Z) (ev : AvahiResolverEvent)
    (name type domain host_name : string) (port : Z) (txt : list string)
    (flags : Z)
| browsed (interface protocol : Z) (ev : AvahiBrowserEvent)
    (name type domain : string) (flags : Z)
| child_exited (pid status : Z)
| client_state_changed (s : AvahiClientState).

Definition is_watch_of (pid : Z) (s : Z * GSource) : bool :=
  match snd s with
  | ChildWatch p => p =? pid
  | TimeoutSource _ => false
  end.

Definition is_due (t : Z) (s : Z * GSource) : bool :=
  match snd s with
  | TimeoutSource deadline => deadline <=? t
  | ChildWatch _ => false
  end.

(** A source whose callback is done and that does not repeat is dropped by
    the loop. *)
Definition destroy_sources (ids : list Z) (st : state) : state :=
  set_sources
    (filter (fun s => negb (existsb (Z.eqb (fst s)) ids))
       (world.sources (env st))) st.

Definition dispatch (o : oracle) (e : event) (st : state) : result :=
  match e with
  | resolved interface protocol ev name type domain host_name port txt flags =>
      resolve_callback o interface protocol ev name type domain host_name
        port txt flags st
  | browsed interface protocol ev name type domain flags =>
      browse_callback o interface protocol ev name type domain flags st
  | child_exited pid status =>
      (* the child watch reaps the child, calls back once, and is dropped *)
      let watches := filter (is_watch_of pid) (world.sources (env st)) in
      match watches with
      | [] => Ok st
      | _ :: _ =>
          let st :=
            set_children
              (filter (fun p => negb (p =? pid)) (world.children (env st)))
              st in
          do st <- on_child_exit o pid status st ;
          Ok (destroy_sources (map fst watches) st)
      end
  | client_state_changed s => avahi_client_callback o s st
  end.

(** Fire the timeout sources that are due at time [t], in the order they
    were attached.  [on_source_timeout] returns FALSE, so each source fires
    once and is dropped; [fuel] bounds the number of firings. *)
Fixpoint fire_due (fuel : nat) (answers : Z -> oracle) (t : Z) (st : state)
  : result :=
  match fuel with
  | O => Ok st
  | S fuel' =>
      match find (is_due t) (world.sources (env st)) with
      | Some (id, TimeoutSource deadline) =>
          let at_time := Z.max (world.now (env st)) deadline in
          let st := log (TimeoutDispatch id at_time) (set_now at_time st) in
          do st <- on_source_timeout (answers id) st ;
          fire_due fuel' answers t (destroy_sources [id] st)
      | _ => Ok st
      end
  end.

(** Let the clock reach [t]. *)
Definition advance (answers : Z -> oracle) (t : Z) (st : state) : result :=
  do st <- fire_due (List.length (world.sources (env st))) answers t st ;
  Ok (set_now (Z.max (world.now (env st)) t) st).

(** Run the loop over a schedule of timed outside events; [answers] gives
    the outside's answers to the timer callback of each timeout source.
    The loop stops once [g_main_loop_quit] was called. *)
Fixpoint main_loop (answers : Z -> oracle)
    (schedule : list (Z * oracle * event)) (st : state) : result :=
  match schedule with
  | [] => Ok st
  | (t, o, e) :: rest =>
      if world.quit (env st) then Ok st
      else
        do st <- advance answers t st ;
        do st <- dispatch o e st ;
        main_loop answers rest st
  end.

(** The globals as [main] leaves them before the loop starts. *)
Definition initial_state : state :=
  mkState 0 0 0
    (local_service.mk None None CLIENT_SERVICE_NAME (config.port cfg)
       [(CAN_HOST_KEY ++ "=" ++ (if config.can_host cfg then "1" else "0"))%string])
    (local_service.mk None None HOST_SERVICE_NAME (config.port cfg)
       [(WAD_KEY ++ "=" ++ config.mp_wad cfg)%string])
    [] None false
    (world.mk 0 1%positive [] [] [] false).

(** [main]: [avahi_client_new] may report the client state from within the
    call ([startup]); a quit requested then is lost, since [g_main_loop_run]
    marks the loop as running when it starts.  The single-player game is
    launched, then the loop runs. *)
Definition main (startup : option (oracle * AvahiClientState)) (o : oracle)
    (answers : Z -> oracle) (schedule : list (Z * oracle * event)) : result :=
  do st <-
    match startup with
    | Some (o0, s) => avahi_client_callback o0 s initial_state
    | None => Ok initial_state
    end ;
  do st <- launch_single_player o st ;
  main_loop answers schedule (set_quit false st).

End Launcher.

(** ** Configuration *)

Definition DEFAULT_CONFIG_PATH : string := "/etc/oe-zdoom/config.ini".
Definition DEFAULT_ZDOOM : string := "zdoom".
Definition DEFAULT_MP_WAD : string := "freedm.wad".
Definition DEFAULT_MP_MAP : string := "MAP01".
Definition DEFAULT_SP_WAD : string := "freedoom1.wad".
Definition DEFAULT_SOURCE_WAIT : Z := 30.

(** What a loaded [GKeyFile] answers to the lookups of [parse_config]:
    [g_key_file_get_string] gives NULL for a missing key,
    [g_key_file_get_boolean] gives FALSE and sets the error for a missing or
    malformed key (here [None]), [g_key_file_get_integer] gives 0 then. *)
Module GKeyFile.
Record t := mk {
  multiplayer_wad : option string;
  multiplayer_map : option string;
  multiplayer_config : option string;
  singleplayer_wad : option string;
  singleplayer_config : option string;
  multiplayer_can_host : option bool;
  multiplayer_port : Z;
  multiplayer_wait : Z
}.
End GKeyFile.

Definition or_default (value : option string) (default : string) : string :=
  match value with
  | Some v => v
  | None => default
  end.

(** [parse_config]: [options_ok] is the result of [g_option_context_parse],
    [config_option] the value of [--config] if given, [loaded] the key file
    when [g_key_file_load_from_file] succeeds.  The result is the
    configuration when the function returns true. *)
Definition parse_config (options_ok : bool) (config_option : option string)
    (loaded : option GKeyFile.t) : option config.t :=
  let config_file_path := or_default config_option DEFAULT_CONFIG_PATH in
  if negb options_ok then None
  else
    match loaded with
    | None =>
        if g_strcmp0 (Some config_file_path) (Some DEFAULT_CONFIG_PATH) =? 0
        then
          Some (config.mk 5029 DEFAULT_ZDOOM DEFAULT_MP_WAD DEFAULT_MP_MAP None
                  DEFAULT_SP_WAD None true DEFAULT_SOURCE_WAIT)
        else None
    | Some key_file =>
        let mp_wad :=
          or_default (GKeyFile.multiplayer_wad key_file) DEFAULT_MP_WAD in
        let mp_map :=
          or_default (GKeyFile.multiplayer_map key_file) DEFAULT_MP_MAP in
        let mp_config := GKeyFile.multiplayer_config key_file in
        let sp_wad :=
          or_default (GKeyFile.singleplayer_wad key_file) DEFAULT_SP_WAD in
        let sp_config := GKeyFile.singleplayer_config key_file in
        let can_host :=
          match GKeyFile.multiplayer_can_host key_file with
          | Some b => b
          | None => false
          end in
        let can_host :=
          if negb can_host then
            match GKeyFile.multiplayer_can_host key_file with
            | None => true
            | Some _ => can_host
            end
          else can_host in
        let ival := GKeyFile.multiplayer_port key_file in
        (* [config.port] is a [uint16_t] *)
        let port := if 0 <? ival then ival mod 2 ^ 16 else 5029 in
        let ival := GKeyFile.multiplayer_wait key_file in
        let source_wait := if 0 <? ival then ival else DEFAULT_SOURCE_WAIT in
        Some (config.mk port DEFAULT_ZDOOM mp_wad mp_map mp_config sp_wad
                sp_config can_host source_wait)
    end.

(** ** Notions used in the statements *)

(** The election order in words: host-capable entries first, then ascending
    service name. *)
Definition election_le (a b : remote_service.t) : Prop :=
  (remote_service.can_host a = true /\ remote_service.can_host b = false)
  \/ (remote_service.can_host a = remote_service.can_host b
      /\ String.leb (remote_service.name a) (remote_service.name b) = true).

(** The composite discovery identity of a peer. *)
Definition identity (s : remote_service.t) : string * string * string * Z * Z :=
  (remote_service.name s, remote_service.type s, remote_service.domain s,
   remote_service.interface s, remote_service.protocol s).

(** The part of the identity that [remote_service_equal] looks at. *)
Definition equal_key (s : remote_service.t) : string * string * Z * Z :=
  (remote_service.name s, remote_service.type s,
   remote_service.interface s, remote_service.protocol s).

(** The values a TXT list gives to [key], in list order. *)
Definition txt_values (key : string) (txt : list string) : list (option string) :=
  map snd
    (filter (fun kv => String.eqb (fst kv) key)
       (map avahi_string_list_get_pair txt)).

Definition is_timeout (s : Z * GSource) : bool :=
  match snd s with
  | TimeoutSource _ => true
  | ChildWatch _ => false
  end.

Definition pending_timers (st : state) : list (Z * GSource) :=
  filter is_timeout (world.sources (env st)).

(** Every timeout source of the loop is the one [timeout_source] names. *)
Definition timers_tracked (st : state) : bool :=
  forallb (fun s => (fst s =? timeout_source st) && negb (fst s =? 0))
    (pending_timers st).

(** Every live child is the one [child_pid] names. *)
Definition children_tracked (st : state) : Prop :=
  world.children (env st) = []
  \/ (world.children (env st) = [child_pid st] /\ child_pid st <> 0).

(** Registry entries are client records, the current host is a host record. *)
Definition types_kept (st : state) : bool :=
  forallb (fun c => String.eqb (remote_service.type c) CLIENT_SERVICE_NAME)
    (client_service_list st)
  && match current_host st with
     | Some host => String.eqb (remote_service.type host) HOST_SERVICE_NAME
     | None => true
     end.

Definition is_election (e : effect) : bool :=
  match e with
  | TimeoutDispatch _ _ => true
  | _ => false
  end.

(** The election decisions taken so far. *)
Definition elections (st : state) : list effect :=
  filter is_election (world.trace (env st)).

Definition is_spawn (e : effect) : bool :=
  match e with
  | SpawnAsync _ _ => true
  | _ => false
  end.

(** The process launches attempted so far. *)
Definition spawns (st : state) : list effect :=
  filter is_spawn (world.trace (env st)).

(** The registry invariant: sorted by the election order, and no two entries
    with the same name, type, interface and protocol. *)
Definition registry_kept (l : list remote_service.t) : Prop :=
  StronglySorted election_le l /\ NoDup (map equal_key l).

(** [holds P Q r]: [P] for the state a callback returns, [Q] for the state
    in which it ended the program. *)
Definition holds (P Q : state -> Prop) (r : result) : Prop :=
  match r with
  | Ok st => P st
  | Fatal st => Q st
  end.

(** A registry entry of another node that a removal event names. *)
Definition removes_peer (name type domain : string) (c : remote_service.t)
  : bool :=
  removal_matches name type domain c
  && (Z.land (remote_service.flags c) AVAHI_LOOKUP_RESULT_OUR_OWN =? 0).

(** A registry-mutating discovery event from a peer other than ourselves,
    arriving in state [st]: a client record of another node resolves, or a
    removal names a registered entry of another node. *)
Definition non_self_registry_event (st : state) (e : event) : bool :=
  match e with
  | resolved _ _ AVAHI_RESOLVER_FOUND _ type _ _ _ _ flags =>
      String.eqb type CLIENT_SERVICE_NAME
      && (Z.land flags AVAHI_LOOKUP_RESULT_OUR_OWN =? 0)
  | browsed _ _ AVAHI_BROWSER_REMOVE name type domain _ =>
      existsb (removes_peer name type domain) (client_service_list st)
  | _ => false
  end.

(** A burst: each event of the schedule is such an event and arrives less
    than one quiet period after the one before it (the first one after time
    [previous]). *)
Fixpoint burst (cfg : config.t) (plat : platform) (answers : Z -> oracle)
    (previous : Z) (schedule : list (Z * oracle * event)) (st : state) : Prop :=
  match schedule with
  | [] => True
  | (t, o, e) :: rest =>
      previous <= t < previous + source_interval cfg
      /\ non_self_registry_event st e = true
      /\ burst cfg plat answers t rest
           (state_of
              (do s <- advance cfg plat answers t st ; dispatch cfg plat o e s))
  end.

Fixpoint last_time (previous : Z) (schedule : list (Z * oracle * event)) : Z :=
  match schedule with
  | [] => previous
  | (t, _, _) :: rest => last_time t rest
  end.

(** One election timer is pending, set at time [T]. *)
Definition armed (cfg : config.t) (T : Z) (st : state) : Prop :=
  timers_tracked st = true
  /\ types_kept st = true
  /\ world.quit (env st) = false
  /\ world.now (env st) = T
  /\ exists id,
      pending_timers st = [(id, TimeoutSource (T + source_interval cfg))].

(** What the claims about timers assume of a state; it holds in every state
    the loop reaches. *)
Definition ready (st : state) : Prop :=
  timers_tracked st = true /\ types_kept st = true.

(** ** Frames: what each operation leaves alone *)

(** What [spawn_child] leaves alone. *)
Definition outside_spawn (st : state) :=
  (timeout_source st, local_client_service st, local_host_service st,
   client_service_list st, current_host st, single_player_running st,
   world.now (env st), world.quit (env st), elections st).

(** What a change of game leaves alone. *)
Definition outside_game (st : state) :=
  (timeout_source st, local_client_service st, client_service_list st,
   current_host st, world.now (env st), world.quit (env st), elections st).

Definition other_service (w : which_service) : which_service :=
  match w with
  | client_service => host_service
  | host_service => client_service
  end.

(** What publishing or withdrawing service [w] leaves alone. *)
Definition outside_service (w : which_service) (st : state) :=
  (timeout_source st, child_source st, child_pid st,
   get_service (other_service w) st, client_service_list st, current_host st,
   single_player_running st, world.now (env st),
   world.next_source_id (env st), world.sources (env st),
   world.children (env st), world.quit (env st), spawns st, elections st).

(** What the timer operations leave alone. *)
Definition outside_timer (st : state) :=
  (child_source st, child_pid st, local_client_service st,
   local_host_service st, client_service_list st, current_host st,
   single_player_running st, world.now (env st), world.children (env st),
   world.quit (env st), spawns st, elections st).

(** The key by which the election compares candidates. *)
Definition election_key (s : remote_service.t) : bool * string :=
  (remote_service.can_host s, remote_service.name s).

(** A key file in which none of the keys is set. *)
Definition empty_key_file : GKeyFile.t :=
  GKeyFile.mk None None None None None None 0 0.

(** An event that is not the resolution of another node's record. *)
Definition from_self (e : event) : bool :=
  match e with
  | resolved _ _ _ _ _ _ _ _ _ flags => our_own flags
  | _ => true
  end.

(** No timer is pending, no election was held, no host is known and every
    registered record is our own. *)
Definition alone (st : state) : Prop :=
  pending_timers st = []
  /\ elections st = []
  /\ current_host st = None
  /\ forallb (fun c => our_own (remote_service.flags c))
       (client_service_list st) = true.

(** The name a local service is published under first: the one it has, or
    else the machine id. *)
Definition first_name (plat : platform) (service : local_service.t) : string :=
  match local_service.name service with
  | Some n => n
  | None => machine_id plat
  end.

Definition unpublished (service : local_service.t) : Prop :=
  local_service.group service = None \/ local_service.group service = Some [].

(** What a local service advertises: its type, port and TXT entries. *)
Definition advert (service : local_service.t) : string * Z * list string :=
  (local_service.type service, local_service.port service,
   local_service.txt_records service).

Definition adverts (st : state) :=
  (advert (local_client_service st), advert (local_host_service st)).

(** The node runs the game server: the last process launched is the host
    command line, its launch succeeded, it is the child being watched for,
    and no single-player game is recorded as running. *)
Definition hosting (cfg : config.t) (st : state) : Prop :=
  single_player_running st = false
  /\ exists num_players pid,
       hd_error (spawns st)
       = Some (SpawnAsync (strv_args (host_argv cfg num_players)) (Some pid))
       /\ child_pid st = Zpos pid.

(** The host service has an entry group only while the node hosts. *)
Definition host_advert_justified (cfg : config.t) (st : state) : Prop :=
  local_service.group (local_host_service st) = None \/ hosting cfg st.

(** The fields [host_advert_justified] reads. *)
Definition game (st : state) :=
  (local_host_service st, single_player_running st, spawns st, child_pid st).

(** ** Example runs *)

(** The configuration [parse_config] sets when no file is read. *)
Definition default_config : config.t :=
  config.mk 5029 "zdoom" "freedm.wad" "MAP01" None "freedoom1.wad" None true 30.

Definition example_platform : platform :=
  mkPlatform "0123456789abcdef0123456789abcdef"
    (fun name => (name ++ " #2")%string).

(** Every call succeeds; a spawned child gets pid [pid]. *)
Definition answer (pid : positive) : oracle := mkOracle (Some pid) true [].

Definition example_answers (id : Z) : oracle := answer 300.

(** A client record of peer [name] resolving on the LAN. *)
Definition client_found (name : string) (txt : list string) (flags : Z) : event :=
  resolved 2 0 AVAHI_RESOLVER_FOUND name CLIENT_SERVICE_NAME "local"
    (name ++ ".local") 5029 txt flags.

Definition host_found (name : string) (txt : list string) (flags : Z) : event :=
  resolved 2 0 AVAHI_RESOLVER_FOUND name HOST_SERVICE_NAME "local"
    (name ++ ".local") 5029 txt flags.

Definition example_run (schedule : list (Z * oracle * event)) : result :=
  main default_config example_platform (Some (answer 1, AVAHI_CLIENT_S_RUNNING))
    (answer 100) example_answers schedule.

(** Self "A" and the peers "B" and "C" are registered; "A" is host-capable
    and sorts first. *)
Definition three_candidates : state :=
  state_of
    (example_run
       [(1000, answer 101, client_found "A" ["can-host=1"%string] 16);
        (2000, answer 102, client_found "B" ["can-host=0"%string] 0);
        (3000, answer 103, client_found "C" ["can-host=0"%string] 0)]).

(** The same three, none of them host-capable (the node runs with
    [can-host = false]). *)
Definition hostless_config : config.t :=
  config.mk 5029 "zdoom" "freedm.wad" "MAP01" None "freedoom1.wad" None false 30.

Definition three_incapable : state :=
  state_of
    (main hostless_config example_platform
       (Some (answer 1, AVAHI_CLIENT_S_RUNNING)) (answer 100) example_answers
       [(1000, answer 101, client_found "A" ["can-host=0"%string] 16);
        (2000, answer 102, client_found "B" ["can-host=0"%string] 0);
        (3000, answer 103, client_found "C" ["can-host=0"%string] 0)]).

(** The node joined the game of host "H"; then peer "B", which cannot host,
    was discovered. *)
Definition joined_then_peer : state :=
  state_of
    (example_run
       [(1000, answer 101, host_found "H" ["wad=freedm.wad"%string] 0);
        (2000, answer 102, client_found "B" ["can-host=0"%string] 0)]).

(** The node is alone with the host-capable peer "B". *)
Definition capable_peer_first : state :=
  state_of
    (example_run
       [(1000, answer 101, client_found "B" ["can-host=1"%string] 0);
        (2000, answer 102, client_found "C" ["can-host=1"%string] 16)]).

(** Our own record "A" has just resolved; the loop clock stands at 1000. *)
Definition self_registered : state :=
  state_of
    (example_run [(1000, answer 101, client_found "A" ["can-host=1"%string] 16)]).

(** Peers "B" and "C" appear, then "B" leaves, all within the quiet period. *)
Definition burst_tail : list (Z * oracle * event) :=
  [(2000, answer 102, client_found "C" ["can-host=0"%string] 0);
   (25000, answer 103,
    browsed 2 0 AVAHI_BROWSER_REMOVE "B" CLIENT_SERVICE_NAME "local" 0)].

(** Self "A" and the peers "B" and "C" register; the quiet period passes
    and the node, first in the registry, starts hosting. *)
Definition hosting_run : result :=
  example_run
    [(1000, answer 101, client_found "A" ["can-host=1"%string] 16);
     (2000, answer 102, client_found "B" ["can-host=0"%string] 0);
     (3000, answer 103, client_found "C" ["can-host=0"%string] 0);
     (100000, answer 104,
      browsed 2 0 AVAHI_BROWSER_ALL_FOR_NOW "" CLIENT_SERVICE_NAME "local" 0)].

(** ** String comparison *)

Lemma ascii_compare_refl (a : ascii) : Ascii.compare a a = Eq.
Proof. unfold Ascii.compare. apply N.compare_refl. Qed.

Lemma string_compare_refl (s : string) : String.compare s s = Eq.
Proof.
  induction s as [|a s IH]; simpl; [reflexivity|].
  now rewrite ascii_compare_refl.
Qed.

Lemma string_compare_eq (a b : string) : String.compare a b = Eq <-> a = b.
Proof.
  split; [apply String.compare_eq_iff|].
  intros ->. apply string_compare_refl.
Qed.

Lemma string_leb_trans (a b c : string) :
  String.leb a b = true -> String.leb b c = true -> String.leb a c = true.
Proof.
  unfold String.leb. revert b c.
  induction a as [|x a IH]; intros [|y b] [|z c]; simpl; try congruence.
  specialize (IH b c).
  destruct (Ascii.compare x y) eqn:Hxy; try congruence.
  - apply Ascii.compare_eq_iff in Hxy. subst y.
    destruct (Ascii.compare x z); auto.
  - intros _.
    destruct (Ascii.compare y z) eqn:Hyz; try congruence.
    + apply Ascii.compare_eq_iff in Hyz. subst z. now rewrite Hxy.
    + unfold Ascii.compare in *.
      rewrite N.compare_lt_iff in Hxy, Hyz.
      assert (H : (N_of_ascii x ?= N_of_ascii z)%N = Lt)
        by (apply N.compare_lt_iff; lia).
      now rewrite H.
Qed.

Lemma g_strcmp0_eq (a b : string) :
  (g_strcmp0 (Some a) (Some b) =? 0) = true <-> a = b.
Proof.
  simpl. rewrite <- string_compare_eq.
  destruct (String.compare a b); simpl; split; congruence.
Qed.

Lemma g_strcmp0_eqb (a b : string) :
  (g_strcmp0 (Some a) (Some b) =? 0) = String.eqb a b.
Proof.
  destruct (String.eqb a b) eqn:E.
  - apply g_strcmp0_eq. now apply String.eqb_eq.
  - apply String.eqb_neq in E.
    destruct (g_strcmp0 (Some a) (Some b) =? 0) eqn:G; [|reflexivity].
    apply g_strcmp0_eq in G. contradiction.
Qed.

Lemma g_strcmp0_value (value : option string) (s : string) :
  (g_strcmp0 value (Some s) =? 0) = true <-> value = Some s.
Proof.
  destruct value as [v|].
  - rewrite g_strcmp0_eq. split; congruence.
  - simpl. split; discriminate.
Qed.

(** ** The registry operations *)

Lemma remote_service_equal_spec (a b : remote_service.t) :
  remote_service_equal a b = true <-> equal_key a = equal_key b.
Proof.
  unfold remote_service_equal, equal_key.
  rewrite !andb_true_iff, !g_strcmp0_eq, !Z.eqb_eq.
  split.
  - intros [[[-> ->] ->] ->]. reflexivity.
  - intros H. injection H as -> -> -> ->. auto.
Qed.

Lemma in_sorted_insert (s x : remote_service.t) (l : list remote_service.t) :
  In x (sorted_insert s l) <-> x = s \/ In x l.
Proof.
  induction l as [|c l IH]; simpl.
  - intuition.
  - destruct (cmp_remote_service s c <? 0); simpl; [|rewrite IH]; intuition.
Qed.

Lemma last_cons {A} (a d : A) (l : list A) : last (a :: l) d = last l a.
Proof.
  revert a d. induction l as [|b l IH]; intros a d; [reflexivity|].
  change (last (a :: b :: l) d) with (last (b :: l) d).
  now rewrite !IH.
Qed.

Lemma parse_txt_can_host (txt : list string) :
  forall (service : remote_service.t) (d : option string),
    (remote_service.can_host service = true <-> d = Some "1"%string) ->
    (remote_service.can_host (parse_txt txt service) = true
     <-> last (txt_values CAN_HOST_KEY txt) d = Some "1"%string).
Proof.
  induction txt as [|text next IH]; intros service d Hd; [exact Hd|].
  unfold txt_values in *. cbn [parse_txt map].
  destruct (avahi_string_list_get_pair text) as [key value] eqn:Hpair.
  rewrite g_strcmp0_eqb. cbn [filter fst].
  destruct (String.eqb key CAN_HOST_KEY) eqn:Hkey.
  - cbn [map snd]. rewrite last_cons. apply IH.
    apply g_strcmp0_value.
  - destruct (g_strcmp0 (Some key) (Some WAD_KEY) =? 0); apply IH; exact Hd.
Qed.

(** The claim of C10 as it is worded holds for TXT lists that give the key at
    most once. *)
Lemma can_host_single_key (txt : list string) (service : remote_service.t) :
  remote_service.can_host service = false ->
  (List.length (txt_values CAN_HOST_KEY txt) <= 1)%nat ->
  (remote_service.can_host (parse_txt txt service) = true
   <-> In (Some "1"%string) (txt_values CAN_HOST_KEY txt)).
Proof.
  intros Hs Hlen.
  rewrite (parse_txt_can_host txt service None)
    by (rewrite Hs; split; discriminate).
  destruct (txt_values CAN_HOST_KEY txt) as [|v [|w l]]; simpl in *.
  - split; [discriminate|tauto].
  - split; [auto|]. intros [H|[]]. exact H.
  - lia.
Qed.

Lemma parse_txt_fields (txt : list string) (service : remote_service.t) :
  let s := parse_txt txt service in
  remote_service.interface s = remote_service.interface service
  /\ remote_service.protocol s = remote_service.protocol service
  /\ remote_service.port s = remote_service.port service
  /\ remote_service.name s = remote_service.name service
  /\ remote_service.type s = remote_service.type service
  /\ remote_service.domain s = remote_service.domain service
  /\ remote_service.hostname s = remote_service.hostname service
  /\ remote_service.flags s = remote_service.flags service.
Proof.
  revert service. induction txt as [|text next IH]; intros service; cbn zeta.
  - repeat split.
  - cbn [parse_txt].
    destruct (avahi_string_list_get_pair text) as [key value].
    destruct (g_strcmp0 (Some key) (Some CAN_HOST_KEY) =? 0);
      [|destruct (g_strcmp0 (Some key) (Some WAD_KEY) =? 0)];
      match goal with
      | |- context [parse_txt next ?s] =>
          destruct (IH s) as (H1 & H2 & H3 & H4 & H5 & H6 & H7 & H8);
          rewrite H1, H2, H3, H4, H5, H6, H7, H8
      end; repeat split.
Qed.

Lemma resolved_service_fields interface protocol name type domain host_name
    port txt flags :
  let s :=
    resolved_service interface protocol name type domain host_name port txt
      flags in
  remote_service.interface s = interface
  /\ remote_service.protocol s = protocol
  /\ remote_service.port s = port
  /\ remote_service.name s = name
  /\ remote_service.type s = type
  /\ remote_service.domain s = domain
  /\ remote_service.hostname s = host_name
  /\ remote_service.flags s = flags.
Proof. apply (parse_txt_fields txt). Qed.

(** The state a client-type resolution leaves: the registry is updated and
    the timer restarted unless the record is our own. *)
Lemma resolve_callback_client cfg o interface protocol name domain host_name
    port txt flags st :
  client_service_list
    (state_of
       (resolve_callback cfg o interface protocol AVAHI_RESOLVER_FOUND name
          CLIENT_SERVICE_NAME domain host_name port txt flags st))
  = let service :=
      resolved_service interface protocol name CLIENT_SERVICE_NAME domain
        host_name port txt flags in
    sorted_insert service
      (filter (fun c => negb (remote_service_equal service c))
         (client_service_list st)).
Proof.
  unfold resolve_callback.
  replace (g_strcmp0 (Some CLIENT_SERVICE_NAME) (Some CLIENT_SERVICE_NAME) =? 0)
    with true by reflexivity.
  cbv beta iota zeta.
  destruct (Z.land _ AVAHI_LOOKUP_RESULT_OUR_OWN =? 0); [|reflexivity].
  unfold restart_source_timer, stop_source_timer, g_timeout_add.
  cbn [state_of client_service_list set_client_service_list timeout_source].
  destruct (timeout_source st =? 0); reflexivity.
Qed.

Lemma parse_txt_wad (txt : list string) :
  forall service : remote_service.t,
    remote_service.wad (parse_txt txt service)
    = last (txt_values WAD_KEY txt) (remote_service.wad service).
Proof.
  induction txt as [|text next IH]; intros service; [reflexivity|].
  unfold txt_values in *. cbn [parse_txt map].
  destruct (avahi_string_list_get_pair text) as [key value] eqn:Hpair.
  rewrite !g_strcmp0_eqb. cbn [filter fst].
  destruct (String.eqb key CAN_HOST_KEY) eqn:Hcan.
  - apply String.eqb_eq in Hcan. subst key.
    replace (String.eqb CAN_HOST_KEY WAD_KEY) with false by reflexivity.
    now rewrite IH.
  - destruct (String.eqb key WAD_KEY); [|now rewrite IH].
    cbn [map snd]. now rewrite last_cons, IH.
Qed.

(** ** Timers *)


Lemma pending_timers_remove (id : Z) (st : state) :
  pending_timers (g_source_remove id st)
  = filter (fun s => negb (fst s =? id)) (pending_timers st).
Proof.
  unfold pending_timers, g_source_remove. cbn.
  induction (world.sources (env st)) as [|s l IH]; [reflexivity|].
  cbn [filter].
  destruct (negb (fst s =? id)) eqn:E1, (is_timeout s) eqn:E2;
    cbn [filter]; rewrite ?E1, ?E2, IH; reflexivity.
Qed.

Lemma tracked_all_removed (st : state) :
  timers_tracked st = true ->
  filter (fun s => negb (fst s =? timeout_source st)) (pending_timers st) = [].
Proof.
  unfold timers_tracked. intros H.
  induction (pending_timers st) as [|s l IH]; [reflexivity|].
  cbn [forallb filter] in *.
  apply andb_true_iff in H as [Hs Hl].
  apply andb_true_iff in Hs as [Hs _].
  rewrite Hs. cbn. auto.
Qed.

Lemma tracked_no_timer_when_zero (st : state) :
  timers_tracked st = true -> timeout_source st = 0 -> pending_timers st = [].
Proof.
  unfold timers_tracked. intros H Hz.
  destruct (pending_timers st) as [|s l]; [reflexivity|].
  cbn [forallb] in H. rewrite Hz in H.
  destruct (fst s =? 0); discriminate.
Qed.

Lemma stop_source_timer_spec (st : state) :
  timers_tracked st = true ->
  pending_timers (stop_source_timer st) = []
  /\ timeout_source (stop_source_timer st) = 0.
Proof.
  intros H. unfold stop_source_timer.
  destruct (timeout_source st =? 0) eqn:E.
  - apply Z.eqb_eq in E. split; [now apply tracked_no_timer_when_zero|exact E].
  - split; [|reflexivity].
    change (pending_timers (set_timeout_source 0 ?s)) with (pending_timers s).
    rewrite pending_timers_remove. now apply tracked_all_removed.
Qed.

Lemma pending_timers_app (st : state) (extra : list (Z * GSource)) :
  pending_timers (set_sources (world.sources (env st) ++ extra) st)
  = pending_timers st ++ filter is_timeout extra.
Proof. unfold pending_timers. cbn. apply filter_app. Qed.

Lemma restart_source_timer_spec (cfg : config.t) (st : state) :
  timers_tracked st = true ->
  let st' := restart_source_timer cfg st in
  let id := Zpos (world.next_source_id (env st)) in
  pending_timers st'
  = [(id, TimeoutSource (world.now (env st) + source_interval cfg))]
  /\ timeout_source st' = id
  /\ timers_tracked st' = true.
Proof.
  intros H. destruct (stop_source_timer_spec st H) as [Hp Hz].
  unfold restart_source_timer, g_timeout_add.
  assert (Hnext : world.next_source_id (env (stop_source_timer st))
                  = world.next_source_id (env st))
    by (unfold stop_source_timer; destruct (timeout_source st =? 0); reflexivity).
  assert (Hnow : world.now (env (stop_source_timer st)) = world.now (env st))
    by (unfold stop_source_timer; destruct (timeout_source st =? 0); reflexivity).
  set (s0 := stop_source_timer st) in *.
  cbn zeta.
  assert (Hpend :
    pending_timers
      (set_timeout_source (Z.pos (world.next_source_id (env s0)))
         (log (TimeoutAdd (source_interval cfg)
                 (Z.pos (world.next_source_id (env s0))))
            (bump_source_id
               (set_sources
                  (world.sources (env s0) ++
                   [(Z.pos (world.next_source_id (env s0)),
                     TimeoutSource (world.now (env s0) + source_interval cfg))])
                  s0))))
    = [(Z.pos (world.next_source_id (env st)),
        TimeoutSource (world.now (env st) + source_interval cfg))]).
  { change (pending_timers (set_timeout_source ?a (log ?e (bump_source_id ?s))))
      with (pending_timers s).
    rewrite pending_timers_app, Hp, Hnext, Hnow. reflexivity. }
  split; [exact Hpend|]. split; [cbn; now rewrite Hnext|].
  unfold timers_tracked. rewrite Hpend. cbn. rewrite Hnext, Pos.eqb_refl.
  reflexivity.
Qed.

Lemma tracked_filter (st st' : state) (keep : Z * GSource -> bool) :
  timers_tracked st = true ->
  timeout_source st' = timeout_source st ->
  pending_timers st' = filter keep (pending_timers st) ->
  timers_tracked st' = true.
Proof.
  unfold timers_tracked. intros H Ht Hp. rewrite Hp, Ht.
  rewrite forallb_forall in *. intros s Hs. apply H.
  apply filter_In in Hs. tauto.
Qed.

(** ** Process supervision *)

Ltac destruct_state st :=
  let w := fresh "w" in
  destruct st as [tsrc csrc cpid lcs lhs reg chost spr w];
  destruct w as [clock nxt srcs kids tr qt].

Ltac state_simpl :=
  unfold elections, spawns, pending_timers, children_tracked in *;
  cbn [timeout_source child_source child_pid local_client_service
       local_host_service client_service_list current_host
       single_player_running env set_timeout_source set_child_source
       set_child_pid set_local_client_service set_local_host_service
       set_client_service_list set_current_host set_single_player_running
       set_env log set_sources set_children set_now set_quit bump_source_id
       world.now world.next_source_id world.sources world.children
       world.trace world.quit get_service set_service state_of bind] in *.

Ltac spawn_child_cases cpid csrc o :=
  unfold spawn_child, g_spawn_async; cbn -[strv_args Z.eqb];
  destruct (cpid =? 0) eqn:?; cbn -[strv_args Z.eqb];
  destruct (csrc =? 0) eqn:?; cbn -[strv_args Z.eqb];
  destruct (spawn_async o) eqn:?; cbn -[strv_args Z.eqb].

Lemma spawn_child_result (o : oracle) (argv : strv) (st : state) :
  spawn_child o argv st
  = match spawn_async o with
    | Some _ => Ok (state_of (spawn_child o argv st))
    | None => Fatal (state_of (spawn_child o argv st))
    end.
Proof.
  unfold spawn_child, g_spawn_async.
  destruct (spawn_async o); reflexivity.
Qed.

Lemma spawn_child_frame (o : oracle) (argv : strv) (st : state) :
  outside_spawn (state_of (spawn_child o argv st)) = outside_spawn st.
Proof.
  destruct_state st. spawn_child_cases cpid csrc o; reflexivity.
Qed.

Lemma spawn_child_spawns (o : oracle) (argv : strv) (st : state) :
  spawns (state_of (spawn_child o argv st))
  = SpawnAsync (strv_args argv) (spawn_async o) :: spawns st.
Proof.
  destruct_state st. spawn_child_cases cpid csrc o; reflexivity.
Qed.

Lemma filter_true {A} (l : list A) : filter (fun _ => true) l = l.
Proof. induction l; cbn; congruence. Qed.

Lemma spawn_child_timers (o : oracle) (argv : strv) (st : state) :
  exists keep,
    pending_timers (state_of (spawn_child o argv st))
    = filter keep (pending_timers st).
Proof.
  exists (fun s => (child_source st =? 0) || negb (fst s =? child_source st)).
  transitivity
    (pending_timers
       (if child_source st =? 0 then st
        else g_source_remove (child_source st) st)).
  - destruct_state st. unfold pending_timers.
    spawn_child_cases cpid csrc o;
      rewrite ?filter_app, ?app_nil_r; reflexivity.
  - destruct (child_source st =? 0); cbn [orb].
    + now rewrite filter_true.
    + apply pending_timers_remove.
Qed.

Lemma filter_not_self (p : Z) : filter (fun q => negb (q =? p)) [p] = [].
Proof. cbn. now rewrite Z.eqb_refl. Qed.

Lemma spawn_child_children (o : oracle) (argv : strv) (st : state) :
  children_tracked st ->
  let st' := state_of (spawn_child o argv st) in
  children_tracked st'
  /\ (forall p, spawn_async o = Some p ->
                world.children (env st') = [Zpos p] /\ child_pid st' = Zpos p).
Proof.
  unfold children_tracked. destruct_state st.
  cbn [env world.children child_pid]. intros H.
  assert (Hgone :
    (if cpid =? 0 then kids
     else filter (fun q => negb (q =? cpid)) kids) = []).
  { destruct H as [->|[-> Hnz]].
    - destruct (cpid =? 0); reflexivity.
    - apply Z.eqb_neq in Hnz. rewrite Hnz. apply filter_not_self. }
  spawn_child_cases cpid csrc o; rewrite ?Hgone;
    (split; [|intros q Hq; inversion Hq; subst]);
    auto; right; split; auto; discriminate.
Qed.

Ltac launch_cases cfg lhs spr cpid csrc o :=
  unfold launch_single_player, stop_service; cbn -[strv_args Z.eqb];
  destruct (local_service.group lhs) eqn:?; cbn -[strv_args Z.eqb];
  destruct spr; cbn -[strv_args Z.eqb]; [| | |];
  try (spawn_child_cases cpid csrc o).

Lemma launch_single_player_result cfg o st :
  launch_single_player cfg o st
  = if single_player_running st
       || match spawn_async o with Some _ => true | None => false end
    then Ok (state_of (launch_single_player cfg o st))
    else Fatal (state_of (launch_single_player cfg o st)).
Proof. destruct_state st. launch_cases cfg lhs spr cpid csrc o; reflexivity. Qed.

Lemma launch_single_player_frame cfg o st :
  outside_game (state_of (launch_single_player cfg o st)) = outside_game st.
Proof. destruct_state st. launch_cases cfg lhs spr cpid csrc o; reflexivity. Qed.

Lemma launch_single_player_spawns cfg o st :
  spawns (state_of (launch_single_player cfg o st))
  = if single_player_running st then spawns st
    else SpawnAsync (strv_args (single_player_argv cfg)) (spawn_async o)
           :: spawns st.
Proof. destruct_state st. launch_cases cfg lhs spr cpid csrc o; reflexivity. Qed.

Lemma launch_single_player_running cfg o st st' :
  launch_single_player cfg o st = Ok st' -> single_player_running st' = true.
Proof.
  destruct_state st. launch_cases cfg lhs spr cpid csrc o;
    intros H; inversion H; reflexivity.
Qed.

Lemma launch_single_player_host_service cfg o st :
  local_host_service (state_of (launch_single_player cfg o st))
  = local_service.set_group None (local_host_service st).
Proof.
  destruct_state st. destruct lhs as [g n ty po txt].
  unfold launch_single_player, stop_service; cbn -[strv_args Z.eqb].
  destruct g; cbn -[strv_args Z.eqb];
    destruct spr; cbn -[strv_args Z.eqb];
    try (spawn_child_cases cpid csrc o); reflexivity.
Qed.

Lemma launch_single_player_timers cfg o st :
  exists keep,
    pending_timers (state_of (launch_single_player cfg o st))
    = filter keep (pending_timers st).
Proof.
  destruct (spawn_child_timers o (single_player_argv cfg)
              (stop_service host_service st)) as [keep Hkeep].
  assert (Hstop : pending_timers (stop_service host_service st)
                  = pending_timers st).
  { unfold stop_service.
    destruct (local_service.group (get_service host_service st)); reflexivity. }
  unfold launch_single_player.
  destruct (negb (single_player_running (stop_service host_service st))).
  - exists keep. rewrite <- Hstop, <- Hkeep.
    rewrite spawn_child_result. destruct (spawn_async o); reflexivity.
  - exists (fun _ => true). now rewrite filter_true.
Qed.

Lemma launch_single_player_children cfg o st :
  children_tracked st ->
  children_tracked (state_of (launch_single_player cfg o st)).
Proof.
  intros H.
  assert (Hstop : children_tracked (stop_service host_service st)).
  { unfold stop_service.
    destruct (local_service.group (get_service host_service st)); exact H. }
  unfold launch_single_player.
  destruct (negb (single_player_running (stop_service host_service st)));
    [|exact Hstop].
  destruct (spawn_child_children o (single_player_argv cfg) _ Hstop) as [Hc _].
  rewrite spawn_child_result. destruct (spawn_async o); exact Hc.
Qed.

(** ** Publishing *)

Lemma create_service_frame plat new_ok rets w :
  forall st,
    outside_service w (state_of (create_service plat new_ok rets w st))
    = outside_service w st.
Proof.
  induction rets as [|ret rets IH]; intros st; destruct_state st;
    destruct w; cbn -[Z.eqb];
    match goal with
    | |- context [local_service.group ?s] =>
        destruct (local_service.group s) as [[|? ?]|] eqn:?
    end;
    cbn -[Z.eqb]; try reflexivity;
    try (destruct new_ok; cbn -[Z.eqb]; try reflexivity);
    try (destruct (ret =? 0); [reflexivity|];
         destruct (ret =? AVAHI_ERR_COLLISION); [|reflexivity];
         rewrite IH; reflexivity).
Qed.

Lemma create_service_published plat new_ok w st :
  new_ok = true \/ local_service.group (get_service w st) <> None ->
  exists st' g,
    create_service plat new_ok [] w st = Ok st'
    /\ local_service.group (get_service w st') = Some g
    /\ g <> [].
Proof.
  intros H. destruct_state st.
  destruct w; cbn -[Z.eqb] in *;
    match goal with
    | |- context [local_service.group ?s] =>
        destruct (local_service.group s) as [[|? ?]|] eqn:?
    end;
    cbn -[Z.eqb];
    try (destruct H as [->|H]; [|congruence]; cbn -[Z.eqb]);
    eexists; eexists; (split; [reflexivity|]); cbn;
    (split; [first [eassumption|reflexivity]|discriminate]).
Qed.

(** ** Hosting and joining *)

Ltac frame_eqs H :=
  unfold outside_service, outside_spawn, outside_game in H;
  cbn [get_service other_service] in H; injection H as; intros.

Lemma host_game_spec cfg plat o num_players st :
  let st' := state_of (host_game cfg plat o num_players st) in
  outside_game st' = outside_game st
  /\ spawns st'
     = SpawnAsync (strv_args (host_argv cfg num_players)) (spawn_async o)
         :: spawns st
  /\ (forall p, spawn_async o = Some p ->
                single_player_running st' = false /\ child_pid st' = Zpos p).
Proof.
  cbn zeta. unfold host_game.
  pose proof (spawn_child_frame o (host_argv cfg num_players) st) as F.
  pose proof (spawn_child_spawns o (host_argv cfg num_players) st) as S.
  rewrite spawn_child_result.
  set (s1 := state_of (spawn_child o (host_argv cfg num_players) st)) in *.
  frame_eqs F.
  destruct (spawn_async o) as [p|] eqn:Hp; cbn [bind state_of].
  - pose proof (create_service_frame plat (entry_group_new o)
                  (add_service_ret o) host_service
                  (set_single_player_running false s1)) as C.
    frame_eqs C.
    assert (Hpid : child_pid s1 = Zpos p).
    { subst s1. destruct_state st. clear - Hp.
      spawn_child_cases cpid csrc o; congruence. }
    unfold outside_game. state_simpl.
    split; [congruence|]. split; [congruence|].
    intros q Hq. injection Hq as <-. split; congruence.
  - unfold outside_game. split; [congruence|]. split; [congruence|].
    discriminate.
Qed.

Lemma host_game_published cfg plat o num_players st p :
  spawn_async o = Some p ->
  entry_group_new o = true ->
  add_service_ret o = [] ->
  exists st' g,
    host_game cfg plat o num_players st = Ok st'
    /\ local_service.group (local_host_service st') = Some g
    /\ g <> [].
Proof.
  intros Hp Hnew Hrets. unfold host_game.
  rewrite spawn_child_result, Hp, Hnew, Hrets. cbn [bind].
  apply (create_service_published plat true host_service). now left.
Qed.

Lemma host_game_timers cfg plat o num_players st :
  exists keep,
    pending_timers (state_of (host_game cfg plat o num_players st))
    = filter keep (pending_timers st).
Proof.
  destruct (spawn_child_timers o (host_argv cfg num_players) st)
    as [keep Hkeep].
  exists keep. rewrite <- Hkeep. unfold host_game.
  rewrite spawn_child_result.
  destruct (spawn_async o); cbn [bind state_of]; [|reflexivity].
  pose proof (create_service_frame plat (entry_group_new o)
                (add_service_ret o) host_service
                (set_single_player_running false
                   (state_of (spawn_child o (host_argv cfg num_players) st))))
    as C.
  frame_eqs C. state_simpl. congruence.
Qed.

Lemma host_game_children cfg plat o num_players st :
  children_tracked st ->
  children_tracked (state_of (host_game cfg plat o num_players st)).
Proof.
  intros H.
  destruct (spawn_child_children o (host_argv cfg num_players) st H)
    as [Hc _].
  unfold host_game. rewrite spawn_child_result.
  destruct (spawn_async o); cbn [bind state_of]; [|exact Hc].
  pose proof (create_service_frame plat (entry_group_new o)
                (add_service_ret o) host_service
                (set_single_player_running false
                   (state_of (spawn_child o (host_argv cfg num_players) st))))
    as C.
  frame_eqs C. state_simpl. congruence.
Qed.

Ltac connect_cases lhs cpid csrc o :=
  unfold connect_to_host, stop_service; cbn -[strv_args Z.eqb];
  destruct (local_service.group lhs) eqn:?; cbn -[strv_args Z.eqb];
  spawn_child_cases cpid csrc o.

Lemma connect_to_host_spec cfg o st host :
  current_host st = Some host ->
  let st' := state_of (connect_to_host cfg o st) in
  outside_game st' = outside_game st
  /\ spawns st'
     = SpawnAsync (strv_args (join_argv cfg host)) (spawn_async o) :: spawns st
  /\ local_host_service st'
     = local_service.set_group None (local_host_service st)
  /\ (forall p, spawn_async o = Some p ->
                connect_to_host cfg o st = Ok st'
                /\ single_player_running st' = false
                /\ child_pid st' = Zpos p).
Proof.
  destruct_state st. cbn [current_host]. intros ->.
  destruct lhs as [g n ty po txt].
  unfold connect_to_host, stop_service; cbn -[strv_args Z.eqb join_argv].
  destruct g; cbn -[strv_args Z.eqb join_argv];
    spawn_child_cases cpid csrc o;
    (split; [reflexivity|]); (split; [reflexivity|]);
    (split; [reflexivity|]);
    intros q Hq; inversion Hq; repeat split.
Qed.

Lemma connect_to_host_timers cfg o st :
  exists keep,
    pending_timers (state_of (connect_to_host cfg o st))
    = filter keep (pending_timers st).
Proof.
  unfold connect_to_host. destruct (current_host st) as [host|].
  - destruct (spawn_child_timers o (join_argv cfg host)
                (stop_service host_service st)) as [keep Hkeep].
    exists keep.
    assert (Hstop : pending_timers (stop_service host_service st)
                    = pending_timers st).
    { unfold stop_service.
      destruct (local_service.group (get_service host_service st));
        reflexivity. }
    rewrite <- Hstop, <- Hkeep, spawn_child_result.
    destruct (spawn_async o); reflexivity.
  - exists (fun _ => true). now rewrite filter_true.
Qed.

Lemma connect_to_host_children cfg o st :
  children_tracked st ->
  children_tracked (state_of (connect_to_host cfg o st)).
Proof.
  intros H. unfold connect_to_host.
  destruct (current_host st) as [host|]; [|exact H].
  assert (Hstop : children_tracked (stop_service host_service st)).
  { unfold stop_service.
    destruct (local_service.group (get_service host_service st)); exact H. }
  destruct (spawn_child_children o (join_argv cfg host) _ Hstop) as [Hc _].
  rewrite spawn_child_result. destruct (spawn_async o); exact Hc.
Qed.

Ltac timer_eqs H := unfold outside_timer in H; injection H as; intros.

Lemma stop_source_timer_frame st :
  outside_timer (stop_source_timer st) = outside_timer st.
Proof.
  unfold stop_source_timer. destruct (timeout_source st =? 0); reflexivity.
Qed.

Lemma restart_source_timer_frame cfg st :
  outside_timer (restart_source_timer cfg st) = outside_timer st.
Proof.
  unfold restart_source_timer, stop_source_timer, g_timeout_add.
  destruct (timeout_source st =? 0); reflexivity.
Qed.

Lemma restart_source_timer_now cfg st :
  world.now (env (restart_source_timer cfg st)) = world.now (env st).
Proof.
  unfold restart_source_timer, stop_source_timer, g_timeout_add.
  destruct (timeout_source st =? 0); reflexivity.
Qed.

Lemma remove_clients_spec cfg name type domain l :
  forall st,
    timers_tracked st = true ->
    let kept := fst (remove_clients cfg name type domain l st) in
    let st' := snd (remove_clients cfg name type domain l st) in
    kept = filter (fun c => negb (removal_matches name type domain c)) l
    /\ timers_tracked st' = true
    /\ outside_timer st' = outside_timer st
    /\ (if existsb (removes_peer name type domain) l
        then exists id,
            pending_timers st'
            = [(id, TimeoutSource (world.now (env st) + source_interval cfg))]
        else st' = st).
Proof.
  induction l as [|c l IH]; intros st Htr; cbn zeta.
  - repeat split. exact Htr.
  - cbn [remove_clients existsb filter]. unfold removes_peer at 1.
    destruct (removal_matches name type domain c) eqn:Hm; cbn [negb andb orb].
    + destruct (Z.land (remote_service.flags c) AVAHI_LOOKUP_RESULT_OUR_OWN =? 0)
        eqn:Hown; cbn [orb].
      * destruct (restart_source_timer_spec cfg st Htr) as (Hp & _ & Htr').
        pose proof (restart_source_timer_frame cfg st) as Hf.
        destruct (IH (restart_source_timer cfg st) Htr') as (K & T & F & E).
        split; [exact K|]. split; [exact T|]. split; [congruence|].
        destruct (existsb (removes_peer name type domain) l).
        -- destruct E as [id E]. exists id. rewrite E.
           now rewrite restart_source_timer_now.
        -- rewrite E. eexists. exact Hp.
      * apply (IH st Htr).
    + destruct (IH st Htr) as (K & T & F & E).
      destruct (remove_clients cfg name type domain l st) as [kept st'].
      cbn [fst snd] in *. split; [congruence|]. auto.
Qed.

Lemma removal_matches_spec name type domain (s : remote_service.t) :
  removal_matches name type domain s = true
  <-> remote_service.name s = name
      /\ remote_service.type s = type
      /\ remote_service.domain s = domain.
Proof.
  unfold removal_matches.
  rewrite !andb_true_iff, !g_strcmp0_eq. tauto.
Qed.

(** ** The election order *)

Lemma cmp_below_le (a b : remote_service.t) :
  cmp_remote_service a b < 0 -> election_le a b.
Proof.
  unfold cmp_remote_service, election_le, String.leb. simpl.
  destruct (remote_service.can_host a), (remote_service.can_host b);
    cbn; try lia; auto;
    destruct (String.compare (remote_service.name a) (remote_service.name b));
    cbn; intros; try lia; auto.
Qed.

Lemma cmp_not_below_ge (a b : remote_service.t) :
  ~ cmp_remote_service a b < 0 -> election_le b a.
Proof.
  unfold cmp_remote_service, election_le, String.leb. simpl.
  rewrite (String.compare_antisym (remote_service.name b)
             (remote_service.name a)).
  destruct (remote_service.can_host a), (remote_service.can_host b);
    cbn; try lia; auto;
    destruct (String.compare (remote_service.name a) (remote_service.name b));
    cbn; intros; try lia; auto.
Qed.

Lemma election_le_trans (a b c : remote_service.t) :
  election_le a b -> election_le b c -> election_le a c.
Proof.
  unfold election_le.
  intros [[Ha Hb]|[Hab Hn1]] [[Hb' Hc]|[Hbc Hn2]].
  - congruence.
  - left. split; congruence.
  - left. split; congruence.
  - right. split; [congruence|]. eapply string_leb_trans; eassumption.
Qed.

Lemma sorted_insert_sorted (s : remote_service.t) (l : list remote_service.t) :
  StronglySorted election_le l ->
  StronglySorted election_le (sorted_insert s l).
Proof.
  induction 1 as [|c l Hsorted IH Hall]; cbn [sorted_insert].
  - repeat constructor.
  - destruct (cmp_remote_service s c <? 0) eqn:E.
    + apply Z.ltb_lt, cmp_below_le in E.
      constructor; [constructor; assumption|].
      constructor; [exact E|].
      eapply Forall_impl; [|exact Hall].
      intros x Hx. eapply election_le_trans; eassumption.
    + apply Z.ltb_ge in E.
      assert (Hcs : election_le c s) by (apply cmp_not_below_ge; lia).
      constructor; [exact IH|].
      apply Forall_forall. intros x Hx.
      apply in_sorted_insert in Hx as [->|Hx]; [exact Hcs|].
      rewrite Forall_forall in Hall. auto.
Qed.

Lemma filter_sorted {A} (R : A -> A -> Prop) (f : A -> bool) (l : list A) :
  StronglySorted R l -> StronglySorted R (filter f l).
Proof.
  induction 1 as [|c l Hsorted IH Hall]; cbn [filter]; [constructor|].
  destruct (f c); [|exact IH].
  constructor; [exact IH|].
  apply Forall_forall. intros x Hx. apply filter_In in Hx as [Hx _].
  rewrite Forall_forall in Hall. auto.
Qed.

Lemma filter_NoDup_map {A B} (k : A -> B) (f : A -> bool) (l : list A) :
  NoDup (map k l) -> NoDup (map k (filter f l)).
Proof.
  induction l as [|c l IH]; cbn [map filter]; intros H; [constructor|].
  inversion H as [|? ? Hnotin Hrest]; subst.
  destruct (f c); [|auto].
  cbn [map]. constructor; [|auto].
  intros Hin. apply Hnotin.
  apply in_map_iff in Hin as (x & Hx & Hin).
  apply filter_In in Hin as [Hin _].
  apply in_map_iff. eauto.
Qed.

Lemma sorted_insert_NoDup_map {B} (k : remote_service.t -> B)
    (s : remote_service.t) (l : list remote_service.t) :
  ~ In (k s) (map k l) -> NoDup (map k l) ->
  NoDup (map k (sorted_insert s l)).
Proof.
  induction l as [|c l IH]; cbn [sorted_insert map]; intros Hs Hl.
  - constructor; [intros []|constructor].
  - destruct (cmp_remote_service s c <? 0); cbn [map].
    + constructor; assumption.
    + inversion Hl as [|? ? Hc Hrest]; subst.
      cbn [In] in Hs.
      constructor; [|apply IH; tauto].
      intros Hin. apply in_map_iff in Hin as (x & Hx & Hin).
      apply in_sorted_insert in Hin as [->|Hin]; [intuition congruence|].
      apply Hc. apply in_map_iff. eauto.
Qed.

Lemma NoDup_map_finer {A B C} (k : A -> B) (id : A -> C) (l : list A) :
  (forall x y, id x = id y -> k x = k y) ->
  NoDup (map k l) -> NoDup (map id l).
Proof.
  intros Hfiner. induction l as [|c l IH]; cbn [map]; intros H;
    [constructor|].
  inversion H as [|? ? Hc Hrest]; subst.
  constructor; [|auto].
  intros Hin. apply Hc.
  apply in_map_iff in Hin as (x & Hx & Hin).
  apply in_map_iff. exists x. split; [apply Hfiner; exact Hx|exact Hin].
Qed.

Lemma identity_finer (x y : remote_service.t) :
  identity x = identity y -> equal_key x = equal_key y.
Proof. unfold identity, equal_key. intros H. injection H as -> -> _ -> ->.
  reflexivity. Qed.

Lemma upsert_keeps_registry (service : remote_service.t)
    (l : list remote_service.t) :
  registry_kept l ->
  registry_kept
    (sorted_insert service
       (filter (fun c => negb (remote_service_equal service c)) l)).
Proof.
  intros [Hsorted Hnodup]. split.
  - apply sorted_insert_sorted, filter_sorted, Hsorted.
  - apply sorted_insert_NoDup_map; [|apply filter_NoDup_map, Hnodup].
    intros Hin. apply in_map_iff in Hin as (x & Hx & Hin).
    apply filter_In in Hin as [_ Hne].
    apply negb_true_iff in Hne.
    assert (remote_service_equal service x = true)
      by (apply remote_service_equal_spec; congruence).
    congruence.
Qed.

Lemma removal_keeps_registry (f : remote_service.t -> bool)
    (l : list remote_service.t) :
  registry_kept l -> registry_kept (filter f l).
Proof.
  intros [Hsorted Hnodup]. split.
  - apply filter_sorted, Hsorted.
  - apply filter_NoDup_map, Hnodup.
Qed.

(** ** Invariants of the main loop *)

Lemma holds_bind (P P' Q : state -> Prop) (r : result) (k : state -> result) :
  holds P Q r -> (forall s, P s -> holds P' Q (k s)) -> holds P' Q (bind r k).
Proof. destruct r; cbn; auto. Qed.

Section LoopInvariant.

Variable cfg : config.t.
Variable plat : platform.
Variables P Q : state -> Prop.

Hypothesis P_set_now : forall t st, P st -> P (set_now t st).

Hypothesis P_dispatch :
  forall o e st, P st -> holds P Q (dispatch cfg plat o e st).

Hypothesis P_fire :
  forall o id deadline at_time st,
    P st ->
    In (id, TimeoutSource deadline) (world.sources (env st)) ->
    holds (fun s => P (destroy_sources [id] s)) Q
      (on_source_timeout cfg plat o
         (log (TimeoutDispatch id at_time) (set_now at_time st))).

Lemma fire_due_holds (answers : Z -> oracle) (t : Z) :
  forall fuel st, P st -> holds P Q (fire_due cfg plat fuel answers t st).
Proof.
  induction fuel as [|fuel IH]; intros st HP; cbn [fire_due]; [exact HP|].
  destruct (find (is_due t) (world.sources (env st))) as [[id [deadline|pid]]|]
    eqn:Hfind; try exact HP.
  apply find_some in Hfind as [Hin _].
  eapply holds_bind; [eapply P_fire; eassumption|].
  intros s Hs. apply IH. exact Hs.
Qed.

Lemma advance_holds (answers : Z -> oracle) (t : Z) (st : state) :
  P st -> holds P Q (advance cfg plat answers t st).
Proof.
  intros HP. unfold advance.
  eapply holds_bind; [apply fire_due_holds; exact HP|].
  intros s Hs. cbn. apply P_set_now. exact Hs.
Qed.

Lemma main_loop_holds (answers : Z -> oracle) schedule :
  forall st, P st -> holds P Q (main_loop cfg plat answers schedule st).
Proof.
  induction schedule as [|[[t o] e] rest IH]; intros st HP; cbn [main_loop];
    [exact HP|].
  destruct (world.quit (env st)); [exact HP|].
  eapply holds_bind; [apply advance_holds; exact HP|].
  intros s Hs.
  eapply holds_bind; [apply P_dispatch; exact Hs|].
  intros s' Hs'. apply IH. exact Hs'.
Qed.

Hypothesis P_initial : P (initial_state cfg).

Hypothesis P_set_quit : forall b st, P st -> P (set_quit b st).

Hypothesis P_launch :
  forall o st, P st -> holds P Q (launch_single_player cfg o st).

Lemma main_holds startup (o : oracle) (answers : Z -> oracle) schedule :
  holds P Q (main cfg plat startup o answers schedule).
Proof.
  unfold main.
  eapply holds_bind with (P := P).
  - destruct startup as [[o0 s]|]; [|exact P_initial].
    apply (P_dispatch o0 (client_state_changed s)). exact P_initial.
  - intros s Hs. eapply holds_bind; [apply P_launch; exact Hs|].
    intros s' Hs'. apply main_loop_holds. apply P_set_quit. exact Hs'.
Qed.

End LoopInvariant.

(** The states a timer callback can end in. *)
Lemma on_source_timeout_cases cfg plat o st :
  exists s,
    (state_of (on_source_timeout cfg plat o st) = s
     \/ state_of (on_source_timeout cfg plat o st) = set_timeout_source 0 s)
    /\ (s = st
        \/ s = state_of (launch_single_player cfg o st)
        \/ exists n, s = state_of (host_game cfg plat o n st)).
Proof.
  unfold on_source_timeout.
  set (n := count_others (client_service_list st) + 1).
  assert (Hl : forall r : result, exists s,
             (state_of (do x <- r ; Ok (set_timeout_source 0 x)) = s
              \/ state_of (do x <- r ; Ok (set_timeout_source 0 x))
                 = set_timeout_source 0 s)
             /\ s = state_of r).
  { intros [s|s]; exists s; cbn; auto. }
  destruct (hd_error (client_service_list st)) as [best|].
  - destruct (remote_service.can_host best).
    + destruct (negb (Z.land (remote_service.flags best)
                        AVAHI_LOOKUP_RESULT_OUR_OWN =? 0)).
      * destruct (negb (count_others (client_service_list st) =? 0)).
        -- destruct (Hl (host_game cfg plat o n st)) as (s & H1 & H2).
           exists s. split; [exact H1|]. right. right. exists n. exact H2.
        -- destruct (Hl (launch_single_player cfg o st)) as (s & H1 & H2).
           exists s. split; [exact H1|]. right. left. exact H2.
      * exists st. split; [right; reflexivity|left; reflexivity].
    + destruct (Hl (launch_single_player cfg o st)) as (s & H1 & H2).
      exists s. split; [exact H1|]. right. left. exact H2.
  - destruct (Hl (launch_single_player cfg o st)) as (s & H1 & H2).
    exists s. split; [exact H1|]. right. left. exact H2.
Qed.

Lemma on_source_timeout_frame cfg plat o st :
  let st' := state_of (on_source_timeout cfg plat o st) in
  client_service_list st' = client_service_list st
  /\ current_host st' = current_host st
  /\ elections st' = elections st
  /\ world.now (env st') = world.now (env st)
  /\ world.quit (env st') = world.quit (env st).
Proof.
  destruct (on_source_timeout_cases cfg plat o st) as (s & Hs & Hcase).
  pose proof (launch_single_player_frame cfg o st) as Hl.
  assert (Hframe : outside_game s = outside_game st).
  { destruct Hcase as [->|[->|[n ->]]]; [reflexivity|exact Hl|].
    apply host_game_spec. }
  clear Hl Hcase. cbn zeta.
  destruct Hs as [E|E]; rewrite E; clear E; frame_eqs Hframe; state_simpl;
    repeat split; assumption.
Qed.

Lemma on_source_timeout_timers cfg plat o st :
  exists keep,
    pending_timers (state_of (on_source_timeout cfg plat o st))
    = filter keep (pending_timers st).
Proof.
  destruct (on_source_timeout_cases cfg plat o st) as (s & Hs & Hcase).
  assert (Hk : exists keep, pending_timers s = filter keep (pending_timers st)).
  { destruct Hcase as [->|[->|[n ->]]].
    - exists (fun _ => true). now rewrite filter_true.
    - apply launch_single_player_timers.
    - apply host_game_timers. }
  destruct Hk as [keep Hk]. exists keep.
  destruct Hs as [E|E]; rewrite E; exact Hk.
Qed.

Lemma on_source_timeout_children cfg plat o st :
  children_tracked st ->
  children_tracked (state_of (on_source_timeout cfg plat o st)).
Proof.
  intros H.
  destruct (on_source_timeout_cases cfg plat o st) as (s & Hs & Hcase).
  assert (Hc : children_tracked s).
  { destruct Hcase as [->|[->|[n ->]]]; [exact H| |].
    - now apply launch_single_player_children.
    - now apply host_game_children. }
  destruct Hs as [E|E]; rewrite E; exact Hc.
Qed.

Lemma remove_clients_frame cfg name type domain l :
  forall st,
    fst (remove_clients cfg name type domain l st)
    = filter (fun c => negb (removal_matches name type domain c)) l
    /\ outside_timer (snd (remove_clients cfg name type domain l st))
       = outside_timer st.
Proof.
  induction l as [|c l IH]; intros st; [split; reflexivity|].
  cbn [remove_clients filter].
  destruct (removal_matches name type domain c); cbn [negb].
  - destruct (Z.land (remote_service.flags c) AVAHI_LOOKUP_RESULT_OUR_OWN =? 0).
    + destruct (IH (restart_source_timer cfg st)) as [K F].
      split; [exact K|]. rewrite F. apply restart_source_timer_frame.
    + apply IH.
  - destruct (IH st) as [K F].
    destruct (remove_clients cfg name type domain l st) as [kept st'].
    cbn [fst snd] in *. split; [congruence|exact F].
Qed.

Lemma holds_same (P : state -> Prop) (r : result) :
  holds P P r <-> P (state_of r).
Proof. destruct r; reflexivity. Qed.

Lemma state_of_bind_ok (r : result) (f : state -> state) :
  state_of (do s <- r ; Ok (f s))
  = match r with
    | Ok s => f s
    | Fatal s => s
    end.
Proof. destruct r; reflexivity. Qed.

(** *** The registry *)

Lemma resolve_callback_registry cfg o interface protocol ev name type domain
    host_name port txt flags st :
  let st' :=
    state_of
      (resolve_callback cfg o interface protocol ev name type domain host_name
         port txt flags st) in
  client_service_list st'
  = match ev with
    | AVAHI_RESOLVER_FOUND =>
        if String.eqb type CLIENT_SERVICE_NAME then
          let service :=
            resolved_service interface protocol name type domain host_name
              port txt flags in
          sorted_insert service
            (filter (fun c => negb (remote_service_equal service c))
               (client_service_list st))
        else client_service_list st
    | AVAHI_RESOLVER_FAILURE => client_service_list st
    end.
Proof.
  cbn zeta. destruct ev; [|reflexivity].
  destruct (String.eqb type CLIENT_SERVICE_NAME) eqn:Htype.
  - apply String.eqb_eq in Htype. subst type. apply resolve_callback_client.
  - unfold resolve_callback. rewrite g_strcmp0_eqb, Htype.
    destruct (g_strcmp0 (Some type) (Some HOST_SERVICE_NAME) =? 0);
      [|reflexivity].
    destruct (Z.land _ AVAHI_LOOKUP_RESULT_OUR_OWN =? 0); [|reflexivity].
    set (service := resolved_service interface protocol name type domain
                      host_name port txt flags).
    set (st1 := set_current_host (Some service) st).
    destruct (connect_to_host_spec cfg o st1 service eq_refl) as (Hf & _).
    rewrite state_of_bind_ok.
    frame_eqs Hf.
    destruct (connect_to_host cfg o st1) as [s|s]; cbn [state_of] in *.
    + pose proof (stop_source_timer_frame s) as Hs. timer_eqs Hs. congruence.
    + assumption.
Qed.

Lemma browse_callback_registry cfg o interface protocol ev name type domain
    flags st :
  let st' :=
    state_of
      (browse_callback cfg o interface protocol ev name type domain flags st) in
  client_service_list st'
  = match ev with
    | AVAHI_BROWSER_REMOVE =>
        filter (fun c => negb (removal_matches name type domain c))
          (client_service_list st)
    | _ => client_service_list st
    end.
Proof.
  cbn zeta. destruct ev; try reflexivity.
  unfold browse_callback.
  destruct (remove_clients_frame cfg name type domain (client_service_list st)
              st) as [K _].
  destruct (remove_clients cfg name type domain (client_service_list st) st)
    as [kept st1].
  cbn [fst] in K. subst kept.
  set (l := filter _ _).
  destruct (current_host (set_client_service_list l st1)) as [host|];
    [|reflexivity].
  destruct (removal_matches name type domain host); [|reflexivity].
  set (st2 := set_current_host None (set_client_service_list l st1)).
  pose proof (launch_single_player_frame cfg o st2) as Hf.
  rewrite state_of_bind_ok. frame_eqs Hf.
  destruct (launch_single_player cfg o st2) as [s|s]; cbn [state_of] in *.
  - pose proof (restart_source_timer_frame cfg s) as Hs.
    remember (restart_source_timer cfg s) as s'. timer_eqs Hs. congruence.
  - assumption.
Qed.

Lemma on_child_exit_cases cfg o pid status st :
  state_of (on_child_exit cfg o pid status st) = st
  \/ state_of (on_child_exit cfg o pid status st)
     = state_of
         (launch_single_player cfg o
            (set_single_player_running false (set_child_source 0 st))).
Proof.
  unfold on_child_exit. destruct (negb (pid =? child_pid st)); auto.
Qed.

Lemma avahi_client_callback_frame plat o s st :
  let st' := state_of (avahi_client_callback plat o s st) in
  timeout_source st' = timeout_source st
  /\ child_pid st' = child_pid st
  /\ client_service_list st' = client_service_list st
  /\ current_host st' = current_host st
  /\ world.sources (env st') = world.sources (env st)
  /\ world.children (env st') = world.children (env st)
  /\ world.now (env st') = world.now (env st)
  /\ elections st' = elections st.
Proof.
  cbn zeta. destruct s; cbn [avahi_client_callback]; try (repeat split).
  all: pose proof (create_service_frame plat (entry_group_new o)
                     (add_service_ret o) client_service st) as Hf;
    frame_eqs Hf; assumption.
Qed.

Lemma dispatch_registry cfg plat o e st :
  registry_kept (client_service_list st) ->
  registry_kept (client_service_list (state_of (dispatch cfg plat o e st))).
Proof.
  intros H. destruct e as [i p ev n t d h po txt f|i p ev n t d f|pid status|s];
    cbn [dispatch].
  - rewrite resolve_callback_registry.
    destruct ev; [|exact H].
    destruct (String.eqb t CLIENT_SERVICE_NAME); [|exact H].
    now apply upsert_keeps_registry.
  - rewrite browse_callback_registry.
    destruct ev; try exact H. now apply removal_keeps_registry.
  - destruct (filter (is_watch_of pid) (world.sources (env st))); [exact H|].
    rewrite state_of_bind_ok.
    set (st1 := set_children _ st).
    assert (Hc : client_service_list (state_of (on_child_exit cfg o pid status st1))
                 = client_service_list st).
    { destruct (on_child_exit_cases cfg o pid status st1) as [E|E]; rewrite E;
        [reflexivity|].
      pose proof (launch_single_player_frame cfg o
                    (set_single_player_running false (set_child_source 0 st1)))
        as Hf.
      frame_eqs Hf. assumption. }
    destruct (on_child_exit cfg o pid status st1); cbn [state_of] in Hc;
      [change (client_service_list (destroy_sources ?l ?s))
         with (client_service_list s)|];
      rewrite Hc; exact H.
  - destruct (avahi_client_callback_frame plat o s st) as (_ & _ & Hr & _).
    rewrite Hr. exact H.
Qed.

(** *** The child process *)

Lemma children_tracked_ext (st st' : state) :
  world.children (env st') = world.children (env st) ->
  child_pid st' = child_pid st ->
  children_tracked st -> children_tracked st'.
Proof. unfold children_tracked. intros -> ->. auto. Qed.

Lemma stop_source_timer_children st :
  children_tracked st -> children_tracked (stop_source_timer st).
Proof.
  unfold stop_source_timer. destruct (timeout_source st =? 0); intros H;
    exact H.
Qed.

Lemma restart_source_timer_children cfg st :
  children_tracked st -> children_tracked (restart_source_timer cfg st).
Proof.
  unfold restart_source_timer, stop_source_timer, g_timeout_add.
  destruct (timeout_source st =? 0); intros H; exact H.
Qed.

Lemma remove_clients_children cfg name type domain l st :
  children_tracked st ->
  children_tracked (snd (remove_clients cfg name type domain l st)).
Proof.
  revert st. induction l as [|c l IH]; intros st H; [exact H|].
  cbn [remove_clients].
  destruct (removal_matches name type domain c).
  - destruct (Z.land (remote_service.flags c) AVAHI_LOOKUP_RESULT_OUR_OWN =? 0);
      apply IH; [apply restart_source_timer_children|]; exact H.
  - specialize (IH st H).
    destruct (remove_clients cfg name type domain l st). exact IH.
Qed.

Lemma reaped_children_tracked pid st :
  children_tracked st ->
  children_tracked
    (set_children
       (filter (fun p => negb (p =? pid)) (world.children (env st))) st).
Proof.
  unfold children_tracked. state_simpl. intros [->|[-> Hnz]]; [left; easy|].
  cbn [filter]. destruct (negb (child_pid st =? pid)); auto.
Qed.

Lemma on_child_exit_children cfg o pid status st :
  children_tracked st ->
  children_tracked (state_of (on_child_exit cfg o pid status st)).
Proof.
  intros H.
  destruct (on_child_exit_cases cfg o pid status st) as [E|E]; rewrite E;
    [exact H|].
  apply launch_single_player_children. exact H.
Qed.

Lemma dispatch_children cfg plat o e st :
  children_tracked st ->
  children_tracked (state_of (dispatch cfg plat o e st)).
Proof.
  intros H. destruct e as [i p ev n t d h po txt f|i p ev n t d f|pid status|s];
    cbn [dispatch].
  - unfold resolve_callback. destruct ev; [|exact H].
    destruct (g_strcmp0 (Some t) (Some CLIENT_SERVICE_NAME) =? 0).
    + destruct (Z.land _ AVAHI_LOOKUP_RESULT_OUR_OWN =? 0); cbn [state_of];
        [apply restart_source_timer_children|]; exact H.
    + destruct (g_strcmp0 (Some t) (Some HOST_SERVICE_NAME) =? 0); [|exact H].
      destruct (Z.land _ AVAHI_LOOKUP_RESULT_OUR_OWN =? 0); [|exact H].
      rewrite state_of_bind_ok.
      match goal with
      | |- context [connect_to_host cfg o ?s] =>
          pose proof (connect_to_host_children cfg o s H) as Hc;
          destruct (connect_to_host cfg o s)
      end; [apply stop_source_timer_children|]; exact Hc.
  - unfold browse_callback. destruct ev; try exact H.
    pose proof (remove_clients_children cfg n t d (client_service_list st) st H)
      as H1.
    destruct (remove_clients cfg n t d (client_service_list st) st)
      as [kept st1].
    cbn [snd] in H1.
    destruct (current_host (set_client_service_list kept st1)) as [host|];
      [|exact H1].
    destruct (removal_matches n t d host); [|exact H1].
    rewrite state_of_bind_ok.
    match goal with
    | |- context [launch_single_player cfg o ?s] =>
        pose proof (launch_single_player_children cfg o s H1) as Hc;
        destruct (launch_single_player cfg o s)
    end; [apply restart_source_timer_children|]; exact Hc.
  - destruct (filter (is_watch_of pid) (world.sources (env st))); [exact H|].
    rewrite state_of_bind_ok.
    match goal with
    | |- context [on_child_exit cfg o pid status ?s] =>
        pose proof (on_child_exit_children cfg o pid status s
                      (reaped_children_tracked pid st H)) as Hc;
        destruct (on_child_exit cfg o pid status s)
    end; exact Hc.
  - destruct (avahi_client_callback_frame plat o s st)
      as (_ & Hp & _ & _ & _ & Hc & _).
    eapply children_tracked_ext; eassumption.
Qed.

Lemma main_children_tracked cfg plat startup o answers schedule :
  children_tracked (state_of (main cfg plat startup o answers schedule)).
Proof.
  apply holds_same. apply main_holds.
  - intros t st HP. exact HP.
  - intros o' e st HP. apply holds_same. now apply dispatch_children.
  - intros o' id deadline at_time st HP _. apply holds_same.
    apply (on_source_timeout_children cfg plat o'
             (log (TimeoutDispatch id at_time) (set_now at_time st))).
    exact HP.
  - left. reflexivity.
  - intros b st HP. exact HP.
  - intros o' st HP. apply holds_same.
    now apply launch_single_player_children.
Qed.

(** ** The debounce *)

Lemma find_none_all {A} (f : A -> bool) (l : list A) :
  (forall x, In x l -> f x = false) -> find f l = None.
Proof.
  induction l as [|y l IH]; intros H; [reflexivity|].
  cbn [find]. rewrite (H y (or_introl eq_refl)).
  apply IH. intros x Hx. apply H. now right.
Qed.

Lemma is_due_timeout t s : is_due t s = true -> is_timeout s = true.
Proof. unfold is_due, is_timeout. destruct (snd s); auto. Qed.

Lemma no_timer_due t st id deadline :
  pending_timers st = [(id, TimeoutSource deadline)] ->
  t < deadline ->
  find (is_due t) (world.sources (env st)) = None.
Proof.
  intros Hp Hlt. apply find_none_all. intros x Hx.
  destruct (is_due t x) eqn:Hdue; [|reflexivity].
  assert (Hin : In x (pending_timers st))
    by (apply filter_In; split; [exact Hx|now apply (is_due_timeout t)]).
  rewrite Hp in Hin. destruct Hin as [<-|[]].
  cbn in Hdue. apply Z.leb_le in Hdue. lia.
Qed.

Lemma no_timer_pending t st :
  pending_timers st = [] -> find (is_due t) (world.sources (env st)) = None.
Proof.
  intros Hp. apply find_none_all. intros x Hx.
  destruct (is_due t x) eqn:Hdue; [|reflexivity].
  assert (Hin : In x (pending_timers st))
    by (apply filter_In; split; [exact Hx|now apply (is_due_timeout t)]).
  rewrite Hp in Hin. destruct Hin.
Qed.

Lemma find_due_timer t (l : list (Z * GSource)) x :
  filter is_timeout l = [x] -> is_due t x = true -> find (is_due t) l = Some x.
Proof.
  intros Hf Hdue. induction l as [|y l IH]; [discriminate|].
  cbn [filter find] in *.
  destruct (is_timeout y) eqn:Hy.
  - injection Hf as -> _. now rewrite Hdue.
  - destruct (is_due t y) eqn:Hd; [|auto].
    apply is_due_timeout in Hd. congruence.
Qed.

Lemma fire_due_idle cfg plat fuel answers t st :
  find (is_due t) (world.sources (env st)) = None ->
  fire_due cfg plat fuel answers t st = Ok st.
Proof. intros H. destruct fuel; cbn [fire_due]; [|rewrite H]; reflexivity. Qed.

Lemma advance_quiet cfg plat answers T t st :
  armed cfg T st -> T <= t < T + source_interval cfg ->
  advance cfg plat answers t st = Ok (set_now t st).
Proof.
  intros (_ & _ & _ & Hnow & id & Hp) Ht. unfold advance.
  rewrite fire_due_idle by (eapply no_timer_due; [exact Hp|lia]).
  cbn [bind]. rewrite Hnow, Z.max_r by lia. reflexivity.
Qed.

Lemma forallb_sorted_insert (f : remote_service.t -> bool) s l :
  forallb f (sorted_insert s l) = f s && forallb f l.
Proof.
  induction l as [|c l IH]; cbn [sorted_insert forallb]; [reflexivity|].
  destruct (cmp_remote_service s c <? 0); cbn [forallb]; [reflexivity|].
  rewrite IH. destruct (f s), (f c); reflexivity.
Qed.

Lemma forallb_filter {A} (f g : A -> bool) (l : list A) :
  forallb f l = true -> forallb f (filter g l) = true.
Proof.
  rewrite !forallb_forall. intros H x Hx. apply H.
  apply filter_In in Hx. tauto.
Qed.

Lemma types_kept_intro st st' :
  forallb (fun c => String.eqb (remote_service.type c) CLIENT_SERVICE_NAME)
    (client_service_list st') = true ->
  current_host st' = current_host st ->
  types_kept st = true -> types_kept st' = true.
Proof.
  unfold types_kept. intros Hl Hh H. apply andb_true_iff in H as [_ H].
  rewrite Hl, Hh. exact H.
Qed.

Lemma types_kept_registry st :
  types_kept st = true ->
  forallb (fun c => String.eqb (remote_service.type c) CLIENT_SERVICE_NAME)
    (client_service_list st) = true.
Proof. unfold types_kept. intros H. now apply andb_true_iff in H as [H _]. Qed.

(** Under [types_kept], a removal that names a registry entry does not name
    the current host. *)
Lemma removal_spares_host name type domain st host :
  types_kept st = true ->
  existsb (removes_peer name type domain) (client_service_list st) = true ->
  current_host st = Some host ->
  removal_matches name type domain host = false.
Proof.
  intros Hk Hex Hh.
  apply existsb_exists in Hex as (c & Hc & Hm).
  unfold removes_peer in Hm. apply andb_true_iff in Hm as [Hm _].
  apply removal_matches_spec in Hm as (_ & Hty & _).
  pose proof (types_kept_registry st Hk) as Hreg.
  rewrite forallb_forall in Hreg. specialize (Hreg c Hc).
  apply String.eqb_eq in Hreg.
  unfold types_kept in Hk. rewrite Hh in Hk.
  apply andb_true_iff in Hk as [_ Hk]. apply String.eqb_eq in Hk.
  destruct (removal_matches name type domain host) eqn:E; [|reflexivity].
  apply removal_matches_spec in E as (_ & Hty' & _).
  assert (HOST_SERVICE_NAME = CLIENT_SERVICE_NAME) by congruence.
  discriminate.
Qed.

Lemma event_arms cfg plat o e st :
  timers_tracked st = true ->
  types_kept st = true ->
  world.quit (env st) = false ->
  non_self_registry_event st e = true ->
  exists st',
    dispatch cfg plat o e st = Ok st'
    /\ armed cfg (world.now (env st)) st'
    /\ elections st' = elections st.
Proof.
  intros Htr Hty Hq He.
  destruct e as [i p ev n t d h po txt f|i p ev n t d f|pid status|s];
    cbn [non_self_registry_event] in He; try discriminate.
  - destruct ev; [|discriminate].
    apply andb_true_iff in He as [Ht Hf].
    apply String.eqb_eq in Ht. subst t.
    set (service := resolved_service i p n CLIENT_SERVICE_NAME d h po txt f).
    destruct (resolved_service_fields i p n CLIENT_SERVICE_NAME d h po txt f)
      as (_ & _ & _ & _ & Fty & _ & _ & Ffl).
    fold service in Fty, Ffl.
    set (l := sorted_insert service
                (filter (fun c => negb (remote_service_equal service c))
                   (client_service_list st))).
    set (st1 := set_client_service_list l st).
    assert (Hstep : dispatch cfg plat o
                      (resolved i p AVAHI_RESOLVER_FOUND n CLIENT_SERVICE_NAME
                         d h po txt f) st
                    = Ok (restart_source_timer cfg st1)).
    { cbn [dispatch]. unfold resolve_callback. fold service.
      replace (g_strcmp0 (Some CLIENT_SERVICE_NAME) (Some CLIENT_SERVICE_NAME)
               =? 0) with true by reflexivity.
      cbv beta iota zeta. rewrite Ffl, Hf. reflexivity. }
    destruct (restart_source_timer_spec cfg st1 Htr) as (Hp & _ & Htr').
    pose proof (restart_source_timer_now cfg st1) as Hnow.
    pose proof (restart_source_timer_frame cfg st1) as Hfr.
    exists (restart_source_timer cfg st1). split; [exact Hstep|].
    cbn zeta in Hp.
    remember (restart_source_timer cfg st1) as st2 eqn:E2. clear E2.
    timer_eqs Hfr.
    assert (Hl : forallb
                   (fun c => String.eqb (remote_service.type c)
                               CLIENT_SERVICE_NAME) l = true).
    { unfold l. rewrite forallb_sorted_insert, Fty. cbn [andb].
      replace (String.eqb CLIENT_SERVICE_NAME CLIENT_SERVICE_NAME) with true
        by reflexivity.
      apply forallb_filter, types_kept_registry, Hty. }
    split; [|assumption].
    split; [exact Htr'|]. split.
    { apply (types_kept_intro st st2); auto.
      replace (client_service_list st2) with l by (symmetry; assumption).
      exact Hl. }
    split; [state_simpl; congruence|]. split; [exact Hnow|].
    eexists. exact Hp.
  - destruct ev; try discriminate.
    destruct (remove_clients_spec cfg n t d (client_service_list st) st Htr)
      as (K & Htr1 & Hfr & Harm).
    change (existsb (removes_peer n t d) (client_service_list st))
      with (non_self_registry_event st
              (browsed i p AVAHI_BROWSER_REMOVE n t d f)) in Harm.
    cbn [non_self_registry_event] in Harm. rewrite He in Harm.
    destruct Harm as [id Hp].
    cbn [dispatch]. unfold browse_callback.
    destruct (remove_clients cfg n t d (client_service_list st) st)
      as [kept st1].
    cbn [fst snd] in *. timer_eqs Hfr.
    assert (Hhost : current_host (set_client_service_list kept st1)
                    = current_host st) by assumption.
    assert (Hnomatch :
      match current_host (set_client_service_list kept st1) with
      | Some host => removal_matches n t d host = false
      | None => True
      end).
    { rewrite Hhost. destruct (current_host st) as [host|] eqn:Hh; [|exact I].
      now apply (removal_spares_host n t d st host). }
    exists (set_client_service_list kept st1).
    split.
    { destruct (current_host (set_client_service_list kept st1)) as [host|];
        [rewrite Hnomatch|]; reflexivity. }
    split; [|assumption].
    split; [exact Htr1|]. split.
    { apply (types_kept_intro st); auto.
      cbn [client_service_list set_client_service_list]. subst kept.
      apply forallb_filter, types_kept_registry, Hty. }
    split; [state_simpl; congruence|]. split; [assumption|].
    exists id. exact Hp.
Qed.

Lemma armed_set_now cfg T t st :
  armed cfg T st -> T <= t ->
  timers_tracked (set_now t st) = true
  /\ types_kept (set_now t st) = true
  /\ world.quit (env (set_now t st)) = false
  /\ world.now (env (set_now t st)) = t.
Proof. intros (H1 & H2 & H3 & _) _. repeat split; assumption. Qed.

Lemma burst_rearms cfg plat answers :
  forall schedule T st,
    armed cfg T st ->
    burst cfg plat answers T schedule st ->
    exists st',
      main_loop cfg plat answers schedule st = Ok st'
      /\ armed cfg (last_time T schedule) st'
      /\ elections st' = elections st.
Proof.
  induction schedule as [|[[t o] e] rest IH]; intros T st Harmed Hburst.
  - exists st. split; [reflexivity|]. split; [exact Harmed|reflexivity].
  - cbn [burst] in Hburst. destruct Hburst as (Ht & He & Hrest).
    pose proof (advance_quiet cfg plat answers T t st Harmed Ht) as Hadv.
    rewrite Hadv in Hrest. cbn [bind] in Hrest.
    destruct (armed_set_now cfg T t st Harmed (proj1 Ht))
      as (Htr & Hty & Hq & Hnow).
    destruct (event_arms cfg plat o e (set_now t st) Htr Hty Hq He)
      as (st1 & Hstep & Harmed1 & Hel).
    rewrite Hnow in Harmed1. rewrite Hstep in Hrest. cbn [state_of] in Hrest.
    destruct (IH t st1 Harmed1 Hrest) as (st' & Hloop & Harmed' & Hel').
    exists st'. cbn [main_loop last_time].
    destruct Harmed as (_ & _ & Hquit & _). rewrite Hquit, Hadv.
    cbn [bind]. rewrite Hstep. cbn [bind].
    split; [exact Hloop|]. split; [exact Harmed'|].
    rewrite Hel', Hel. reflexivity.
Qed.

Lemma filter_comm {A} (f g : A -> bool) (l : list A) :
  filter f (filter g l) = filter g (filter f l).
Proof.
  induction l as [|x l IH]; [reflexivity|].
  cbn [filter]. destruct (f x) eqn:Ef, (g x) eqn:Eg; cbn [filter];
    rewrite ?Ef, ?Eg, IH; reflexivity.
Qed.

Lemma pending_timers_destroy id st :
  pending_timers (destroy_sources [id] st)
  = filter (fun s => negb (fst s =? id)) (pending_timers st).
Proof.
  unfold pending_timers, destroy_sources.
  cbn [env set_sources set_env world.sources].
  rewrite filter_comm. apply filter_ext.
  intros s. cbn [existsb]. now rewrite orb_false_r.
Qed.

Lemma timer_fires_once cfg plat answers T horizon st :
  armed cfg T st ->
  0 < source_interval cfg ->
  T + source_interval cfg <= horizon ->
  exists id,
    elections (state_of (advance cfg plat answers horizon st))
    = TimeoutDispatch id (T + source_interval cfg) :: elections st.
Proof.
  intros (_ & _ & _ & Hnow & id & Hp) Hq Hh.
  exists id. unfold advance.
  assert (Hin : In (id, TimeoutSource (T + source_interval cfg))
                  (world.sources (env st))).
  { assert (H : In (id, TimeoutSource (T + source_interval cfg))
                  (pending_timers st)) by (rewrite Hp; now left).
    apply filter_In in H. tauto. }
  assert (Hfuel : exists n, List.length (world.sources (env st)) = S n).
  { destruct (world.sources (env st)); [destruct Hin|eexists; reflexivity]. }
  destruct Hfuel as [n Hn]. rewrite Hn. cbn [fire_due].
  rewrite (find_due_timer horizon (world.sources (env st))
             (id, TimeoutSource (T + source_interval cfg)))
    by (try exact Hp; cbn; apply Z.leb_le; lia).
  rewrite Hnow, Z.max_r by lia.
  set (at_time := T + source_interval cfg) in *.
  set (st1 := log (TimeoutDispatch id at_time) (set_now at_time st)).
  destruct (on_source_timeout_frame cfg plat (answers id) st1)
    as (_ & _ & Hel & _).
  destruct (on_source_timeout_timers cfg plat (answers id) st1)
    as [keep Hkeep].
  change (pending_timers st1) with (pending_timers st) in Hkeep.
  change (elections st1) with (TimeoutDispatch id at_time :: elections st)
    in Hel.
  destruct (on_source_timeout cfg plat (answers id) st1) as [st2|st2];
    cbn [bind state_of] in *; [|exact Hel].
  rewrite fire_due_idle.
  - cbn [bind state_of]. exact Hel.
  - apply no_timer_pending. rewrite pending_timers_destroy, Hkeep, Hp.
    cbn [filter fst]. destruct (keep (id, TimeoutSource at_time));
      cbn [filter fst]; rewrite ?Z.eqb_refl; reflexivity.
Qed.

Lemma own_resolution_keeps_timer cfg o interface protocol ev name type domain
    host_name port txt flags st :
  Z.land flags AVAHI_LOOKUP_RESULT_OUR_OWN <> 0 ->
  let st' :=
    state_of
      (resolve_callback cfg o interface protocol ev name type domain host_name
         port txt flags st) in
  timeout_source st' = timeout_source st /\ env st' = env st.
Proof.
  intros Hown. cbn zeta. unfold resolve_callback.
  destruct ev; [|split; reflexivity].
  destruct (resolved_service_fields interface protocol name type domain
              host_name port txt flags) as (_ & _ & _ & _ & _ & _ & _ & Ffl).
  cbn zeta in Ffl. rewrite Ffl.
  apply Z.eqb_neq in Hown. rewrite Hown.
  destruct (g_strcmp0 (Some type) (Some CLIENT_SERVICE_NAME) =? 0);
    [split; reflexivity|].
  destruct (g_strcmp0 (Some type) (Some HOST_SERVICE_NAME) =? 0);
    split; reflexivity.
Qed.

Lemma own_removal_keeps_timer cfg name type domain l st :
  existsb (removes_peer name type domain) l = false ->
  snd (remove_clients cfg name type domain l st) = st.
Proof.
  revert st. induction l as [|c l IH]; intros st H; [reflexivity|].
  cbn [existsb remove_clients] in *. unfold removes_peer at 1 in H.
  apply orb_false_iff in H as [Hc Hl].
  destruct (removal_matches name type domain c); cbn [andb] in Hc.
  - rewrite Hc. now apply IH.
  - specialize (IH st Hl).
    destruct (remove_clients cfg name type domain l st). exact IH.
Qed.

(** *** Timers and record types in reachable states *)

Lemma types_kept_same st st' :
  client_service_list st' = client_service_list st ->
  current_host st' = current_host st ->
  types_kept st = true -> types_kept st' = true.
Proof. unfold types_kept. intros -> ->. auto. Qed.

Lemma pending_timers_destroy_all ids st :
  exists keep,
    pending_timers (destroy_sources ids st) = filter keep (pending_timers st).
Proof.
  eexists. unfold pending_timers, destroy_sources.
  cbn [env set_sources set_env world.sources].
  apply filter_comm.
Qed.

Lemma tracked_empty st : pending_timers st = [] -> timers_tracked st = true.
Proof. unfold timers_tracked. intros ->. reflexivity. Qed.

Lemma launch_single_player_ready cfg o st :
  timers_tracked st = true /\ types_kept st = true ->
  let st' := state_of (launch_single_player cfg o st) in
  timers_tracked st' = true /\ types_kept st' = true.
Proof.
  intros [Htr Hty]. cbn zeta.
  destruct (launch_single_player_timers cfg o st) as [keep Hkeep].
  pose proof (launch_single_player_frame cfg o st) as Hf. frame_eqs Hf.
  split.
  - apply (tracked_filter st _ keep); assumption.
  - apply (types_kept_same st); assumption.
Qed.

Lemma dispatch_ready cfg plat o e st :
  ready st -> holds ready (fun _ => True) (dispatch cfg plat o e st).
Proof.
  intros [Htr Hty].
  destruct e as [i p ev n t d h po txt f|i p ev n t d f|pid status|s];
    cbn [dispatch].
  - unfold resolve_callback. destruct ev; [|exact I].
    destruct (resolved_service_fields i p n t d h po txt f)
      as (_ & _ & _ & _ & Fty & _).
    set (service := resolved_service i p n t d h po txt f) in *.
    rewrite !g_strcmp0_eqb.
    destruct (String.eqb t CLIENT_SERVICE_NAME) eqn:Hclient.
    + set (l := sorted_insert service _).
      assert (Hl : forallb
                     (fun c => String.eqb (remote_service.type c)
                                 CLIENT_SERVICE_NAME) l = true).
      { unfold l. rewrite forallb_sorted_insert, Fty, Hclient. cbn [andb].
        apply forallb_filter, types_kept_registry, Hty. }
      assert (Hty1 : types_kept (set_client_service_list l st) = true)
        by (apply (types_kept_intro st); auto).
      destruct (Z.land _ AVAHI_LOOKUP_RESULT_OUR_OWN =? 0); cbn [holds];
        [|split; assumption].
      destruct (restart_source_timer_spec cfg (set_client_service_list l st)
                  Htr) as (_ & _ & Htr').
      split; [exact Htr'|].
      pose proof (restart_source_timer_frame cfg
                    (set_client_service_list l st)) as Hf.
      remember (restart_source_timer cfg (set_client_service_list l st))
        as st2 eqn:E2. clear E2. timer_eqs Hf.
      apply (types_kept_same (set_client_service_list l st)); assumption.
    + destruct (String.eqb t HOST_SERVICE_NAME) eqn:Hhost;
        [|split; assumption].
      destruct (Z.land _ AVAHI_LOOKUP_RESULT_OUR_OWN =? 0);
        [|split; assumption].
      set (st1 := set_current_host (Some service) st).
      destruct (connect_to_host_spec cfg o st1 service eq_refl) as (Hf & _).
      destruct (connect_to_host_timers cfg o st1) as [keep Hkeep].
      frame_eqs Hf.
      destruct (connect_to_host cfg o st1) as [st2|st2];
        cbn [bind holds state_of] in *; [|exact I].
      assert (Htr2 : timers_tracked st2 = true)
        by (apply (tracked_filter st st2 keep); assumption).
      destruct (stop_source_timer_spec st2 Htr2) as [Hnone _].
      split; [now apply tracked_empty|].
      pose proof (stop_source_timer_frame st2) as Hs.
      remember (stop_source_timer st2) as st3 eqn:E3. clear E3. timer_eqs Hs.
      unfold types_kept in *.
      replace (client_service_list st3) with (client_service_list st)
        by congruence.
      replace (current_host st3) with (Some service) by congruence.
      apply andb_true_iff in Hty as [Hreg _]. rewrite Hreg, Fty. exact Hhost.
  - unfold browse_callback. destruct ev; try (split; assumption).
    destruct (remove_clients_spec cfg n t d (client_service_list st) st Htr)
      as (K & Htr1 & Hf1 & _).
    destruct (remove_clients cfg n t d (client_service_list st) st)
      as [kept st1].
    cbn [fst snd] in *. timer_eqs Hf1.
    assert (Hkept : forallb
                      (fun c => String.eqb (remote_service.type c)
                                  CLIENT_SERVICE_NAME) kept = true)
      by (subst kept; apply forallb_filter, types_kept_registry, Hty).
    assert (Hty1 : types_kept (set_client_service_list kept st1) = true)
      by (apply (types_kept_intro st); auto).
    destruct (current_host (set_client_service_list kept st1)) as [host|];
      [|split; assumption].
    destruct (removal_matches n t d host); [|split; assumption].
    set (st2 := set_current_host None (set_client_service_list kept st1)).
    assert (Hready2 : timers_tracked st2 = true /\ types_kept st2 = true).
    { split; [exact Htr1|]. unfold types_kept.
      cbn [client_service_list current_host st2 set_current_host
           set_client_service_list].
      now rewrite Hkept. }
    destruct (launch_single_player_ready cfg o st2 Hready2) as [Htr3 Hty3].
    destruct (launch_single_player cfg o st2) as [st3|st3];
      cbn [bind holds state_of] in *; [|exact I].
    destruct (restart_source_timer_spec cfg st3 Htr3) as (_ & _ & Htr4).
    split; [exact Htr4|].
    pose proof (restart_source_timer_frame cfg st3) as Hf.
    remember (restart_source_timer cfg st3) as st4 eqn:E4. clear E4.
    timer_eqs Hf. apply (types_kept_same st3); assumption.
  - destruct (filter (is_watch_of pid) (world.sources (env st)))
      as [|w ws]; [split; assumption|].
    set (st1 := set_children _ st).
    assert (Hready1 : ready (state_of (on_child_exit cfg o pid status st1))).
    { destruct (on_child_exit_cases cfg o pid status st1) as [E|E]; rewrite E;
        [split; assumption|].
      apply launch_single_player_ready. split; assumption. }
    destruct (on_child_exit cfg o pid status st1) as [st2|st2];
      cbn [bind holds state_of] in *; [|exact I].
    destruct Hready1 as [Htr2 Hty2].
    destruct (pending_timers_destroy_all (map fst (w :: ws)) st2)
      as [keep Hkeep].
    split; [apply (tracked_filter st2 _ keep); auto|exact Hty2].
  - destruct (avahi_client_callback_frame plat o s st)
      as (Hts & _ & Hreg & Hhost & Hsrc & _).
    destruct (avahi_client_callback plat o s st) as [st1|st1];
      cbn [holds state_of] in *; [|exact I].
    split.
    + unfold timers_tracked, pending_timers in *. now rewrite Hsrc, Hts.
    + apply (types_kept_same st); assumption.
Qed.

Lemma tracked_source st id deadline :
  timers_tracked st = true ->
  In (id, TimeoutSource deadline) (world.sources (env st)) ->
  filter (fun s => negb (fst s =? id)) (pending_timers st) = [].
Proof.
  intros Htr Hin.
  assert (Hp : In (id, TimeoutSource deadline) (pending_timers st))
    by (apply filter_In; split; [exact Hin|reflexivity]).
  assert (Hid : id = timeout_source st).
  { unfold timers_tracked in Htr. rewrite forallb_forall in Htr.
    specialize (Htr _ Hp). apply andb_true_iff in Htr as [Htr _].
    now apply Z.eqb_eq in Htr. }
  subst id. now apply tracked_all_removed.
Qed.

Lemma fire_ready cfg plat o id deadline at_time st :
  ready st ->
  In (id, TimeoutSource deadline) (world.sources (env st)) ->
  holds (fun s => ready (destroy_sources [id] s)) (fun _ => True)
    (on_source_timeout cfg plat o
       (log (TimeoutDispatch id at_time) (set_now at_time st))).
Proof.
  intros [Htr Hty] Hin.
  set (st1 := log (TimeoutDispatch id at_time) (set_now at_time st)).
  destruct (on_source_timeout_frame cfg plat o st1) as (Hreg & Hhost & _).
  destruct (on_source_timeout_timers cfg plat o st1) as [keep Hkeep].
  destruct (on_source_timeout cfg plat o st1) as [st2|st2];
    cbn [holds state_of] in *; [|exact I].
  split.
  - apply tracked_empty.
    rewrite pending_timers_destroy, Hkeep, filter_comm.
    change (pending_timers st1) with (pending_timers st).
    now rewrite (tracked_source st id deadline Htr Hin).
  - apply (types_kept_same st); assumption.
Qed.

(** In every state the loop reaches, the timeout sources are tracked and the
    records have the types the callbacks rely on. *)
Lemma main_ready cfg plat startup o answers schedule :
  holds ready (fun _ => True) (main cfg plat startup o answers schedule).
Proof.
  apply main_holds.
  - intros t st H. exact H.
  - intros o' e st H. now apply dispatch_ready.
  - intros o' id deadline at_time st H Hin. now apply (fire_ready cfg plat o' id deadline).
  - split; reflexivity.
  - intros b st H. exact H.
  - intros o' st H.
    pose proof (launch_single_player_ready cfg o' st H) as Hr.
    destruct (launch_single_player cfg o' st); [exact Hr|exact I].
Qed.

(** ** C1 and C3: the election decision *)

(** C1 (amended): when the election timer fires and the first registry entry
    is our own, is host-capable, and other peers are registered, the node
    becomes Host: it launches the hosting process for [countOthers + 1]
    players on the configured port and, when Avahi accepts the record,
    publishes the host advertisement. *)
Theorem C1_capable_self_first_hosts :
  forall cfg plat o st best rest p,
    client_service_list st = best :: rest ->
    Z.land (remote_service.flags best) AVAHI_LOOKUP_RESULT_OUR_OWN <> 0 ->
    remote_service.can_host best = true ->
    0 < count_others (client_service_list st) ->
    spawn_async o = Some p ->
    let players := count_others (client_service_list st) + 1 in
    let st' := state_of (on_source_timeout cfg plat o st) in
    spawns st'
    = SpawnAsync
        ([config.zdoom cfg; "-iwad"; config.mp_wad cfg; "-deathmatch";
          "+map"; config.mp_map cfg; "-host"; string_of_Z players; "-port";
          string_of_Z (config.port cfg)]%string
           ++ strv_args (config_args (config.mp_config cfg)))
        (Some p)
        :: spawns st
    /\ child_pid st' = Zpos p
    /\ single_player_running st' = false
    /\ (entry_group_new o = true -> add_service_ret o = [] ->
        exists g,
          on_source_timeout cfg plat o st = Ok st'
          /\ timeout_source st' = 0
          /\ local_service.group (local_host_service st') = Some g
          /\ g <> []).
Proof.
  intros cfg plat o st best rest p Hlist Hown Hcap Hothers Hp players st'.
  assert (Hstep :
    on_source_timeout cfg plat o st
    = do s <- host_game cfg plat o players st ; Ok (set_timeout_source 0 s)).
  { unfold on_source_timeout. fold players. rewrite Hlist in *.
    cbn [hd_error]. rewrite Hcap.
    apply Z.eqb_neq in Hown. rewrite Hown. cbn [negb].
    replace (count_others (best :: rest) =? 0) with false
      by (symmetry; apply Z.eqb_neq; lia).
    reflexivity. }
  destruct (host_game_spec cfg plat o players st) as (_ & Hs & Hr).
  destruct (Hr p Hp) as [Hrun Hpid].
  assert (Hst' :
    spawns st' = spawns (state_of (host_game cfg plat o players st))
    /\ child_pid st' = child_pid (state_of (host_game cfg plat o players st))
    /\ single_player_running st'
       = single_player_running (state_of (host_game cfg plat o players st))).
  { subst st'. rewrite Hstep.
    destruct (host_game cfg plat o players st); repeat split. }
  destruct Hst' as (E1 & E2 & E3).
  rewrite E1, E2, E3, Hs, Hp. repeat split; auto.
  intros Hnew Hrets.
  destruct (host_game_published cfg plat o players st p Hp Hnew Hrets)
    as (s & g & Hok & Hg & Hne).
  exists g. subst st'. rewrite Hstep, Hok. cbn [bind state_of].
  repeat split; auto.
Qed.

Lemma C1_capable_self_first_hosts_witness :
  spawns
    (state_of
       (on_source_timeout default_config example_platform (answer 300)
          three_candidates))
  = SpawnAsync
      ["zdoom"; "-iwad"; "freedm.wad"; "-deathmatch"; "+map"; "MAP01";
       "-host"; "3"; "-port"; "5029"]%string (Some 300%positive)
      :: spawns three_candidates.
Proof.
  pose proof
    (C1_capable_self_first_hosts default_config example_platform
       (answer 300) three_candidates
       (hd (resolved_service 0 0 "" "" "" "" 0 [] 0)
          (client_service_list three_candidates))
       (tl (client_service_list three_candidates)) 300%positive) as H.
  vm_compute in H |- *.
  apply H; [reflexivity|discriminate|reflexivity|reflexivity|reflexivity].
Defined.

(** C1, as worded, fails when no candidate is host-capable: our own entry "A"
    sorts first and two peers are registered, yet no hosting process is
    launched; the node stays in single-player mode and publishes no host
    advertisement. *)
Lemma C1_incapable_self_counterexample :
  let st := three_incapable in
  let st' :=
    state_of
      (on_source_timeout hostless_config example_platform (answer 300) st) in
  option_map remote_service.name (hd_error (client_service_list st))
  = Some "A"%string
  /\ option_map (fun c => our_own (remote_service.flags c))
       (hd_error (client_service_list st)) = Some true
  /\ forallb (fun c => negb (remote_service.can_host c))
       (client_service_list st) = true
  /\ count_others (client_service_list st) = 2
  /\ spawns st' = spawns st
  /\ single_player_running st' = true
  /\ local_service.group (local_host_service st') = None.
Proof. vm_compute. repeat split. Qed.

(** C3 (amended): when the election timer fires and the first registry entry
    is a host-capable peer other than ourselves, nothing changes but the
    timer handle, which is cleared: no process is launched or replaced, the
    single-player flag and both advertisements stay as they are. *)
Theorem C3_capable_peer_first_waits :
  forall cfg plat o st best rest,
    client_service_list st = best :: rest ->
    Z.land (remote_service.flags best) AVAHI_LOOKUP_RESULT_OUR_OWN = 0 ->
    remote_service.can_host best = true ->
    let st' := state_of (on_source_timeout cfg plat o st) in
    on_source_timeout cfg plat o st = Ok (set_timeout_source 0 st)
    /\ world.trace (env st') = world.trace (env st)
    /\ child_pid st' = child_pid st
    /\ world.children (env st') = world.children (env st)
    /\ single_player_running st' = single_player_running st
    /\ local_host_service st' = local_host_service st
    /\ local_client_service st' = local_client_service st.
Proof.
  intros cfg plat o st best rest Hlist Hown Hcap st'.
  assert (Hstep : on_source_timeout cfg plat o st = Ok (set_timeout_source 0 st)).
  { unfold on_source_timeout. rewrite Hlist. cbn [hd_error].
    rewrite Hcap, Hown. reflexivity. }
  subst st'. rewrite Hstep. repeat split.
Qed.

Lemma C3_capable_peer_first_waits_witness :
  on_source_timeout default_config example_platform (answer 300)
    capable_peer_first
  = Ok (set_timeout_source 0 capable_peer_first).
Proof.
  pose proof
    (C3_capable_peer_first_waits default_config example_platform
       (answer 300) capable_peer_first
       (hd (resolved_service 0 0 "" "" "" "" 0 [] 0)
          (client_service_list capable_peer_first))
       (tl (client_service_list capable_peer_first))) as H.
  vm_compute in H |- *.
  apply H; reflexivity.
Defined.

(** C3, as worded, fails when the best entry cannot host: the node had joined
    a game; the first registry entry is peer "B", not ourselves; the timer
    firing ends the join process and launches the single-player game. *)
Lemma C3_incapable_peer_counterexample :
  let st := joined_then_peer in
  let st' :=
    state_of
      (on_source_timeout default_config example_platform (answer 300) st) in
  option_map (fun c => our_own (remote_service.flags c))
    (hd_error (client_service_list st)) = Some false
  /\ single_player_running st = false
  /\ child_pid st = 101
  /\ single_player_running st' = true
  /\ child_pid st' = 300
  /\ world.trace (env st')
     = [ChildWatchAdd 300 4;
        SpawnAsync ["zdoom"; "-iwad"; "freedoom1.wad"]%string
          (Some 300%positive);
        SourceRemove 2; Waitpid 101; Kill 101]
         ++ world.trace (env st).
Proof. vm_compute. repeat split. Qed.

(** ** C2 and C4: the host record *)

(** A host record without a [wad] entry leaves [wad] NULL, and the NULL ends
    the argument vector early: no join arguments are passed. *)
Remark join_argv_without_wad cfg (host : remote_service.t) :
  remote_service.wad host = None ->
  strv_args (join_argv cfg host) = [config.zdoom cfg; "-iwad"%string].
Proof. unfold join_argv. intros ->. reflexivity. Qed.

(** X22: when a host-type record of another node resolves and carries a
    [wad] entry, it becomes the current host whatever was there before, no
    election timer stays pending, the host advertisement is withdrawn, and
    the join process is launched with that record's WAD, host name and port.
    The state is one with tracked timers, as every state the loop reaches is
    ([main_ready]); a failing launch ends the program. *)
Theorem host_record_with_wad_makes_client :
  forall cfg o interface protocol name domain host_name port txt flags st w p,
    Z.land flags AVAHI_LOOKUP_RESULT_OUR_OWN = 0 ->
    last (txt_values WAD_KEY txt) None = Some w ->
    timers_tracked st = true ->
    spawn_async o = Some p ->
    exists st',
      resolve_callback cfg o interface protocol AVAHI_RESOLVER_FOUND name
        HOST_SERVICE_NAME domain host_name port txt flags st = Ok st'
      /\ current_host st'
         = Some (resolved_service interface protocol name HOST_SERVICE_NAME
                   domain host_name port txt flags)
      /\ pending_timers st' = []
      /\ timeout_source st' = 0
      /\ spawns st'
         = SpawnAsync
             ([config.zdoom cfg; "-iwad"; w; "-join"; host_name; "-port";
               string_of_Z port]%string
                ++ strv_args (config_args (config.mp_config cfg)))
             (Some p)
             :: spawns st
      /\ child_pid st' = Zpos p
      /\ single_player_running st' = false
      /\ local_service.group (local_host_service st') = None
      /\ client_service_list st' = client_service_list st.
Proof.
  intros cfg o interface protocol name domain host_name port txt flags st w p
    Hown Hwad Htr Hp.
  set (service := resolved_service interface protocol name HOST_SERVICE_NAME
                    domain host_name port txt flags).
  destruct (resolved_service_fields interface protocol name HOST_SERVICE_NAME
              domain host_name port txt flags)
    as (_ & _ & Fport & _ & _ & _ & Fhost & Fflags).
  fold service in Fport, Fhost, Fflags.
  assert (Fwad : remote_service.wad service = Some w).
  { unfold service, resolved_service. now rewrite parse_txt_wad. }
  set (st1 := set_current_host (Some service) st).
  destruct (connect_to_host_spec cfg o st1 service eq_refl)
    as (Hframe & Hspawns & Hhost & Hok).
  destruct (Hok p Hp) as (Hres & Hrun & Hpid).
  destruct (connect_to_host_timers cfg o st1) as [keep Hkeep].
  set (st2 := state_of (connect_to_host cfg o st1)) in *.
  frame_eqs Hframe.
  assert (Htr2 : timers_tracked st2 = true)
    by (apply (tracked_filter st st2 keep); assumption).
  destruct (stop_source_timer_spec st2 Htr2) as [Hnone Hzero].
  pose proof (stop_source_timer_frame st2) as Hstop. timer_eqs Hstop.
  exists (stop_source_timer st2).
  split.
  { unfold resolve_callback. fold service. rewrite Fflags, Hown.
    replace (g_strcmp0 (Some HOST_SERVICE_NAME) (Some CLIENT_SERVICE_NAME) =? 0)
      with false by reflexivity.
    replace (g_strcmp0 (Some HOST_SERVICE_NAME) (Some HOST_SERVICE_NAME) =? 0)
      with true by reflexivity.
    cbv beta iota zeta. fold st1. rewrite Hres. reflexivity. }
  repeat split; try assumption; try congruence.
  - transitivity (spawns st2); [assumption|].
    rewrite Hspawns, Hp. unfold join_argv. rewrite Fwad, Fhost, Fport.
    reflexivity.
  - transitivity (local_service.group (local_host_service st2)); [congruence|].
    now rewrite Hhost.
Qed.


Lemma host_record_with_wad_makes_client_witness :
  exists st',
    resolve_callback default_config (answer 300) 2 0 AVAHI_RESOLVER_FOUND "H"
      HOST_SERVICE_NAME "local" "H.local" 5029 ["wad=freedm.wad"%string] 0
      three_candidates = Ok st'
    /\ pending_timers three_candidates <> []
    /\ pending_timers st' = []
    /\ spawns st'
       = SpawnAsync
           ["zdoom"; "-iwad"; "freedm.wad"; "-join"; "H.local"; "-port";
            "5029"]%string (Some 300%positive)
           :: spawns three_candidates.
Proof.
  assert (Htr : timers_tracked three_candidates = true)
    by (vm_compute; reflexivity).
  destruct (host_record_with_wad_makes_client default_config (answer 300) 2 0 "H"
              "local" "H.local" 5029 ["wad=freedm.wad"%string] 0
              three_candidates "freedm.wad" 300%positive
              eq_refl eq_refl Htr eq_refl)
    as (st' & Hok & _ & Hnone & _ & Hspawn & _).
  exists st'. split; [exact Hok|].
  split; [vm_compute; discriminate|].
  split; [exact Hnone|exact Hspawn].
Defined.

(** C2 fails on a host record that carries no [wad] entry, which the
    callback accepts like any other: the record becomes the current host and
    the node counts as a client, but the NULL WAD ends the argument vector
    after [-iwad], so the process launched is given neither [-join] nor the
    host's name and port.  The optional [-config] argument of the same
    command line is guarded; the WAD is not. *)
Theorem C2_host_record_without_wad_joins_nothing :
  let host :=
    resolved_service 2 0 "H" HOST_SERVICE_NAME "local" "H.local" 5029 [] 0 in
  exists st',
    resolve_callback default_config (answer 300) 2 0 AVAHI_RESOLVER_FOUND "H"
      HOST_SERVICE_NAME "local" "H.local" 5029 [] 0 three_candidates = Ok st'
    /\ current_host st' = Some host
    /\ remote_service.wad host = None
    /\ single_player_running st' = false
    /\ hd_error (spawns st')
       = Some (SpawnAsync ["zdoom"; "-iwad"]%string (Some 300%positive)).
Proof. vm_compute. eexists. repeat split. Qed.

(** C4: when a removal event names the current host record (same service
    name, type and domain), the current host is cleared, the node is in
    single-player mode afterwards (the single-player game is launched unless
    it was already running, the host advertisement is withdrawn), and exactly
    one election timer is pending, due one quiet period from now.  The state
    is one with tracked timers, as every state the loop reaches is
    ([main_ready]). *)
Theorem C4_host_removal_falls_back :
  forall cfg o interface protocol name type domain flags st host p,
    current_host st = Some host ->
    remote_service.name host = name ->
    remote_service.type host = type ->
    remote_service.domain host = domain ->
    timers_tracked st = true ->
    spawn_async o = Some p ->
    exists st',
      browse_callback cfg o interface protocol AVAHI_BROWSER_REMOVE name type
        domain flags st = Ok st'
      /\ current_host st' = None
      /\ single_player_running st' = true
      /\ spawns st'
         = (if single_player_running st then []
            else [SpawnAsync (strv_args (single_player_argv cfg)) (Some p)])
             ++ spawns st
      /\ local_service.group (local_host_service st') = None
      /\ timeout_source st' <> 0
      /\ pending_timers st'
         = [(timeout_source st',
             TimeoutSource (world.now (env st) + source_interval cfg))].
Proof.
  intros cfg o interface protocol name type domain flags st host p
    Hhost Hname Htype Hdomain Htr Hp.
  assert (Hmatch : removal_matches name type domain host = true)
    by (apply removal_matches_spec; auto).
  destruct (remove_clients_spec cfg name type domain (client_service_list st)
              st Htr) as (_ & Htr1 & Hf1 & _).
  unfold browse_callback.
  destruct (remove_clients cfg name type domain (client_service_list st) st)
    as [kept st1].
  cbn [fst snd] in *.
  assert (Hhost1 : current_host st1 = Some host).
  { pose proof (f_equal (fun t => match t with
                                  | (_, _, _, _, _, h, _, _, _, _, _, _) => h
                                  end) Hf1) as Hh.
    cbn in Hh. congruence. }
  set (st2 := set_current_host None (set_client_service_list kept st1)).
  change (current_host (set_client_service_list kept st1))
    with (current_host st1).
  rewrite Hhost1, Hmatch. fold st2.
  pose proof (launch_single_player_frame cfg o st2) as Hframe.
  pose proof (launch_single_player_spawns cfg o st2) as Hspawns.
  pose proof (launch_single_player_host_service cfg o st2) as Hsvc.
  destruct (launch_single_player_timers cfg o st2) as [keep Hkeep].
  pose proof (launch_single_player_result cfg o st2) as Hres.
  rewrite Hp, orb_true_r in Hres.
  pose proof (launch_single_player_running cfg o st2 _ Hres) as Hrun.
  set (st3 := state_of (launch_single_player cfg o st2)) in *.
  frame_eqs Hframe.
  assert (Htr3 : timers_tracked st3 = true).
  { apply (tracked_filter st1 st3 keep); [assumption|congruence|exact Hkeep]. }
  destruct (restart_source_timer_spec cfg st3 Htr3) as (Hpend & Hid & _).
  pose proof (restart_source_timer_frame cfg st3) as Hf3.
  pose proof (restart_source_timer_now cfg st3) as Hnow3.
  exists (restart_source_timer cfg st3).
  rewrite Hres. cbn [bind]. split; [reflexivity|].
  cbn zeta in Hpend, Hid.
  remember (restart_source_timer cfg st3) as st4 eqn:E4. clear E4.
  timer_eqs Hf3. timer_eqs Hf1.
  repeat split.
  - congruence.
  - congruence.
  - transitivity (spawns st3); [assumption|]. rewrite Hspawns.
    change (single_player_running st2) with (single_player_running st1).
    change (spawns st2) with (spawns st1).
    replace (single_player_running st1) with (single_player_running st)
      by congruence.
    replace (spawns st1) with (spawns st) by congruence.
    rewrite Hp. destruct (single_player_running st); reflexivity.
  - replace (local_host_service st4) with (local_host_service st3)
      by congruence.
    rewrite Hsvc. reflexivity.
  - rewrite Hid. discriminate.
  - rewrite Hpend, Hid.
    replace (world.now (env st3)) with (world.now (env st)); [reflexivity|].
    change (world.now (env st2)) with (world.now (env st1)) in *. congruence.
Qed.

(** The node joined the game of host "H" while peer "B" was registered. *)
Lemma C4_host_removal_falls_back_witness :
  exists st',
    browse_callback default_config (answer 300) 2 0 AVAHI_BROWSER_REMOVE "H"
      HOST_SERVICE_NAME "local" 0 joined_then_peer = Ok st'
    /\ option_map remote_service.name (current_host joined_then_peer)
       = Some "H"%string
    /\ current_host st' = None
    /\ single_player_running st' = true
    /\ pending_timers st' = [(timeout_source st', TimeoutSource 32000)].
Proof.
  assert (Hhost :
    current_host joined_then_peer
    = Some (resolved_service 2 0 "H" HOST_SERVICE_NAME "local" "H.local" 5029
              ["wad=freedm.wad"%string] 0))
    by (vm_compute; reflexivity).
  assert (Htr : timers_tracked joined_then_peer = true)
    by (vm_compute; reflexivity).
  assert (Hnow : world.now (env joined_then_peer) + source_interval default_config
                 = 32000) by (vm_compute; reflexivity).
  destruct (C4_host_removal_falls_back default_config (answer 300) 2 0 "H"
              HOST_SERVICE_NAME "local" 0 joined_then_peer _ 300%positive
              Hhost eq_refl eq_refl eq_refl Htr eq_refl)
    as (st' & Hok & Hnone & Hrun & _ & _ & _ & Hpend).
  exists st'. split; [exact Hok|]. split; [now rewrite Hhost|].
  split; [exact Hnone|]. split; [exact Hrun|]. now rewrite <- Hnow.
Defined.

(** ** C5: one election per burst *)

(** C5: a burst of registry-mutating discovery events from other peers, each
    less than a quiet period after the one before, leads to exactly one
    election decision: after the burst a single timer is pending, and it
    fires once, one quiet period after the last event.  A resolution that
    carries the our-own flag, and a removal that names no registered entry of
    another node (nor the current host), leave the timer and the loop's
    sources untouched.  The burst starts in a state the loop can reach
    ([main_ready]) with a positive quiet period. *)
Theorem C5_burst_gives_one_election :
  forall cfg plat,
    (forall answers st o e rest horizon,
        0 < source_interval cfg ->
        timers_tracked st = true ->
        types_kept st = true ->
        world.quit (env st) = false ->
        non_self_registry_event st e = true ->
        burst cfg plat answers (world.now (env st)) rest
          (state_of (dispatch cfg plat o e st)) ->
        let fire_at :=
          last_time (world.now (env st)) rest + source_interval cfg in
        fire_at <= horizon ->
        (exists st' id,
            (do s <- dispatch cfg plat o e st ;
             main_loop cfg plat answers rest s) = Ok st'
            /\ pending_timers st' = [(id, TimeoutSource fire_at)]
            /\ elections st' = elections st)
        /\ (exists id,
               elections
                 (state_of
                    (do s <- dispatch cfg plat o e st ;
                     do s <- main_loop cfg plat answers rest s ;
                     advance cfg plat answers horizon s))
               = TimeoutDispatch id fire_at :: elections st))
    /\ (forall o interface protocol ev name type domain host_name port txt
               flags st,
           Z.land flags AVAHI_LOOKUP_RESULT_OUR_OWN <> 0 ->
           let st' :=
             state_of
               (resolve_callback cfg o interface protocol ev name type domain
                  host_name port txt flags st) in
           timeout_source st' = timeout_source st /\ env st' = env st)
    /\ (forall o interface protocol name type domain flags st,
           existsb (removes_peer name type domain) (client_service_list st)
           = false ->
           match current_host st with
           | Some host => removal_matches name type domain host
           | None => false
           end = false ->
           let st' :=
             state_of
               (browse_callback cfg o interface protocol AVAHI_BROWSER_REMOVE
                  name type domain flags st) in
           timeout_source st' = timeout_source st /\ env st' = env st).
Proof.
  intros cfg plat. split; [|split].
  - intros answers st o e rest horizon Hq Htr Hty Hquit He Hburst fire_at Hh.
    destruct (event_arms cfg plat o e st Htr Hty Hquit He)
      as (st1 & Hstep & Harmed1 & Hel1).
    rewrite Hstep in *. cbn [state_of bind] in *.
    destruct (burst_rearms cfg plat answers rest _ st1 Harmed1 Hburst)
      as (st2 & Hloop & Harmed2 & Hel2).
    rewrite Hloop. cbn [bind].
    destruct (timer_fires_once cfg plat answers _ horizon st2 Harmed2 Hq Hh)
      as [id Hfire].
    split.
    + destruct Harmed2 as (_ & _ & _ & _ & id' & Hp).
      exists st2, id'. split; [reflexivity|]. split; [exact Hp|].
      now rewrite Hel2.
    + exists id. rewrite Hfire, Hel2, Hel1. reflexivity.
  - intros. now apply own_resolution_keeps_timer.
  - intros o interface protocol name type domain flags st Hnone Hhost st'.
    subst st'. unfold browse_callback.
    pose proof (own_removal_keeps_timer cfg name type domain
                  (client_service_list st) st Hnone) as Hsame.
    destruct (remove_clients cfg name type domain (client_service_list st) st)
      as [kept st1].
    cbn [snd] in Hsame. subst st1.
    change (current_host (set_client_service_list kept st))
      with (current_host st).
    destruct (current_host st) as [host|]; [rewrite Hhost|];
      split; reflexivity.
Qed.

Lemma C5_burst_gives_one_election_witness :
  exists id,
    elections
      (state_of
         (do s <- dispatch default_config example_platform (answer 101)
                    (client_found "B" ["can-host=0"%string] 0) self_registered ;
          do s <- main_loop default_config example_platform example_answers
                    burst_tail s ;
          advance default_config example_platform example_answers 60000 s))
    = [TimeoutDispatch id 55000].
Proof.
  assert (Hq : 0 < source_interval default_config) by (vm_compute; reflexivity).
  assert (Htr : timers_tracked self_registered = true)
    by (vm_compute; reflexivity).
  assert (Hty : types_kept self_registered = true)
    by (vm_compute; reflexivity).
  assert (Hquit : world.quit (env self_registered) = false)
    by (vm_compute; reflexivity).
  assert (He : non_self_registry_event self_registered
                 (client_found "B" ["can-host=0"%string] 0) = true)
    by (vm_compute; reflexivity).
  assert (Hburst :
    burst default_config example_platform example_answers
      (world.now (env self_registered)) burst_tail
      (state_of
         (dispatch default_config example_platform (answer 101)
            (client_found "B" ["can-host=0"%string] 0) self_registered))).
  { vm_compute. repeat split; intros; try discriminate; reflexivity. }
  assert (Hh : last_time (world.now (env self_registered)) burst_tail
               + source_interval default_config <= 60000)
    by (vm_compute; discriminate).
  destruct (proj1 (C5_burst_gives_one_election default_config example_platform)
              example_answers self_registered (answer 101)
              (client_found "B" ["can-host=0"%string] 0) burst_tail 60000
              Hq Htr Hty Hquit He Hburst Hh) as [_ [id H]].
  exists id. vm_compute in H |- *. exact H.
Defined.

(** ** C6: the registry invariant *)

(** C6: whatever events the loop has handled, the registry is sorted by the
    election order (host-capable entries first, then ascending service name)
    and holds no two entries with the same identity. *)
Theorem C6_registry_sorted_without_duplicates :
  forall cfg plat startup o answers schedule,
    let registry :=
      client_service_list
        (state_of (main cfg plat startup o answers schedule)) in
    StronglySorted election_le registry /\ NoDup (map identity registry).
Proof.
  intros cfg plat startup o answers schedule registry.
  set (P := fun st : state => registry_kept (client_service_list st)).
  assert (H : holds P P (main cfg plat startup o answers schedule)).
  { apply main_holds.
    - intros t st HP. exact HP.
    - intros o' e st HP. apply holds_same. now apply dispatch_registry.
    - intros o' id deadline at_time st HP _. apply holds_same. unfold P.
      change (client_service_list (destroy_sources ?l ?s))
        with (client_service_list s).
      destruct (on_source_timeout_frame cfg plat o'
                  (log (TimeoutDispatch id at_time) (set_now at_time st)))
        as (Hr & _).
      rewrite Hr. exact HP.
    - split; constructor.
    - intros b st HP. exact HP.
    - intros o' st HP. apply holds_same. unfold P.
      pose proof (launch_single_player_frame cfg o' st) as Hf.
      frame_eqs Hf.
      replace (client_service_list (state_of (launch_single_player cfg o' st)))
        with (client_service_list st) by (symmetry; assumption).
      exact HP. }
  apply holds_same in H. destruct H as [Hsorted Hnodup].
  split; [exact Hsorted|].
  eapply NoDup_map_finer; [exact identity_finer|exact Hnodup].
Qed.

(** ** C7: what an upsert replaces *)

(** C7 (amended): a client-type resolution drops exactly the registry
    entries that agree with the new record on service name, service type,
    interface and protocol (the domain is not compared), then inserts the new
    record; every entry differing in one of those four is kept next to it. *)
Theorem C7_upsert_replaces_on_name_type_interface_protocol :
  forall cfg o interface protocol name domain host_name port txt flags st,
    let service :=
      resolved_service interface protocol name CLIENT_SERVICE_NAME domain
        host_name port txt flags in
    let kept :=
      filter (fun c => negb (remote_service_equal service c))
        (client_service_list st) in
    let after :=
      client_service_list
        (state_of
           (resolve_callback cfg o interface protocol AVAHI_RESOLVER_FOUND
              name CLIENT_SERVICE_NAME domain host_name port txt flags st)) in
    after = sorted_insert service kept
    /\ equal_key service = (name, CLIENT_SERVICE_NAME, interface, protocol)
    /\ (forall c, In c kept <->
                  In c (client_service_list st)
                  /\ equal_key c <> equal_key service)
    /\ (forall c, In c after <-> c = service \/ In c kept).
Proof.
  intros. subst after. rewrite resolve_callback_client. fold service kept.
  split; [reflexivity|]. split; [|split].
  - unfold equal_key.
    destruct (resolved_service_fields interface protocol name
                CLIENT_SERVICE_NAME domain host_name port txt flags)
      as (H1 & H2 & _ & H4 & H5 & _).
    fold service in H1, H2, H4, H5. now rewrite H1, H2, H4, H5.
  - intros c. unfold kept. rewrite filter_In, negb_true_iff.
    rewrite <- not_true_iff_false, remote_service_equal_spec.
    intuition congruence.
  - intros c. apply in_sorted_insert.
Qed.

(** C7, as worded, fails for the domain: peer "B" is re-resolved in another
    domain, so the two records differ in identity, yet the first is dropped. *)
Lemma C7_domain_counterexample :
  let first :=
    resolved_service 2 0 "B" CLIENT_SERVICE_NAME "local" "b.local" 5029
      ["can-host=1"%string] 0 in
  let second :=
    resolved_service 2 0 "B" CLIENT_SERVICE_NAME "lan" "b.lan" 5029
      ["can-host=1"%string] 0 in
  identity first <> identity second
  /\ client_service_list
       (state_of
          (example_run
             [(1000, answer 101,
               resolved 2 0 AVAHI_RESOLVER_FOUND "B" CLIENT_SERVICE_NAME
                 "local" "b.local" 5029 ["can-host=1"%string] 0)]))
     = [first]
  /\ client_service_list
       (state_of
          (example_run
             [(1000, answer 101,
               resolved 2 0 AVAHI_RESOLVER_FOUND "B" CLIENT_SERVICE_NAME
                 "local" "b.local" 5029 ["can-host=1"%string] 0);
              (2000, answer 102,
               resolved 2 0 AVAHI_RESOLVER_FOUND "B" CLIENT_SERVICE_NAME
                 "lan" "b.lan" 5029 ["can-host=1"%string] 0)]))
     = [second].
Proof. vm_compute. split; [discriminate|split; reflexivity]. Qed.

(** ** C8: one child at a time *)

Lemma children_tracked_at_most_one st :
  children_tracked st ->
  (List.length (world.children (env st)) <= 1)%nat
  /\ (forall p, In p (world.children (env st)) -> p = child_pid st).
Proof.
  intros [H|[H Hnz]]; rewrite H; cbn; split; try lia; intros p Hp;
    intuition.
Qed.

Lemma spawn_child_order o argv st :
  child_pid st <> 0 ->
  exists after between,
    world.trace (env (state_of (spawn_child o argv st)))
    = after
        ++ SpawnAsync (strv_args argv) (spawn_async o)
        :: between
        ++ [Waitpid (child_pid st); Kill (child_pid st)]
        ++ world.trace (env st).
Proof.
  destruct_state st. cbn [child_pid env world.trace]. intros Hnz.
  apply Z.eqb_neq in Hnz.
  unfold spawn_child, g_spawn_async. cbn -[strv_args Z.eqb].
  rewrite Hnz. cbn -[strv_args Z.eqb].
  destruct (csrc =? 0); cbn -[strv_args Z.eqb];
    destruct (spawn_async o); cbn -[strv_args Z.eqb].
  - exists [ChildWatchAdd (Z.pos p) (Z.pos nxt)], []. reflexivity.
  - exists [], []. reflexivity.
  - exists [ChildWatchAdd (Z.pos p) (Z.pos nxt)], [SourceRemove csrc].
    reflexivity.
  - exists [], [SourceRemove csrc]. reflexivity.
Qed.

(** C8: at most one child game process exists at any time.  In every state
    the program reaches there is at most one live child, and it is the one
    [child_pid] names.  [spawn_child] kills the tracked child and waits for
    it before it starts the new process, so that afterwards the new process
    is the only child.  A child-exit notification, however often repeated,
    leaves at most one child. *)
Theorem C8_at_most_one_child :
  forall cfg plat,
    (forall startup o answers schedule,
        let st := state_of (main cfg plat startup o answers schedule) in
        (List.length (world.children (env st)) <= 1)%nat
        /\ (forall p, In p (world.children (env st)) -> p = child_pid st))
    /\ (forall o argv st,
           children_tracked st ->
           let st' := state_of (spawn_child o argv st) in
           world.children (env st')
           = match spawn_async o with
             | Some p => [Zpos p]
             | None => []
             end
           /\ (child_pid st <> 0 ->
               exists after between,
                 world.trace (env st')
                 = after
                     ++ SpawnAsync (strv_args argv) (spawn_async o)
                     :: between
                     ++ [Waitpid (child_pid st); Kill (child_pid st)]
                     ++ world.trace (env st)))
    /\ (forall o pid status st,
           children_tracked st ->
           let st' := state_of (on_child_exit cfg o pid status st) in
           children_tracked st'
           /\ (List.length (world.children (env st')) <= 1)%nat).
Proof.
  intros cfg plat. split; [|split].
  - intros startup o answers schedule st.
    apply children_tracked_at_most_one, main_children_tracked.
  - intros o argv st H st'. split; [|apply spawn_child_order].
    destruct (spawn_child_children o argv st H) as [Hc Hp].
    destruct (spawn_async o) as [p|] eqn:E; [apply (Hp p eq_refl)|].
    subst st'. clear Hc Hp. unfold children_tracked in H.
    destruct_state st. cbn [env world.children child_pid] in H.
    unfold spawn_child, g_spawn_async. rewrite E.
    cbn -[strv_args Z.eqb].
    destruct (cpid =? 0) eqn:Hz; cbn -[strv_args Z.eqb];
      destruct (csrc =? 0); cbn -[strv_args Z.eqb];
      destruct H as [->|[-> Hnz]]; try reflexivity;
      try (apply Z.eqb_eq in Hz; contradiction);
      apply filter_not_self.
  - intros o pid status st H st'.
    pose proof (on_child_exit_children cfg o pid status st H) as Hc.
    split; [exact Hc|]. now apply children_tracked_at_most_one.
Qed.

(** The single-player game (pid 100) exits twice in a row. *)
Lemma C8_at_most_one_child_witness :
  let st :=
    state_of
      (example_run
         [(1000, answer 101, child_exited 100 0);
          (2000, answer 102, child_exited 101 0)]) in
  world.children (env st) = [102]
  /\ (List.length
        (world.children
           (env (state_of (on_child_exit default_config (answer 103) 102 0 st))))
      <= 1)%nat.
Proof.
  cbn zeta. split; [vm_compute; reflexivity|].
  refine (proj2
            (proj2 (proj2 (C8_at_most_one_child default_config example_platform))
               (answer 103) 102 0 _ _)).
  right. vm_compute. split; [reflexivity|discriminate].
Defined.

(** ** C9: a failed resolution *)

(** C9 fails on every resolve failure: [resolve_callback] reports it with
    [g_error], which aborts.  After the failed resolution of "B" the program
    is no longer running, and peer "C", resolved a second later, never
    reaches the registry; without the failure the same event registers "C". *)
Theorem C9_resolve_failure_aborts :
  let failure :=
    (1000, answer 101,
     resolved 2 0 AVAHI_RESOLVER_FAILURE "B" CLIENT_SERVICE_NAME "local" "" 0
       [] 0) in
  let later := (2000, answer 102, client_found "C" ["can-host=1"%string] 0) in
  (exists st,
      example_run [failure; later] = Fatal st
      /\ client_service_list st = [])
  /\ (exists st,
         example_run [later] = Ok st
         /\ map remote_service.name (client_service_list st) = ["C"%string]).
Proof. vm_compute. split; eexists; split; reflexivity. Qed.

(** ** C10: host capability read from the TXT record *)

(** C10 (amended): the record built for a resolved peer is host-capable if
    and only if the last [can-host] entry of its TXT list has the value "1";
    with no [can-host] entry, or any other last value, it is not.  That
    record is the one a client-type resolution enters in the registry. *)
Theorem C10_can_host_is_last_txt_value :
  forall cfg o interface protocol name type domain host_name port txt flags st,
    (remote_service.can_host
       (resolved_service interface protocol name type domain host_name port
          txt flags) = true
     <-> last (txt_values CAN_HOST_KEY txt) None = Some "1"%string)
    /\ In (resolved_service interface protocol name CLIENT_SERVICE_NAME domain
             host_name port txt flags)
         (client_service_list
            (state_of
               (resolve_callback cfg o interface protocol AVAHI_RESOLVER_FOUND
                  name CLIENT_SERVICE_NAME domain host_name port txt flags
                  st))).
Proof.
  intros. split.
  - apply parse_txt_can_host. simpl. split; discriminate.
  - rewrite resolve_callback_client. apply in_sorted_insert. auto.
Qed.

(** C10, as worded, fails when the key is repeated: the TXT list holds a
    [can-host] entry with value "1", yet the peer is recorded as not
    host-capable, because a later entry overrides it. *)
Lemma C10_repeated_key_counterexample :
  let txt := ["can-host=1"; "can-host=0"]%string in
  In (CAN_HOST_KEY, Some "1"%string) (map avahi_string_list_get_pair txt)
  /\ remote_service.can_host
       (resolved_service 2 0 "B" CLIENT_SERVICE_NAME "local" "b.local" 5029
          txt 0) = false.
Proof. vm_compute. split; [left; reflexivity|reflexivity]. Qed.

(** The value is read as a string: bytes after a NUL in it do not count. *)
Remark can_host_value_ends_at_nul :
  remote_service.can_host
    (resolved_service 2 0 "B" CLIENT_SERVICE_NAME "local" "b.local" 5029
       [("can-host=1" ++ String "000" "x")%string] 0) = true
  /\ avahi_string_list_get_pair ("can-host=1" ++ String "000" "x")
     = (CAN_HOST_KEY, Some "1"%string).
Proof. vm_compute. split; reflexivity. Qed.

(** * Further properties *)

(** ** The configuration *)

(** X1: an unreadable configuration file is tolerated exactly at the default
    path, and then, as with a file that sets none of the keys, every setting
    has its default. *)
Theorem parse_config_defaults :
  forall config_option,
    let defaults :=
      config.mk 5029 "zdoom" "freedm.wad" "MAP01" None "freedoom1.wad" None
        true 30 in
    parse_config true config_option None
    = (if String.eqb (or_default config_option DEFAULT_CONFIG_PATH)
            DEFAULT_CONFIG_PATH
       then Some defaults else None)
    /\ parse_config true config_option (Some empty_key_file) = Some defaults
    /\ (forall loaded, parse_config false config_option loaded = None).
Proof.
  intros config_option defaults. split; [|split].
  - unfold parse_config. cbn [negb]. rewrite g_strcmp0_eqb.
    destruct (String.eqb _ _); reflexivity.
  - reflexivity.
  - reflexivity.
Qed.

(** X2: whatever the file says, an accepted configuration has a positive
    quiet period, a port that fits sixteen bits and the launcher [zdoom]
    (no key changes the launcher); a wait of at most 2147483 seconds gives a
    positive timer interval of that many milliseconds. *)
Theorem parse_config_bounds :
  forall options_ok config_option loaded cfg,
    parse_config options_ok config_option loaded = Some cfg ->
    0 < config.source_wait cfg
    /\ 0 <= config.port cfg < 2 ^ 16
    /\ config.zdoom cfg = DEFAULT_ZDOOM
    /\ (config.source_wait cfg <= 2147483 ->
        source_interval cfg = config.source_wait cfg * 1000
        /\ 0 < source_interval cfg).
Proof.
  intros options_ok config_option loaded cfg H.
  assert (Hb : (0 < config.source_wait cfg /\ 0 <= config.port cfg < 2 ^ 16)
               /\ config.zdoom cfg = DEFAULT_ZDOOM).
  { unfold parse_config in H. destruct options_ok; [|discriminate].
    cbn [negb] in H. destruct loaded as [kf|].
    - injection H as <-. cbn [config.source_wait config.port config.zdoom].
      split; [|reflexivity]. split.
      + destruct (0 <? GKeyFile.multiplayer_wait kf) eqn:E;
          [apply Z.ltb_lt in E; exact E|reflexivity].
      + destruct (0 <? GKeyFile.multiplayer_port kf);
          [apply Z.mod_pos_bound; reflexivity|split; [discriminate|reflexivity]].
    - destruct (g_strcmp0 _ _ =? 0); [|discriminate].
      injection H as <-. cbn. repeat split; discriminate. }
  destruct Hb as [[Hw Hp] Hz]. split; [exact Hw|]. split; [exact Hp|].
  split; [exact Hz|].
  intros Hmax. unfold source_interval.
  rewrite Z.mod_small by (change (2 ^ 32) with 4294967296; lia).
  split; [reflexivity|lia].
Qed.

Lemma parse_config_bounds_witness :
  source_interval
    (config.mk 5029 "zdoom" "freedm.wad" "MAP01" None "freedoom1.wad" None
       true 30) = 30000.
Proof.
  destruct (parse_config_bounds true None (Some empty_key_file) _ eq_refl)
    as (_ & _ & _ & H).
  destruct H as [H _]; [vm_compute; discriminate|].
  exact H.
Defined.

(** X3: hosting is switched off only by a key file whose [can-host] key
    parses as false; a missing or malformed key, or no file at all, leaves
    the node eligible. *)
Theorem parse_config_can_host :
  forall options_ok config_option loaded cfg,
    parse_config options_ok config_option loaded = Some cfg ->
    (config.can_host cfg = false
     <-> exists key_file,
          loaded = Some key_file
          /\ GKeyFile.multiplayer_can_host key_file = Some false).
Proof.
  intros options_ok config_option loaded cfg H.
  unfold parse_config in H. destruct options_ok; [|discriminate].
  cbn [negb] in H. destruct loaded as [kf|].
  - injection H as <-. cbn [config.can_host].
    destruct (GKeyFile.multiplayer_can_host kf) as [[|]|] eqn:E; cbn.
    + split; [discriminate|]. intros (k & Hk & Hv). congruence.
    + split; [|reflexivity]. intros _. exists kf. auto.
    + split; [discriminate|]. intros (k & Hk & Hv). congruence.
  - destruct (g_strcmp0 _ _ =? 0); [|discriminate].
    injection H as <-. cbn. split; [discriminate|].
    intros (k & Hk & _). discriminate.
Qed.

Lemma parse_config_can_host_witness :
  config.can_host
    (config.mk 5029 "zdoom" "freedm.wad" "MAP01" None "freedoom1.wad" None
       false 30) = false
  <-> exists key_file,
      Some (GKeyFile.mk None None None None None (Some false) 0 0)
      = Some key_file
      /\ GKeyFile.multiplayer_can_host key_file = Some false.
Proof.
  exact (parse_config_can_host true None
           (Some (GKeyFile.mk None None None None None (Some false) 0 0)) _
           eq_refl).
Defined.

(** ** The comparator and the election order *)

Lemma Z_of_comparison_opp (c : comparison) :
  Z_of_comparison (CompOpp c) = - Z_of_comparison c.
Proof. destruct c; reflexivity. Qed.

Lemma g_strcmp0_antisym (a b : option string) :
  g_strcmp0 b a = - g_strcmp0 a b.
Proof.
  destruct a as [a|], b as [b|]; cbn; try reflexivity.
  now rewrite String.compare_antisym, Z_of_comparison_opp.
Qed.

(** X4: [cmp_remote_service] is a consistent three-way comparison: swapping
    the arguments negates the result, and the result is zero exactly when
    the two records agree on host capability and service name. *)
Theorem cmp_remote_service_consistent :
  forall a b,
    cmp_remote_service b a = - cmp_remote_service a b
    /\ (cmp_remote_service a b = 0 <-> election_key a = election_key b).
Proof.
  intros a b. unfold cmp_remote_service, election_key. split.
  - rewrite (g_strcmp0_antisym (Some (remote_service.name a))).
    destruct (remote_service.can_host a), (remote_service.can_host b);
      cbn; lia.
  - destruct (remote_service.can_host a), (remote_service.can_host b);
      cbn -[String.compare].
    + rewrite <- (Z.eqb_eq _ 0).
      change (Z_of_comparison ?c =? 0) with
        (g_strcmp0 (Some (remote_service.name a))
           (Some (remote_service.name b)) =? 0).
      rewrite g_strcmp0_eq. split; congruence.
    + split; [lia|discriminate].
    + split; [lia|discriminate].
    + rewrite <- (Z.eqb_eq _ 0).
      change (Z_of_comparison ?c =? 0) with
        (g_strcmp0 (Some (remote_service.name a))
           (Some (remote_service.name b)) =? 0).
      rewrite g_strcmp0_eq. split; congruence.
Qed.

Lemma election_le_antisym (a b : remote_service.t) :
  election_le a b -> election_le b a -> election_key a = election_key b.
Proof.
  unfold election_le, election_key.
  intros [[Ha Hb]|[Hab Hn1]] [[Hb' Ha']|[Hba Hn2]]; try congruence.
  rewrite Hab. f_equal. now apply String.leb_antisym.
Qed.

Lemma election_le_refl (a : remote_service.t) : election_le a a.
Proof.
  right. split; [reflexivity|]. unfold String.leb.
  now rewrite string_compare_refl.
Qed.

Lemma sorted_head_least (c : remote_service.t) l x :
  StronglySorted election_le (c :: l) -> In x (c :: l) -> election_le c x.
Proof.
  intros H Hx. inversion H as [|? ? _ Hall]; subst.
  destruct Hx as [<-|Hx]; [apply election_le_refl|].
  rewrite Forall_forall in Hall. auto.
Qed.

Lemma election_le_key (c x y : remote_service.t) :
  election_key x = election_key y -> election_le c x -> election_le c y.
Proof.
  unfold election_key, election_le. intros H. injection H as Hc Hn.
  rewrite Hc, Hn. auto.
Qed.

Lemma head_key_agrees l1 l2 :
  Permutation (map election_key l1) (map election_key l2) ->
  StronglySorted election_le l1 ->
  StronglySorted election_le l2 ->
  option_map election_key (hd_error l1)
  = option_map election_key (hd_error l2).
Proof.
  intros Hperm H1 H2.
  destruct l1 as [|a l1], l2 as [|b l2]; cbn [hd_error option_map].
  - reflexivity.
  - apply Permutation_nil in Hperm. discriminate.
  - apply Permutation_sym, Permutation_nil in Hperm. discriminate.
  - f_equal. apply election_le_antisym.
    + assert (Hin : In (election_key b) (map election_key (a :: l1))).
      { eapply Permutation_in; [apply Permutation_sym; exact Hperm|].
        now left. }
      apply in_map_iff in Hin as (x & Hx & Hin).
      apply (election_le_key a x b Hx).
      now apply (sorted_head_least a l1 x H1).
    + assert (Hin : In (election_key a) (map election_key (b :: l2))).
      { eapply Permutation_in; [exact Hperm|now left]. }
      apply in_map_iff in Hin as (x & Hx & Hin).
      apply (election_le_key b x a Hx).
      now apply (sorted_head_least b l2 x H2).
Qed.

Lemma main_registry_sorted cfg plat startup o answers schedule :
  StronglySorted election_le
    (client_service_list (state_of (main cfg plat startup o answers schedule))).
Proof.
  set (P := fun st : state => registry_kept (client_service_list st)).
  assert (H : holds P P (main cfg plat startup o answers schedule)).
  { apply main_holds.
    - intros t st HP. exact HP.
    - intros o' e st HP. apply holds_same. now apply dispatch_registry.
    - intros o' id deadline at_time st HP _. apply holds_same. unfold P.
      change (client_service_list (destroy_sources ?l ?s))
        with (client_service_list s).
      destruct (on_source_timeout_frame cfg plat o'
                  (log (TimeoutDispatch id at_time) (set_now at_time st)))
        as (Hr & _).
      rewrite Hr. exact HP.
    - split; constructor.
    - intros b st HP. exact HP.
    - intros o' st HP. apply holds_same. unfold P.
      pose proof (launch_single_player_frame cfg o' st) as Hf.
      frame_eqs Hf.
      replace (client_service_list (state_of (launch_single_player cfg o' st)))
        with (client_service_list st) by (symmetry; assumption).
      exact HP. }
  apply holds_same in H. apply H.
Qed.

(** X5: the election converges.  Two nodes whose registries hold candidates
    with the same host capabilities and service names, in whatever order and
    on whatever interfaces each node discovered them, have a first entry with
    the same capability and name. *)
Theorem best_agrees_between_nodes :
  forall cfg1 plat1 startup1 o1 answers1 schedule1
         cfg2 plat2 startup2 o2 answers2 schedule2,
    let registry1 :=
      client_service_list
        (state_of (main cfg1 plat1 startup1 o1 answers1 schedule1)) in
    let registry2 :=
      client_service_list
        (state_of (main cfg2 plat2 startup2 o2 answers2 schedule2)) in
    Permutation (map election_key registry1) (map election_key registry2) ->
    option_map election_key (hd_error registry1)
    = option_map election_key (hd_error registry2).
Proof.
  intros. apply head_key_agrees; [assumption| |]; apply main_registry_sorted.
Qed.

(** Node "A" discovers itself and then "B"; node "B" discovers itself and
    then "A", on another interface. *)
Lemma best_agrees_between_nodes_witness :
  option_map election_key
    (hd_error
       (client_service_list
          (state_of
             (example_run
                [(1000, answer 101, client_found "A" ["can-host=1"%string] 16);
                 (2000, answer 102, client_found "B" ["can-host=1"%string] 0)]))))
  = option_map election_key
      (hd_error
         (client_service_list
            (state_of
               (example_run
                  [(1500, answer 101,
                    resolved 3 0 AVAHI_RESOLVER_FOUND "B" CLIENT_SERVICE_NAME
                      "local" "B.local" 5029 ["can-host=1"%string] 16);
                   (2500, answer 102,
                    resolved 3 0 AVAHI_RESOLVER_FOUND "A" CLIENT_SERVICE_NAME
                      "local" "A.local" 5029 ["can-host=1"%string] 0)])))).
Proof.
  apply best_agrees_between_nodes.
  vm_compute. apply Permutation_refl.
Defined.

Lemma sorted_insert_permutation (s : remote_service.t) l :
  Permutation (sorted_insert s l) (s :: l).
Proof.
  induction l as [|c l IH]; cbn [sorted_insert]; [reflexivity|].
  destruct (cmp_remote_service s c <? 0); [reflexivity|].
  rewrite IH. apply perm_swap.
Qed.

(** X6: resolving a client record adds that record and loses nothing else.
    The registry afterwards is a rearrangement of the new record and the old
    entries that do not equal it, each as often as before, so it has at
    least one entry and at most one more than before. *)
Theorem resolve_rearranges_registry :
  forall cfg o interface protocol name domain host_name port txt flags st,
    let service :=
      resolved_service interface protocol name CLIENT_SERVICE_NAME domain
        host_name port txt flags in
    let after :=
      client_service_list
        (state_of
           (resolve_callback cfg o interface protocol AVAHI_RESOLVER_FOUND
              name CLIENT_SERVICE_NAME domain host_name port txt flags st)) in
    Permutation after
      (service
         :: filter (fun c => negb (remote_service_equal service c))
              (client_service_list st))
    /\ (1 <= List.length after <= S (List.length (client_service_list st)))%nat.
Proof.
  intros cfg o interface protocol name domain host_name port txt flags st
    service after.
  assert (Hp : Permutation after
                 (service
                    :: filter (fun c => negb (remote_service_equal service c))
                         (client_service_list st))).
  { unfold after. rewrite resolve_callback_client.
    apply sorted_insert_permutation. }
  split; [exact Hp|].
  rewrite (Permutation_length Hp). cbn [List.length].
  pose proof (filter_length_le
                (fun c => negb (remote_service_equal service c))
                (client_service_list st)).
  lia.
Qed.

(** ** The registry under discovery events *)

(** X7: a removal event drops exactly the registry entries with its service
    name, type and domain, on whatever interface and protocol they were
    seen, and keeps the others in their order; this is so even when the
    callback ends the program. *)
Theorem removal_drops_matching_entries :
  forall cfg o interface protocol name type domain flags st,
    let after :=
      client_service_list
        (state_of
           (browse_callback cfg o interface protocol AVAHI_BROWSER_REMOVE name
              type domain flags st)) in
    after
    = filter (fun c => negb (removal_matches name type domain c))
        (client_service_list st)
    /\ (forall c,
           In c after <->
           In c (client_service_list st)
           /\ ~ (remote_service.name c = name
                 /\ remote_service.type c = type
                 /\ remote_service.domain c = domain)).
Proof.
  intros. subst after. rewrite browse_callback_registry.
  split; [reflexivity|].
  intros c. rewrite filter_In, negb_true_iff, <- not_true_iff_false.
  now rewrite removal_matches_spec.
Qed.

Lemma filter_sorted_insert_out (f : remote_service.t -> bool) s l :
  f s = false -> filter f (sorted_insert s l) = filter f l.
Proof.
  intros Hs. induction l as [|c l IH]; cbn [sorted_insert filter].
  - now rewrite Hs.
  - destruct (cmp_remote_service s c <? 0); cbn [filter].
    + now rewrite Hs.
    + now rewrite IH.
Qed.

Lemma filter_all {A} (f : A -> bool) (l : list A) :
  (forall x, In x l -> f x = true) -> filter f l = l.
Proof.
  induction l as [|x l IH]; intros H; [reflexivity|].
  cbn [filter]. rewrite (H x (or_introl eq_refl)). f_equal.
  apply IH. intros y Hy. apply H. now right.
Qed.

(** X8: discovery and departure cancel out.  When no registered entry bears
    the name of a peer, resolving that peer's client record and then
    receiving its removal leaves the registry as it was. *)
Theorem resolve_then_remove_restores_registry :
  forall cfg o1 o2 interface protocol name domain host_name port txt flags
         interface' protocol' flags' st,
    (forall c, In c (client_service_list st) -> remote_service.name c <> name) ->
    let st1 :=
      state_of
        (resolve_callback cfg o1 interface protocol AVAHI_RESOLVER_FOUND name
           CLIENT_SERVICE_NAME domain host_name port txt flags st) in
    let st2 :=
      state_of
        (browse_callback cfg o2 interface' protocol' AVAHI_BROWSER_REMOVE name
           CLIENT_SERVICE_NAME domain flags' st1) in
    In (resolved_service interface protocol name CLIENT_SERVICE_NAME domain
          host_name port txt flags) (client_service_list st1)
    /\ client_service_list st2 = client_service_list st.
Proof.
  intros cfg o1 o2 interface protocol name domain host_name port txt flags
    interface' protocol' flags' st Hfresh st1 st2.
  set (service := resolved_service interface protocol name CLIENT_SERVICE_NAME
                    domain host_name port txt flags).
  destruct (resolved_service_fields interface protocol name CLIENT_SERVICE_NAME
              domain host_name port txt flags)
    as (_ & _ & _ & Fname & Ftype & Fdomain & _).
  fold service in Fname, Ftype, Fdomain.
  assert (H1 : client_service_list st1
               = sorted_insert service (client_service_list st)).
  { subst st1. rewrite resolve_callback_client. fold service. cbn zeta.
    f_equal. apply filter_all. intros c Hc. apply negb_true_iff.
    destruct (remote_service_equal service c) eqn:E; [|reflexivity].
    apply remote_service_equal_spec in E. unfold equal_key in E.
    injection E as En _ _ _. exfalso. apply (Hfresh c Hc). congruence. }
  split; [rewrite H1; apply in_sorted_insert; now left|].
  subst st2. rewrite browse_callback_registry, H1.
  rewrite filter_sorted_insert_out.
  - apply filter_all. intros c Hc. apply negb_true_iff.
    destruct (removal_matches name CLIENT_SERVICE_NAME domain c) eqn:E;
      [|reflexivity].
    apply removal_matches_spec in E as (En & _). exfalso.
    now apply (Hfresh c Hc).
  - apply negb_false_iff. apply removal_matches_spec. auto.
Qed.

Lemma resolve_then_remove_restores_registry_witness :
  client_service_list
    (state_of
       (browse_callback default_config (answer 301) 2 0 AVAHI_BROWSER_REMOVE
          "D" CLIENT_SERVICE_NAME "local" 0
          (state_of
             (resolve_callback default_config (answer 300) 2 0
                AVAHI_RESOLVER_FOUND "D" CLIENT_SERVICE_NAME "local" "D.local"
                5029 ["can-host=1"%string] 0 three_candidates))))
  = client_service_list three_candidates.
Proof.
  refine (proj2
            (resolve_then_remove_restores_registry default_config (answer 300)
               (answer 301) 2 0 "D" "local" "D.local" 5029
               ["can-host=1"%string] 0 2 0 0 three_candidates _)).
  vm_compute. intros c [<-|[<-|[<-|[]]]]; discriminate.
Defined.

Lemma count_others_filter l :
  count_others l
  = Z.of_nat
      (List.length
         (filter (fun c => negb (our_own (remote_service.flags c))) l)).
Proof.
  induction l as [|c l IH]; [reflexivity|].
  cbn [count_others filter]. unfold our_own at 1. rewrite negb_involutive.
  destruct (Z.land (remote_service.flags c) AVAHI_LOOKUP_RESULT_OUR_OWN =? 0);
    cbn [List.length]; rewrite IH; lia.
Qed.

(** X9: the player count.  [count_others] is the number of registry entries
    without the our-own flag, so it lies between zero and the length of the
    registry. *)
Theorem count_others_counts_peers :
  forall l,
    count_others l
    = Z.of_nat
        (List.length
           (filter (fun c => negb (our_own (remote_service.flags c))) l))
    /\ 0 <= count_others l <= Z.of_nat (List.length l).
Proof.
  intros l. split; [apply count_others_filter|].
  rewrite count_others_filter.
  pose proof (filter_length_le
                (fun c => negb (our_own (remote_service.flags c))) l).
  lia.
Qed.

(** ** The election decision *)

(** X10: what an election can launch.  A timer firing launches nothing, or
    the single-player game, or the hosting process for the number of other
    peers plus one, which is then at least two; it never launches a join
    process. *)
Theorem election_launches :
  forall cfg plat o st,
    let st' := state_of (on_source_timeout cfg plat o st) in
    spawns st' = spawns st
    \/ spawns st'
       = SpawnAsync (strv_args (single_player_argv cfg)) (spawn_async o)
           :: spawns st
    \/ (exists players,
           players = count_others (client_service_list st) + 1
           /\ 2 <= players
           /\ spawns st'
              = SpawnAsync (strv_args (host_argv cfg players)) (spawn_async o)
                  :: spawns st).
Proof.
  intros cfg plat o st st'. subst st'. unfold on_source_timeout.
  pose proof (launch_single_player_spawns cfg o st) as Hl.
  assert (Hsingle :
    let s :=
      state_of (do x <- launch_single_player cfg o st ;
                Ok (set_timeout_source 0 x)) in
    spawns s = spawns st
    \/ spawns s
       = SpawnAsync (strv_args (single_player_argv cfg)) (spawn_async o)
           :: spawns st).
  { cbn zeta. rewrite state_of_bind_ok.
    destruct (launch_single_player cfg o st) as [s|s]; cbn [state_of] in Hl;
      change (spawns (set_timeout_source 0 s)) with (spawns s);
      rewrite Hl; destruct (single_player_running st); auto. }
  destruct (hd_error (client_service_list st)) as [best|];
    [|destruct Hsingle; auto].
  destruct (remote_service.can_host best); [|destruct Hsingle; auto].
  destruct (negb (Z.land (remote_service.flags best)
                    AVAHI_LOOKUP_RESULT_OUR_OWN =? 0)); [|now left].
  destruct (count_others (client_service_list st) =? 0) eqn:Hcount;
    cbn [negb]; [destruct Hsingle; auto|].
  right. right. exists (count_others (client_service_list st) + 1).
  split; [reflexivity|]. split.
  - apply Z.eqb_neq in Hcount.
    rewrite count_others_filter in Hcount |- *. lia.
  - destruct (host_game_spec cfg plat o
                (count_others (client_service_list st) + 1) st)
      as (_ & Hs & _).
    rewrite state_of_bind_ok.
    destruct (host_game cfg plat o _ st) as [s|s]; cbn [state_of] in Hs;
      exact Hs.
Qed.

(** X11: the election falls back to single-player mode when the registry is
    empty, when its first entry cannot host, or when that entry is our own
    and no other peer is registered: the callback does what
    [launch_single_player] does and clears the timer handle, so that on
    return the single-player flag is set and the host advertisement is
    withdrawn. *)
Theorem election_falls_back_to_single_player :
  forall cfg plat o st,
    (client_service_list st = []
     \/ exists best rest,
         client_service_list st = best :: rest
         /\ (remote_service.can_host best = false
             \/ (Z.land (remote_service.flags best)
                   AVAHI_LOOKUP_RESULT_OUR_OWN <> 0
                 /\ count_others (client_service_list st) = 0))) ->
    on_source_timeout cfg plat o st
    = (do s <- launch_single_player cfg o st ; Ok (set_timeout_source 0 s))
    /\ (forall st',
           on_source_timeout cfg plat o st = Ok st' ->
           single_player_running st' = true
           /\ local_service.group (local_host_service st') = None
           /\ timeout_source st' = 0).
Proof.
  intros cfg plat o st H.
  assert (Hstep :
    on_source_timeout cfg plat o st
    = (do s <- launch_single_player cfg o st ; Ok (set_timeout_source 0 s))).
  { unfold on_source_timeout.
    destruct H as [->|(best & rest & Hl & Hcase)]; [reflexivity|].
    rewrite Hl in *. cbn [hd_error].
    destruct Hcase as [->|[Hown Hnone]]; [reflexivity|].
    destruct (remote_service.can_host best); [|reflexivity].
    apply Z.eqb_neq in Hown. rewrite Hown, Hnone. reflexivity. }
  split; [exact Hstep|].
  intros st' Hok. rewrite Hstep in Hok.
  pose proof (launch_single_player_host_service cfg o st) as Hsvc.
  destruct (launch_single_player cfg o st) as [s|s] eqn:Hl; [|discriminate].
  injection Hok as <-. cbn [state_of] in Hsvc.
  split; [exact (launch_single_player_running cfg o st s Hl)|].
  split; [|reflexivity].
  change (local_host_service (set_timeout_source 0 s))
    with (local_host_service s).
  now rewrite Hsvc.
Qed.

(** Only our own record is registered. *)
Lemma election_falls_back_to_single_player_witness :
  exists st',
    on_source_timeout default_config example_platform (answer 300)
      self_registered = Ok st'
    /\ single_player_running st' = true.
Proof.
  assert (H : client_service_list self_registered = []
              \/ exists best rest,
                  client_service_list self_registered = best :: rest
                  /\ (remote_service.can_host best = false
                      \/ (Z.land (remote_service.flags best)
                            AVAHI_LOOKUP_RESULT_OUR_OWN <> 0
                          /\ count_others (client_service_list self_registered)
                             = 0))).
  { right. eexists. eexists. split; [vm_compute; reflexivity|].
    right. split; [vm_compute; discriminate|vm_compute; reflexivity]. }
  destruct (election_falls_back_to_single_player default_config
              example_platform (answer 300) self_registered H) as [Hstep Hok].
  assert (Hrun : exists st',
             on_source_timeout default_config example_platform (answer 300)
               self_registered = Ok st')
    by (vm_compute; eexists; reflexivity).
  destruct Hrun as [st' Hst']. exists st'. split; [exact Hst'|].
  now apply Hok.
Defined.

(** ** Supervision and fallback *)

Lemma stop_service_children w st :
  children_tracked st -> children_tracked (stop_service w st).
Proof.
  unfold stop_service. destruct w;
    destruct (local_service.group (get_service _ st)); intros H; exact H.
Qed.

Lemma launch_single_player_new_child cfg o st p :
  single_player_running st = false ->
  children_tracked st ->
  spawn_async o = Some p ->
  let st' := state_of (launch_single_player cfg o st) in
  world.children (env st') = [Zpos p] /\ child_pid st' = Zpos p.
Proof.
  intros Hrun Htracked Hp. cbn zeta. unfold launch_single_player.
  assert (Hrun' : single_player_running (stop_service host_service st) = false).
  { unfold stop_service.
    destruct (local_service.group (get_service host_service st)); exact Hrun. }
  rewrite Hrun'. cbn [negb].
  destruct (spawn_child_children o (single_player_argv cfg)
              (stop_service host_service st)
              (stop_service_children host_service st Htracked)) as [_ Hc].
  specialize (Hc p Hp).
  rewrite spawn_child_result, Hp. cbn [bind state_of]. exact Hc.
Qed.

(** X12: automatic fallback.  When the watched child exits, whatever the role
    was, the node ends in single-player mode: the single-player game is
    launched, it is the only live child, and the host advertisement is
    withdrawn.  An exit notification for any other pid changes nothing. *)
Theorem child_exit_falls_back :
  forall cfg plat o pid status st,
    (forall id p,
        In (id, ChildWatch pid) (world.sources (env st)) ->
        pid = child_pid st ->
        children_tracked st ->
        spawn_async o = Some p ->
        exists st',
          dispatch cfg plat o (child_exited pid status) st = Ok st'
          /\ single_player_running st' = true
          /\ world.children (env st') = [Zpos p]
          /\ child_pid st' = Zpos p
          /\ spawns st'
             = SpawnAsync (strv_args (single_player_argv cfg)) (Some p)
                 :: spawns st
          /\ local_service.group (local_host_service st') = None)
    /\ (pid <> child_pid st -> on_child_exit cfg o pid status st = Ok st).
Proof.
  intros cfg plat o pid status st. split.
  - intros id p Hin Hpid Htracked Hp. cbn [dispatch].
    destruct (filter (is_watch_of pid) (world.sources (env st)))
      as [|w ws] eqn:Hw.
    { assert (H : In (id, ChildWatch pid)
                    (filter (is_watch_of pid) (world.sources (env st)))).
      { apply filter_In. split; [exact Hin|]. cbn. apply Z.eqb_refl. }
      rewrite Hw in H. destruct H. }
    set (st1 := set_children _ st).
    set (st2 := set_single_player_running false (set_child_source 0 st1)).
    assert (Hstep : on_child_exit cfg o pid status st1
                    = launch_single_player cfg o st2).
    { unfold on_child_exit.
      change (child_pid st1) with (child_pid st).
      rewrite Hpid, Z.eqb_refl. reflexivity. }
    assert (Htracked2 : children_tracked st2)
      by (apply (reaped_children_tracked pid st Htracked)).
    pose proof (launch_single_player_result cfg o st2) as Hres.
    rewrite Hp in Hres. cbn [single_player_running st2
      set_single_player_running orb] in Hres.
    pose proof (launch_single_player_running cfg o st2 _ Hres) as Hrun.
    pose proof (launch_single_player_spawns cfg o st2) as Hspawns.
    pose proof (launch_single_player_host_service cfg o st2) as Hsvc.
    destruct (launch_single_player_new_child cfg o st2 p eq_refl Htracked2 Hp)
      as [Hkids Hcpid].
    rewrite Hstep, Hres. cbn [bind].
    eexists. split; [reflexivity|].
    set (st3 := state_of (launch_single_player cfg o st2)) in *.
    change (single_player_running (destroy_sources ?l st3))
      with (single_player_running st3).
    change (world.children (env (destroy_sources ?l st3)))
      with (world.children (env st3)).
    change (child_pid (destroy_sources ?l st3)) with (child_pid st3).
    change (spawns (destroy_sources ?l st3)) with (spawns st3).
    change (local_host_service (destroy_sources ?l st3))
      with (local_host_service st3).
    repeat split; try assumption.
    + rewrite Hspawns, Hp. reflexivity.
    + now rewrite Hsvc.
  - intros Hne. unfold on_child_exit. apply Z.eqb_neq in Hne.
    now rewrite Hne.
Qed.

(** The node had joined the game of host "H" (child 101, watch 2); the join
    process exits. *)
Lemma child_exit_falls_back_witness :
  exists st',
    dispatch default_config example_platform (answer 300)
      (child_exited 101 0) joined_then_peer = Ok st'
    /\ single_player_running st' = true
    /\ world.children (env st') = [300].
Proof.
  destruct (proj1 (child_exit_falls_back default_config example_platform
                     (answer 300) 101 0 joined_then_peer) 2 300%positive)
    as (st' & Hok & Hrun & Hkids & _).
  - vm_compute. left. reflexivity.
  - vm_compute. reflexivity.
  - right. vm_compute. split; [reflexivity|discriminate].
  - reflexivity.
  - exists st'. split; [exact Hok|]. split; [exact Hrun|exact Hkids].
Defined.

(** ** Records that are ignored, and shutdown *)

(** X13: the node never joins its own game.  A resolved record that is a
    host record of our own, or whose type is neither the client nor the host
    service type, leaves the whole state as it was. *)
Theorem own_host_and_foreign_records_ignored :
  forall cfg o interface protocol name type domain host_name port txt flags st,
    (type = HOST_SERVICE_NAME
     /\ Z.land flags AVAHI_LOOKUP_RESULT_OUR_OWN <> 0)
    \/ (type <> CLIENT_SERVICE_NAME /\ type <> HOST_SERVICE_NAME) ->
    resolve_callback cfg o interface protocol AVAHI_RESOLVER_FOUND name type
      domain host_name port txt flags st = Ok st.
Proof.
  intros cfg o interface protocol name type domain host_name port txt flags st
    H.
  unfold resolve_callback.
  destruct (resolved_service_fields interface protocol name type domain
              host_name port txt flags) as (_ & _ & _ & _ & _ & _ & _ & Ffl).
  cbn zeta in Ffl. rewrite Ffl, !g_strcmp0_eqb.
  destruct H as [[-> Hown]|[Hc Hh]].
  - apply Z.eqb_neq in Hown. rewrite Hown. reflexivity.
  - apply String.eqb_neq in Hc, Hh. now rewrite Hc, Hh.
Qed.

Lemma own_host_and_foreign_records_ignored_witness :
  resolve_callback default_config (answer 300) 2 0 AVAHI_RESOLVER_FOUND "A"
    HOST_SERVICE_NAME "local" "A.local" 5029 ["wad=freedm.wad"%string] 16
    three_candidates = Ok three_candidates.
Proof.
  apply own_host_and_foreign_records_ignored.
  left. split; [reflexivity|discriminate].
Defined.

(** X14: clean shutdown.  When Avahi reports that the client failed, the loop
    is told to quit: the callback returns normally, and no event after it is
    handled, timers included. *)
Theorem client_failure_stops_loop :
  forall cfg plat answers t o rest st,
    main_loop cfg plat answers
      ((t, o, client_state_changed AVAHI_CLIENT_FAILURE) :: rest) st
    = if world.quit (env st) then Ok st
      else
        do s <- advance cfg plat answers t st ;
        Ok (set_quit true (log MainLoopQuit s)).
Proof.
  intros. cbn [main_loop]. destruct (world.quit (env st)); [reflexivity|].
  destruct (advance cfg plat answers t st) as [s|s]; cbn [bind dispatch
    avahi_client_callback]; [|reflexivity].
  destruct rest as [|[[t' o'] e'] rest]; reflexivity.
Qed.

(** ** The election timer *)

Lemma advance_idle cfg plat answers t st :
  pending_timers st = [] ->
  advance cfg plat answers t st
  = Ok (set_now (Z.max (world.now (env st)) t) st).
Proof.
  intros H. unfold advance.
  rewrite fire_due_idle by (now apply no_timer_pending). reflexivity.
Qed.

Lemma host_resolution_clears_timer cfg o interface protocol name domain
    host_name port txt flags st :
  Z.land flags AVAHI_LOOKUP_RESULT_OUR_OWN = 0 ->
  timers_tracked st = true ->
  let r :=
    resolve_callback cfg o interface protocol AVAHI_RESOLVER_FOUND name
      HOST_SERVICE_NAME domain host_name port txt flags st in
  elections (state_of r) = elections st
  /\ (forall st', r = Ok st' -> pending_timers st' = []).
Proof.
  intros Hown Htr. cbn zeta. unfold resolve_callback.
  destruct (resolved_service_fields interface protocol name HOST_SERVICE_NAME
              domain host_name port txt flags)
    as (_ & _ & _ & _ & _ & _ & _ & Ffl).
  set (service := resolved_service interface protocol name HOST_SERVICE_NAME
                    domain host_name port txt flags) in *.
  rewrite Ffl, Hown.
  replace (g_strcmp0 (Some HOST_SERVICE_NAME) (Some CLIENT_SERVICE_NAME) =? 0)
    with false by reflexivity.
  replace (g_strcmp0 (Some HOST_SERVICE_NAME) (Some HOST_SERVICE_NAME) =? 0)
    with true by reflexivity.
  cbv beta iota zeta.
  set (st1 := set_current_host (Some service) st).
  destruct (connect_to_host_spec cfg o st1 service eq_refl) as (Hf & _).
  destruct (connect_to_host_timers cfg o st1) as [keep Hkeep].
  frame_eqs Hf.
  destruct (connect_to_host cfg o st1) as [st2|st2];
    cbn [bind state_of] in *.
  - assert (Htr2 : timers_tracked st2 = true)
      by (apply (tracked_filter st st2 keep); assumption).
    destruct (stop_source_timer_spec st2 Htr2) as [Hnone _].
    pose proof (stop_source_timer_frame st2) as Hs.
    split.
    + remember (stop_source_timer st2) as st3 eqn:E3. clear E3 Hnone.
      timer_eqs Hs. transitivity (elections st2); assumption.
    + intros st' Hst'. injection Hst' as <-. exact Hnone.
  - split; [assumption|discriminate].
Qed.

(** X15: a host announcement cancels the pending election.  After a host
    record of another node has resolved, no election decision is taken
    however long the node waits without further events. *)
Theorem host_record_silences_election :
  forall cfg plat answers o interface protocol name domain host_name port txt
         flags st horizon,
    Z.land flags AVAHI_LOOKUP_RESULT_OUR_OWN = 0 ->
    timers_tracked st = true ->
    elections
      (state_of
         (do s <- dispatch cfg plat o
                    (resolved interface protocol AVAHI_RESOLVER_FOUND name
                       HOST_SERVICE_NAME domain host_name port txt flags) st ;
          advance cfg plat answers horizon s))
    = elections st.
Proof.
  intros cfg plat answers o interface protocol name domain host_name port txt
    flags st horizon Hown Htr.
  cbn [dispatch].
  destruct (host_resolution_clears_timer cfg o interface protocol name domain
              host_name port txt flags st Hown Htr) as [Hel Hnone].
  destruct (resolve_callback cfg o interface protocol AVAHI_RESOLVER_FOUND name
              HOST_SERVICE_NAME domain host_name port txt flags st)
    as [st'|st']; cbn [bind state_of] in *; [|exact Hel].
  rewrite advance_idle by (now apply Hnone). exact Hel.
Qed.

(** Three candidates are registered and the election timer is running when
    host "H" announces itself. *)
Lemma host_record_silences_election_witness :
  pending_timers three_candidates <> []
  /\ elections
       (state_of
          (do s <- dispatch default_config example_platform (answer 300)
                     (host_found "H" ["wad=freedm.wad"%string] 0)
                     three_candidates ;
           advance default_config example_platform example_answers 1000000 s))
     = elections three_candidates.
Proof.
  split; [vm_compute; discriminate|].
  apply host_record_silences_election; [reflexivity|vm_compute; reflexivity].
Defined.

Lemma dispatch_pending_length cfg plat o e st st' :
  timers_tracked st = true ->
  dispatch cfg plat o e st = Ok st' ->
  (List.length (pending_timers st')
   <= Nat.max 1 (List.length (pending_timers st)))%nat.
Proof.
  intros Htr.
  destruct e as [i p ev n t d h po txt f|i p ev n t d f|pid status|s];
    cbn [dispatch].
  - unfold resolve_callback. destruct ev; [|discriminate].
    destruct (g_strcmp0 (Some t) (Some CLIENT_SERVICE_NAME) =? 0).
    + destruct (Z.land _ AVAHI_LOOKUP_RESULT_OUR_OWN =? 0);
        intros Hok; injection Hok as <-.
      * match goal with
        | |- context [restart_source_timer cfg ?s] =>
            destruct (restart_source_timer_spec cfg s Htr) as (Hp & _)
        end.
        cbn zeta in Hp. rewrite Hp. cbn [List.length]. lia.
      * change (pending_timers (set_client_service_list ?l st))
          with (pending_timers st). lia.
    + destruct (g_strcmp0 (Some t) (Some HOST_SERVICE_NAME) =? 0);
        [|intros Hok; injection Hok as <-; lia].
      destruct (Z.land _ AVAHI_LOOKUP_RESULT_OUR_OWN =? 0);
        [|intros Hok; injection Hok as <-; lia].
      match goal with
      | |- context [connect_to_host cfg o ?s] =>
          set (st1 := s);
          destruct (connect_to_host_timers cfg o st1) as [keep Hkeep];
          pose proof (connect_to_host_spec cfg o st1 _ eq_refl) as (Hf & _)
      end.
      destruct (connect_to_host cfg o st1) as [st2|st2];
        cbn [bind state_of] in *; [|discriminate].
      intros Hok; injection Hok as <-.
      frame_eqs Hf.
      assert (Htr2 : timers_tracked st2 = true)
        by (apply (tracked_filter st st2 keep); assumption).
      destruct (stop_source_timer_spec st2 Htr2) as [Hnone _].
      rewrite Hnone. cbn [List.length]. lia.
  - unfold browse_callback.
    destruct ev; try (intros Hok; injection Hok as <-; lia).
    destruct (remove_clients_spec cfg n t d (client_service_list st) st Htr)
      as (_ & Htr1 & _ & Harm).
    destruct (remove_clients cfg n t d (client_service_list st) st)
      as [kept st1].
    cbn [fst snd] in *.
    assert (H1 : (List.length (pending_timers st1)
                  <= Nat.max 1 (List.length (pending_timers st)))%nat).
    { destruct (existsb (removes_peer n t d) (client_service_list st)).
      - destruct Harm as [id ->]. cbn [List.length]. lia.
      - subst st1. lia. }
    destruct (current_host (set_client_service_list kept st1)) as [host|];
      [|intros Hok; injection Hok as <-; exact H1].
    destruct (removal_matches n t d host);
      [|intros Hok; injection Hok as <-; exact H1].
    match goal with
    | |- context [launch_single_player cfg o ?s] =>
        set (st2 := s);
        destruct (launch_single_player_timers cfg o st2) as [keep Hkeep];
        pose proof (launch_single_player_frame cfg o st2) as Hf
    end.
    destruct (launch_single_player cfg o st2) as [st3|st3];
      cbn [bind state_of] in *; [|discriminate].
    intros Hok; injection Hok as <-.
    frame_eqs Hf.
    assert (Htr3 : timers_tracked st3 = true)
      by (apply (tracked_filter st1 st3 keep); assumption).
    destruct (restart_source_timer_spec cfg st3 Htr3) as (Hp & _).
    cbn zeta in Hp. rewrite Hp. cbn [List.length]. lia.
  - destruct (filter (is_watch_of pid) (world.sources (env st)))
      as [|w ws]; [intros Hok; injection Hok as <-; lia|].
    set (st1 := set_children _ st).
    assert (H2 : exists keep,
               pending_timers (state_of (on_child_exit cfg o pid status st1))
               = filter keep (pending_timers st)).
    { destruct (on_child_exit_cases cfg o pid status st1) as [E|E]; rewrite E.
      - exists (fun _ => true). now rewrite filter_true.
      - apply (launch_single_player_timers cfg o
                 (set_single_player_running false (set_child_source 0 st1))). }
    destruct H2 as [keep Hkeep].
    destruct (on_child_exit cfg o pid status st1) as [st2|st2];
      cbn [bind state_of] in *; [|discriminate].
    intros Hok; injection Hok as <-.
    match goal with
    | |- context [pending_timers (destroy_sources ?ids ?s)] =>
        destruct (pending_timers_destroy_all ids s) as [keep' Hkeep']
    end.
    rewrite Hkeep', Hkeep.
    pose proof (filter_length_le keep' (filter keep (pending_timers st))).
    pose proof (filter_length_le keep (pending_timers st)). lia.
  - destruct (avahi_client_callback_frame plat o s st)
      as (_ & _ & _ & _ & Hsrc & _).
    destruct (avahi_client_callback plat o s st) as [st1|st1];
      cbn [state_of] in *; [|discriminate].
    intros Hok; injection Hok as <-.
    unfold pending_timers. rewrite Hsrc. lia.
Qed.

(** X16: only one timer instance exists.  In every state the program reaches
    without aborting, at most one timeout source is attached to the loop, and
    it is the one whose handle [timeout_source] holds. *)
Theorem at_most_one_timer :
  forall cfg plat startup o answers schedule st,
    main cfg plat startup o answers schedule = Ok st ->
    (List.length (pending_timers st) <= 1)%nat
    /\ (forall s, In s (pending_timers st) ->
                  fst s = timeout_source st /\ fst s <> 0).
Proof.
  intros cfg plat startup o answers schedule st Hmain.
  set (P := fun s : state =>
              ready s /\ (List.length (pending_timers s) <= 1)%nat).
  assert (H : holds P (fun _ => True)
                (main cfg plat startup o answers schedule)).
  { apply main_holds.
    - intros t s HP. exact HP.
    - intros o' e s [Hr Hlen].
      pose proof (dispatch_ready cfg plat o' e s Hr) as Hd.
      pose proof (dispatch_pending_length cfg plat o' e s) as Hl.
      destruct (dispatch cfg plat o' e s) as [s'|s']; [|exact I].
      split; [exact Hd|].
      specialize (Hl s' (proj1 Hr) eq_refl). lia.
    - intros o' id deadline at_time s [Hr Hlen] Hin.
      pose proof (fire_ready cfg plat o' id deadline at_time s Hr Hin) as Hf.
      pose proof (on_source_timeout_timers cfg plat o'
                    (log (TimeoutDispatch id at_time) (set_now at_time s)))
        as [keep Hkeep].
      destruct (on_source_timeout cfg plat o' _) as [s'|s']; [|exact I].
      cbn [holds state_of] in *. split; [exact Hf|].
      assert (Hnone : pending_timers (destroy_sources [id] s') = []).
      { rewrite pending_timers_destroy, Hkeep, filter_comm.
        change (pending_timers
                  (log (TimeoutDispatch id at_time) (set_now at_time s)))
          with (pending_timers s).
        now rewrite (tracked_source s id deadline (proj1 Hr) Hin). }
      rewrite Hnone. cbn [List.length]. lia.
    - split; [split; reflexivity|cbn; lia].
    - intros b s HP. exact HP.
    - intros o' s [Hr Hlen].
      pose proof (launch_single_player_ready cfg o' s Hr) as Hr'.
      destruct (launch_single_player_timers cfg o' s) as [keep Hkeep].
      destruct (launch_single_player cfg o' s) as [s'|s']; [|exact I].
      cbn [holds state_of] in *. split; [exact Hr'|].
      rewrite Hkeep. pose proof (filter_length_le keep (pending_timers s)).
      lia. }
  rewrite Hmain in H. destruct H as [[Htr _] Hlen].
  split; [exact Hlen|].
  intros s Hs. unfold timers_tracked in Htr. rewrite forallb_forall in Htr.
  specialize (Htr s Hs). apply andb_true_iff in Htr as [H1 H2].
  apply Z.eqb_eq in H1. apply negb_true_iff, Z.eqb_neq in H2. auto.
Qed.

Lemma at_most_one_timer_witness :
  (List.length (pending_timers three_candidates) <= 1)%nat.
Proof.
  refine (proj1
            (at_most_one_timer default_config example_platform
               (Some (answer 1, AVAHI_CLIENT_S_RUNNING)) (answer 100)
               example_answers
               [(1000, answer 101, client_found "A" ["can-host=1"%string] 16);
                (2000, answer 102, client_found "B" ["can-host=0"%string] 0);
                (3000, answer 103, client_found "C" ["can-host=0"%string] 0)]
               three_candidates _)).
  vm_compute. reflexivity.
Defined.

Lemma own_entries_not_removed name type domain l :
  forallb (fun c => our_own (remote_service.flags c)) l = true ->
  existsb (removes_peer name type domain) l = false.
Proof.
  intros H. induction l as [|c l IH]; [reflexivity|].
  cbn [forallb existsb] in *. apply andb_true_iff in H as [Hc Hl].
  rewrite (IH Hl), orb_false_r. unfold removes_peer.
  unfold our_own in Hc. apply negb_true_iff in Hc. rewrite Hc.
  apply andb_false_r.
Qed.

Lemma dispatch_alone cfg plat o e st :
  from_self e = true ->
  alone st ->
  holds alone (fun s => elections s = []) (dispatch cfg plat o e st).
Proof.
  intros He (Hp & Hel & Hh & Hreg).
  destruct e as [i p ev n t d h po txt f|i p ev n t d f|pid status|s];
    cbn [dispatch from_self] in *.
  - unfold resolve_callback. destruct ev; [|exact Hel].
    destruct (resolved_service_fields i p n t d h po txt f)
      as (_ & _ & _ & _ & _ & _ & _ & Ffl).
    set (service := resolved_service i p n t d h po txt f) in *.
    rewrite Ffl.
    assert (Hown : (Z.land f AVAHI_LOOKUP_RESULT_OUR_OWN =? 0) = false)
      by (unfold our_own in He; now apply negb_true_iff in He).
    rewrite Hown.
    destruct (g_strcmp0 (Some t) (Some CLIENT_SERVICE_NAME) =? 0).
    + cbn [holds]. repeat split; try assumption.
      cbn [client_service_list set_client_service_list].
      rewrite forallb_sorted_insert, Ffl, He. cbn [andb].
      now apply forallb_filter.
    + destruct (g_strcmp0 (Some t) (Some HOST_SERVICE_NAME) =? 0);
        repeat split; assumption.
  - unfold browse_callback.
    destruct ev; try (repeat split; assumption).
    pose proof (own_removal_keeps_timer cfg n t d (client_service_list st) st
                  (own_entries_not_removed n t d _ Hreg)) as Hsame.
    destruct (remove_clients_frame cfg n t d (client_service_list st) st)
      as [K _].
    destruct (remove_clients cfg n t d (client_service_list st) st)
      as [kept st1].
    cbn [fst snd] in *. subst st1 kept.
    change (current_host (set_client_service_list ?l st))
      with (current_host st).
    rewrite Hh. cbn [holds]. repeat split; try assumption.
    cbn [client_service_list set_client_service_list].
    now apply forallb_filter.
  - destruct (filter (is_watch_of pid) (world.sources (env st)))
      as [|w ws]; [repeat split; assumption|].
    set (st1 := set_children _ st).
    assert (H1 : alone (state_of (on_child_exit cfg o pid status st1))).
    { destruct (on_child_exit_cases cfg o pid status st1) as [E|E]; rewrite E;
        [repeat split; assumption|].
      set (st2 := set_single_player_running false (set_child_source 0 st1)).
      destruct (launch_single_player_timers cfg o st2) as [keep Hkeep].
      pose proof (launch_single_player_frame cfg o st2) as Hf. frame_eqs Hf.
      split; [rewrite Hkeep; change (pending_timers st2)
                with (pending_timers st); now rewrite Hp|].
      split; [transitivity (elections st2); [assumption|exact Hel]|].
      split; [transitivity (current_host st2); [assumption|exact Hh]|].
      replace (client_service_list (state_of (launch_single_player cfg o st2)))
        with (client_service_list st) by (symmetry; assumption).
      exact Hreg. }
    destruct (on_child_exit cfg o pid status st1) as [st2|st2];
      cbn [bind holds state_of] in *; [|apply H1].
    destruct H1 as (Hp2 & Hel2 & Hh2 & Hreg2).
    split; [|repeat split; assumption].
    match goal with
    | |- pending_timers (destroy_sources ?ids ?s) = [] =>
        destruct (pending_timers_destroy_all ids s) as [keep' ->]
    end.
    now rewrite Hp2.
  - destruct (avahi_client_callback_frame plat o s st)
      as (_ & _ & Hr & Hc & Hsrc & _ & _ & Hele).
    destruct (avahi_client_callback plat o s st) as [st1|st1];
      cbn [holds state_of] in *; [|congruence].
    split; [unfold pending_timers in *; now rewrite Hsrc|].
    split; [congruence|]. split; [congruence|]. now rewrite Hr.
Qed.

Lemma main_loop_alone cfg plat answers schedule :
  forall st,
    forallb (fun x => from_self (snd x)) schedule = true ->
    alone st ->
    holds alone (fun s => elections s = [])
      (main_loop cfg plat answers schedule st).
Proof.
  induction schedule as [|[[t o] e] rest IH]; intros st Hs Ha;
    cbn [main_loop]; [exact Ha|].
  cbn [forallb snd] in Hs. apply andb_true_iff in Hs as [He Hrest].
  destruct (world.quit (env st)); [exact Ha|].
  rewrite advance_idle by apply Ha. cbn [bind].
  eapply holds_bind.
  - apply dispatch_alone; [exact He|exact Ha].
  - intros s Hs'. now apply IH.
Qed.

(** X17: elections need a peer.  As long as no record of another node
    resolves, whatever else happens (our own records resolving, removals,
    child exits, client state changes), no election timer is armed and no
    election decision is ever taken. *)
Theorem no_peer_no_election :
  forall cfg plat startup o answers schedule,
    forallb (fun x => from_self (snd x)) schedule = true ->
    let r := main cfg plat startup o answers schedule in
    elections (state_of r) = []
    /\ (forall st, r = Ok st -> pending_timers st = []).
Proof.
  intros cfg plat startup o answers schedule Hs r.
  assert (H0 : alone (initial_state cfg)) by (repeat split).
  assert (H : holds alone (fun s => elections s = []) r).
  { subst r. unfold main. eapply holds_bind with (P := alone).
    - destruct startup as [[o0 s]|]; [|exact H0].
      now apply (dispatch_alone cfg plat o0 (client_state_changed s)).
    - intros s (Hp & Hel & Hh & Hreg).
      destruct (launch_single_player_timers cfg o s) as [keep Hkeep].
      pose proof (launch_single_player_frame cfg o s) as Hf. frame_eqs Hf.
      assert (Ha : alone (state_of (launch_single_player cfg o s))).
      { split; [now rewrite Hkeep, Hp|]. split; [congruence|].
        split; [congruence|].
        replace (client_service_list (state_of (launch_single_player cfg o s)))
          with (client_service_list s) by (symmetry; assumption).
        exact Hreg. }
      destruct (launch_single_player cfg o s) as [s'|s'];
        cbn [bind holds state_of] in *; [|apply Ha].
      now apply main_loop_alone. }
  destruct r as [st|st]; cbn [holds state_of] in *.
  - split; [apply H|]. intros st' E. injection E as <-. apply H.
  - split; [exact H|discriminate].
Qed.

(** Only our own record resolves, the single-player game exits once, and
    a stray removal arrives. *)
Lemma no_peer_no_election_witness :
  elections
    (state_of
       (example_run
          [(1000, answer 101, client_found "A" ["can-host=1"%string] 16);
           (2000, answer 102, child_exited 100 0);
           (90000, answer 103,
            browsed 2 0 AVAHI_BROWSER_REMOVE "A" CLIENT_SERVICE_NAME "local"
              0)])) = [].
Proof.
  refine (proj1 (no_peer_no_election default_config example_platform _ _ _ _ _)).
  vm_compute. reflexivity.
Defined.

(** ** Publishing *)

Lemma create_service_retries plat w k :
  forall st,
    unpublished (get_service w st) ->
    exists st',
      create_service plat true (repeat AVAHI_ERR_COLLISION k) w st = Ok st'
      /\ local_service.name (get_service w st')
         = Some (Nat.iter k (avahi_alternative_service_name plat)
                   (first_name plat (get_service w st)))
      /\ local_service.group (get_service w st')
         = Some [(Nat.iter k (avahi_alternative_service_name plat)
                    (first_name plat (get_service w st)),
                  local_service.type (get_service w st),
                  local_service.port (get_service w st))].
Proof.
  induction k as [|k IH]; intros st Hun.
  - destruct_state st. unfold unpublished, first_name in *.
    destruct w; cbn [get_service local_client_service local_host_service] in *;
      [destruct lcs as [g n ty po txt]|destruct lhs as [g n ty po txt]];
      cbn [local_service.group local_service.name local_service.type
           local_service.port] in *;
      (destruct Hun as [->| ->]); cbn; eexists; repeat split.
  - rewrite Nat.iter_succ_r.
    destruct_state st. unfold unpublished, first_name in *.
    destruct w; cbn [get_service local_client_service local_host_service] in *;
      [destruct lcs as [g n ty po txt]|destruct lhs as [g n ty po txt]];
      cbn [local_service.group local_service.name local_service.type
           local_service.port] in *;
      (destruct Hun as [->| ->]);
      cbn -[Nat.iter];
      match goal with
      | |- exists st', create_service _ _ _ ?w ?s = _ /\ _ =>
          destruct (IH s (or_intror eq_refl)) as (st' & Hok & Hn & Hg);
          exists st'; split; [exact Hok|]; split; [exact Hn|exact Hg]
      end.
Qed.

(** X18: a name collision is retried under a new name.  When Avahi rejects
    the record [k] times for a collision and then accepts it, the service
    ends up published once, under the [k]-th alternative of the name it
    started with (its own name, or the machine id if it had none). *)
Theorem create_service_renames_until_accepted :
  forall plat w k st,
    unpublished (get_service w st) ->
    exists st',
      create_service plat true (repeat AVAHI_ERR_COLLISION k) w st = Ok st'
      /\ local_service.name (get_service w st')
         = Some (Nat.iter k (avahi_alternative_service_name plat)
                   (first_name plat (get_service w st)))
      /\ local_service.group (get_service w st')
         = Some [(Nat.iter k (avahi_alternative_service_name plat)
                    (first_name plat (get_service w st)),
                  local_service.type (get_service w st),
                  local_service.port (get_service w st))]
      /\ outside_service w st' = outside_service w st.
Proof.
  intros plat w k st Hun.
  destruct (create_service_retries plat w k st Hun) as (st' & Hok & Hn & Hg).
  exists st'. split; [exact Hok|]. split; [exact Hn|]. split; [exact Hg|].
  pose proof (create_service_frame plat true (repeat AVAHI_ERR_COLLISION k) w
                st) as Hf.
  now rewrite Hok in Hf.
Qed.

Lemma create_service_renames_until_accepted_witness :
  exists st',
    create_service example_platform true
      [AVAHI_ERR_COLLISION; AVAHI_ERR_COLLISION] host_service
      (initial_state default_config) = Ok st'
    /\ local_service.name (local_host_service st')
       = Some "0123456789abcdef0123456789abcdef #2 #2"%string.
Proof.
  destruct (create_service_renames_until_accepted example_platform host_service
              2 (initial_state default_config) (or_introl eq_refl))
    as (st' & Hok & Hn & _).
  exists st'. split; [exact Hok|exact Hn].
Defined.

Lemma create_service_named plat new_ok rets w :
  forall st st',
    create_service plat new_ok rets w st = Ok st' ->
    exists n, local_service.name (get_service w st') = Some n.
Proof.
  induction rets as [|ret rets IH]; intros st st'; destruct_state st;
    destruct w; cbn -[Z.eqb];
    match goal with
    | |- context [local_service.group ?s] =>
        destruct (local_service.group s) as [[|? ?]|] eqn:?
    end;
    cbn -[Z.eqb];
    try (destruct new_ok; cbn -[Z.eqb]);
    try (destruct (ret =? 0); [|destruct (ret =? AVAHI_ERR_COLLISION)]);
    try (intros H; injection H as <-; cbn; eexists; reflexivity);
    try discriminate;
    try (intros H; apply IH in H; exact H).
Qed.

Lemma stop_service_withdraws w st :
  get_service w (stop_service w st)
  = local_service.set_group None (get_service w st).
Proof.
  destruct_state st. unfold stop_service.
  destruct w; cbn [get_service local_client_service local_host_service];
    [destruct lcs as [g n ty po txt]|destruct lhs as [g n ty po txt]];
    destruct g; reflexivity.
Qed.

(** X19: a service keeps its name across sessions.  Once [create_service] has
    returned for a service, withdrawing it with [stop_service] and
    publishing it again publishes it under the name it had, collision
    renamings included. *)
Theorem republish_keeps_name :
  forall plat new_ok rets w st st1,
    create_service plat new_ok rets w st = Ok st1 ->
    exists n st2,
      local_service.name (get_service w st1) = Some n
      /\ local_service.group (get_service w (stop_service w st1)) = None
      /\ create_service plat true [] w (stop_service w st1) = Ok st2
      /\ local_service.name (get_service w st2) = Some n
      /\ local_service.group (get_service w st2)
         = Some [(n, local_service.type (get_service w st1),
                  local_service.port (get_service w st1))].
Proof.
  intros plat new_ok rets w st st1 H.
  destruct (create_service_named plat new_ok rets w st st1 H) as [n Hn].
  pose proof (stop_service_withdraws w st1) as Hs.
  destruct (create_service_retries plat w 0 (stop_service w st1))
    as (st2 & Hok & Hn2 & Hg2).
  { left. now rewrite Hs. }
  exists n, st2. split; [exact Hn|]. split; [now rewrite Hs|].
  split; [exact Hok|].
  unfold first_name in *. rewrite Hs in Hn2, Hg2.
  cbn [local_service.name local_service.type local_service.port
       local_service.set_group Nat.iter] in *.
  rewrite Hn in Hn2, Hg2. split; [exact Hn2|exact Hg2].
Qed.

(** The host service met one collision when it was first published. *)
Lemma republish_keeps_name_witness :
  exists st1 st2,
    create_service example_platform true [AVAHI_ERR_COLLISION] host_service
      (initial_state default_config) = Ok st1
    /\ create_service example_platform true [] host_service
         (stop_service host_service st1) = Ok st2
    /\ local_service.name (local_host_service st2)
       = Some "0123456789abcdef0123456789abcdef #2"%string.
Proof.
  assert (H1 : exists st1,
             create_service example_platform true [AVAHI_ERR_COLLISION]
               host_service (initial_state default_config) = Ok st1)
    by (vm_compute; eexists; reflexivity).
  destruct H1 as [st1 H1].
  destruct (republish_keeps_name example_platform true [AVAHI_ERR_COLLISION]
              host_service (initial_state default_config) st1 H1)
    as (n & st2 & Hn & _ & Hok & Hn2 & _).
  exists st1, st2. split; [exact H1|]. split; [exact Hok|].
  cbn [get_service] in Hn, Hn2. rewrite Hn2, <- Hn. clear - H1. vm_compute in H1. injection H1 as <-.
  reflexivity.
Defined.

(** ** TXT entries and advertisements *)

Lemma create_service_adverts plat new_ok rets w :
  forall st,
    adverts (state_of (create_service plat new_ok rets w st)) = adverts st.
Proof.
  induction rets as [|ret rets IH]; intros st; destruct_state st;
    destruct w; cbn -[Z.eqb];
    match goal with
    | |- context [local_service.group ?s] =>
        destruct (local_service.group s) as [[|? ?]|] eqn:?
    end;
    cbn -[Z.eqb]; try reflexivity;
    try (destruct new_ok; cbn -[Z.eqb]; try reflexivity);
    try (destruct (ret =? 0); [reflexivity|];
         destruct (ret =? AVAHI_ERR_COLLISION); [|reflexivity];
         rewrite IH; reflexivity).
Qed.

Lemma adverts_same st st' :
  local_client_service st' = local_client_service st ->
  local_host_service st' = local_host_service st ->
  adverts st' = adverts st.
Proof. unfold adverts. intros -> ->. reflexivity. Qed.

Lemma adverts_withdrawn st st' :
  local_client_service st' = local_client_service st ->
  local_host_service st'
  = local_service.set_group None (local_host_service st) ->
  adverts st' = adverts st.
Proof. unfold adverts. intros -> ->. reflexivity. Qed.

Lemma launch_single_player_adverts cfg o st :
  adverts (state_of (launch_single_player cfg o st)) = adverts st.
Proof.
  pose proof (launch_single_player_frame cfg o st) as Hf. frame_eqs Hf.
  apply adverts_withdrawn; [assumption|].
  apply launch_single_player_host_service.
Qed.

Lemma connect_to_host_adverts cfg o st :
  adverts (state_of (connect_to_host cfg o st)) = adverts st.
Proof.
  destruct (current_host st) as [host|] eqn:Hh.
  - destruct (connect_to_host_spec cfg o st host Hh) as (Hf & _ & Hs & _).
    frame_eqs Hf. now apply adverts_withdrawn.
  - unfold connect_to_host. rewrite Hh. reflexivity.
Qed.

Lemma host_game_adverts cfg plat o n st :
  adverts (state_of (host_game cfg plat o n st)) = adverts st.
Proof.
  unfold host_game.
  pose proof (spawn_child_frame o (host_argv cfg n) st) as Hf.
  rewrite spawn_child_result.
  set (s1 := state_of (spawn_child o (host_argv cfg n) st)) in *.
  frame_eqs Hf.
  assert (Ha : adverts s1 = adverts st) by (now apply adverts_same).
  destruct (spawn_async o); cbn [bind state_of]; [|exact Ha].
  rewrite create_service_adverts. exact Ha.
Qed.

Lemma restart_source_timer_adverts cfg st :
  adverts (restart_source_timer cfg st) = adverts st.
Proof.
  unfold restart_source_timer, stop_source_timer, g_timeout_add.
  destruct (timeout_source st =? 0); reflexivity.
Qed.

Lemma stop_source_timer_adverts st :
  adverts (stop_source_timer st) = adverts st.
Proof.
  unfold stop_source_timer. destruct (timeout_source st =? 0); reflexivity.
Qed.

Lemma remove_clients_adverts cfg name type domain l :
  forall st,
    adverts (snd (remove_clients cfg name type domain l st)) = adverts st.
Proof.
  induction l as [|c l IH]; intros st; [reflexivity|].
  cbn [remove_clients].
  destruct (removal_matches name type domain c).
  - destruct (Z.land (remote_service.flags c) AVAHI_LOOKUP_RESULT_OUR_OWN =? 0);
      rewrite IH; [apply restart_source_timer_adverts|reflexivity].
  - specialize (IH st).
    destruct (remove_clients cfg name type domain l st). exact IH.
Qed.

Lemma on_source_timeout_adverts cfg plat o st :
  adverts (state_of (on_source_timeout cfg plat o st)) = adverts st.
Proof.
  destruct (on_source_timeout_cases cfg plat o st) as (s & Hs & Hcase).
  assert (H : adverts s = adverts st).
  { destruct Hcase as [->|[->|[n ->]]]; [reflexivity| |].
    - apply launch_single_player_adverts.
    - apply host_game_adverts. }
  destruct Hs as [E|E]; rewrite E; exact H.
Qed.

Lemma dispatch_adverts cfg plat o e st :
  adverts (state_of (dispatch cfg plat o e st)) = adverts st.
Proof.
  destruct e as [i p ev n t d h po txt f|i p ev n t d f|pid status|s];
    cbn [dispatch].
  - unfold resolve_callback. destruct ev; [|reflexivity].
    destruct (g_strcmp0 (Some t) (Some CLIENT_SERVICE_NAME) =? 0).
    + destruct (Z.land _ AVAHI_LOOKUP_RESULT_OUR_OWN =? 0); cbn [state_of];
        [rewrite restart_source_timer_adverts|]; reflexivity.
    + destruct (g_strcmp0 (Some t) (Some HOST_SERVICE_NAME) =? 0);
        [|reflexivity].
      destruct (Z.land _ AVAHI_LOOKUP_RESULT_OUR_OWN =? 0); [|reflexivity].
      rewrite state_of_bind_ok.
      match goal with
      | |- context [connect_to_host cfg o ?s] =>
          pose proof (connect_to_host_adverts cfg o s) as Hc;
          destruct (connect_to_host cfg o s)
      end; cbn [state_of] in Hc;
        [rewrite stop_source_timer_adverts|]; exact Hc.
  - unfold browse_callback. destruct ev; try reflexivity.
    pose proof (remove_clients_adverts cfg n t d (client_service_list st) st)
      as H1.
    destruct (remove_clients cfg n t d (client_service_list st) st)
      as [kept st1].
    cbn [snd] in H1.
    destruct (current_host (set_client_service_list kept st1)) as [host|];
      [|exact H1].
    destruct (removal_matches n t d host); [|exact H1].
    rewrite state_of_bind_ok.
    match goal with
    | |- context [launch_single_player cfg o ?s] =>
        pose proof (launch_single_player_adverts cfg o s) as Hc;
        destruct (launch_single_player cfg o s)
    end; cbn [state_of] in Hc;
      [rewrite restart_source_timer_adverts|]; rewrite Hc; exact H1.
  - destruct (filter (is_watch_of pid) (world.sources (env st)));
      [reflexivity|].
    rewrite state_of_bind_ok.
    match goal with
    | |- context [on_child_exit cfg o pid status ?s] =>
        assert (Hc : adverts (state_of (on_child_exit cfg o pid status s))
                     = adverts st)
          by (destruct (on_child_exit_cases cfg o pid status s) as [E|E];
              rewrite E; [reflexivity|];
              rewrite launch_single_player_adverts; reflexivity);
        destruct (on_child_exit cfg o pid status s)
    end; exact Hc.
  - destruct s; cbn [avahi_client_callback]; try reflexivity.
    apply create_service_adverts.
Qed.

Lemma c_str_without_nul (s : string) :
  ~ In "000"%char (list_ascii_of_string s) -> c_str s = s.
Proof.
  induction s as [|c s IH]; cbn [list_ascii_of_string In c_str]; intros H;
    [reflexivity|].
  destruct (Ascii.eqb c "000") eqn:E.
  - apply Ascii.eqb_eq in E. exfalso. apply H. left. exact E.
  - rewrite IH by tauto. reflexivity.
Qed.

(** X20: what a node advertises is what its peers read.  In every state the
    program reaches, the TXT entries of its two services are the ones [main]
    built from the configuration; a peer that resolves the client record
    records exactly the node's [can_host] setting, and one that resolves the
    host record is given the node's multiplayer WAD, as the string it is in
    C (its bytes before a NUL). *)
Theorem adverts_carry_configuration :
  forall cfg plat startup o answers schedule
         interface protocol name type domain host_name port flags,
    let st := state_of (main cfg plat startup o answers schedule) in
    adverts st = adverts (initial_state cfg)
    /\ remote_service.can_host
         (resolved_service interface protocol name type domain host_name port
            (local_service.txt_records (local_client_service st)) flags)
       = config.can_host cfg
    /\ remote_service.wad
         (resolved_service interface protocol name type domain host_name port
            (local_service.txt_records (local_host_service st)) flags)
       = Some (c_str (config.mp_wad cfg)).
Proof.
  intros cfg plat startup o answers schedule interface protocol name type
    domain host_name port flags st.
  assert (H : adverts st = adverts (initial_state cfg)).
  { set (P := fun s : state => adverts s = adverts (initial_state cfg)).
    assert (HP : holds P P (main cfg plat startup o answers schedule)).
    { apply main_holds.
      - intros t s HP. exact HP.
      - intros o' e s HP. apply holds_same. unfold P.
        now rewrite dispatch_adverts.
      - intros o' id deadline at_time s HP _. apply holds_same. unfold P.
        change (adverts (destroy_sources ?l ?x)) with (adverts x).
        now rewrite on_source_timeout_adverts.
      - reflexivity.
      - intros b s HP. exact HP.
      - intros o' s HP. apply holds_same. unfold P.
        now rewrite launch_single_player_adverts. }
    now apply holds_same in HP. }
  split; [exact H|].
  unfold adverts, advert in H. injection H as _ _ Hc _ _ Hh.
  rewrite Hc, Hh. cbn [initial_state local_client_service local_host_service
    local_service.txt_records].
  unfold resolved_service. split.
  - destruct (config.can_host cfg); vm_compute; reflexivity.
  - cbn. reflexivity.
Qed.

(** ** The host advertisement *)

Lemma justified_same cfg st st' :
  game st' = game st ->
  host_advert_justified cfg st -> host_advert_justified cfg st'.
Proof.
  unfold game, host_advert_justified, hosting. intros E.
  injection E as -> -> -> ->. exact (fun H => H).
Qed.

Lemma game_outside_timer st st' :
  outside_timer st' = outside_timer st -> game st' = game st.
Proof. intros Hf. timer_eqs Hf. unfold game. congruence. Qed.

Lemma launch_single_player_withdraws cfg o st :
  holds (host_advert_justified cfg) (fun _ => True)
    (launch_single_player cfg o st).
Proof.
  pose proof (launch_single_player_host_service cfg o st) as H.
  destruct (launch_single_player cfg o st); [|exact I].
  left. cbn [state_of] in H. rewrite H. reflexivity.
Qed.

Lemma connect_to_host_withdraws cfg o st :
  holds (host_advert_justified cfg) (fun _ => True)
    (connect_to_host cfg o st).
Proof.
  destruct (current_host st) as [host|] eqn:Hh.
  - destruct (connect_to_host_spec cfg o st host Hh) as (_ & _ & H & _).
    destruct (connect_to_host cfg o st); [|exact I].
    left. cbn [state_of] in H. rewrite H. reflexivity.
  - unfold connect_to_host. rewrite Hh. exact I.
Qed.

Lemma host_game_hosts cfg plat o n st :
  holds (host_advert_justified cfg) (fun _ => True)
    (host_game cfg plat o n st).
Proof.
  destruct (host_game_spec cfg plat o n st) as (_ & Hs & Hp).
  destruct (spawn_async o) as [p|] eqn:Ho.
  - destruct (Hp p eq_refl) as [Hr Hc].
    assert (Hj : host_advert_justified cfg
                   (state_of (host_game cfg plat o n st))).
    { right. split; [exact Hr|]. exists n, p. rewrite Hs. split;
        [reflexivity|exact Hc]. }
    destruct (host_game cfg plat o n st); [exact Hj|exact I].
  - unfold host_game. rewrite spawn_child_result, Ho. exact I.
Qed.

Lemma on_source_timeout_justified cfg plat o st :
  host_advert_justified cfg st ->
  holds (host_advert_justified cfg) (fun _ => True)
    (on_source_timeout cfg plat o st).
Proof.
  intros Hj. unfold on_source_timeout.
  eapply holds_bind with (P := host_advert_justified cfg).
  - destruct (hd_error (client_service_list st)) as [best|];
      [|apply launch_single_player_withdraws].
    destruct (remote_service.can_host best);
      [|apply launch_single_player_withdraws].
    destruct (negb _); [|exact Hj].
    destruct (negb _);
      [apply host_game_hosts|apply launch_single_player_withdraws].
  - intros s Hs. exact Hs.
Qed.

Lemma dispatch_justified cfg plat o e st :
  host_advert_justified cfg st ->
  holds (host_advert_justified cfg) (fun _ => True) (dispatch cfg plat o e st).
Proof.
  intros Hj.
  destruct e as [i p ev n t d h po txt f|i p ev n t d f|pid status|s];
    cbn [dispatch].
  - unfold resolve_callback. destruct ev; [|exact I].
    destruct (g_strcmp0 (Some t) (Some CLIENT_SERVICE_NAME) =? 0).
    + destruct (Z.land _ AVAHI_LOOKUP_RESULT_OUR_OWN =? 0); cbn [holds];
        [|exact Hj].
      eapply justified_same; [|exact Hj].
      etransitivity;
        [apply game_outside_timer, restart_source_timer_frame|reflexivity].
    + destruct (g_strcmp0 (Some t) (Some HOST_SERVICE_NAME) =? 0);
        [|exact Hj].
      destruct (Z.land _ AVAHI_LOOKUP_RESULT_OUR_OWN =? 0); [|exact Hj].
      eapply holds_bind; [apply connect_to_host_withdraws|].
      intros s Hs. cbn [holds].
      eapply justified_same; [|exact Hs].
      apply game_outside_timer, stop_source_timer_frame.
  - unfold browse_callback. destruct ev; try exact Hj.
    destruct (remove_clients_frame cfg n t d (client_service_list st) st)
      as [_ Hf].
    destruct (remove_clients cfg n t d (client_service_list st) st)
      as [kept st1].
    cbn [snd] in Hf. apply game_outside_timer in Hf.
    assert (H1 : host_advert_justified cfg (set_client_service_list kept st1))
      by (eapply justified_same; [|exact Hj]; exact Hf).
    destruct (current_host (set_client_service_list kept st1)) as [host|];
      [|exact H1].
    destruct (removal_matches n t d host); [|exact H1].
    eapply holds_bind; [apply launch_single_player_withdraws|].
    intros s Hs. cbn [holds].
    eapply justified_same; [|exact Hs].
    apply game_outside_timer, restart_source_timer_frame.
  - destruct (filter (is_watch_of pid) (world.sources (env st)));
      [exact Hj|].
    eapply holds_bind with (P := host_advert_justified cfg);
      [|intros s Hs; exact Hs].
    unfold on_child_exit. cbn [child_pid].
    destruct (negb _); [exact Hj|].
    apply launch_single_player_withdraws.
  - destruct s; cbn [avahi_client_callback holds]; try exact Hj.
    pose proof (create_service_frame plat (entry_group_new o)
                  (add_service_ret o) client_service st) as Hf.
    frame_eqs Hf.
    assert (Hg : host_advert_justified cfg
                   (state_of (create_service plat (entry_group_new o)
                                (add_service_ret o) client_service st))).
    { eapply justified_same; [|exact Hj]. unfold game. congruence. }
    destruct (create_service plat (entry_group_new o) (add_service_ret o)
                client_service st); [exact Hg|exact I].
Qed.

(** X21: the host service is advertised only while the node hosts.  After any
    run that did not abort, either the host service has no entry group, or
    the last process launched is the host command line, that launch
    succeeded, its process is the child being watched for, and no
    single-player game is recorded as running. *)
Theorem host_advert_only_while_hosting :
  forall cfg plat startup o answers schedule st,
    main cfg plat startup o answers schedule = Ok st ->
    host_advert_justified cfg st.
Proof.
  intros cfg plat startup o answers schedule st Hok.
  assert (H : holds (host_advert_justified cfg) (fun _ => True)
                (main cfg plat startup o answers schedule)).
  { apply main_holds.
    - intros t s Hs. exact Hs.
    - intros o' e s Hs. now apply dispatch_justified.
    - intros o' id deadline at_time s Hs _.
      pose proof (on_source_timeout_justified cfg plat o'
                    (log (TimeoutDispatch id at_time) (set_now at_time s)) Hs)
        as Hf.
      destruct (on_source_timeout cfg plat o' _); exact Hf.
    - left. reflexivity.
    - intros b s Hs. exact Hs.
    - intros o' s Hs. apply launch_single_player_withdraws. }
  rewrite Hok in H. exact H.
Qed.

Lemma host_advert_only_while_hosting_witness :
  hosting default_config (state_of hosting_run).
Proof.
  destruct (host_advert_only_while_hosting default_config example_platform
              (Some (answer 1, AVAHI_CLIENT_S_RUNNING)) (answer 100)
              example_answers
              [(1000, answer 101, client_found "A" ["can-host=1"%string] 16);
               (2000, answer 102, client_found "B" ["can-host=0"%string] 0);
               (3000, answer 103, client_found "C" ["can-host=0"%string] 0);
               (100000, answer 104,
                browsed 2 0 AVAHI_BROWSER_ALL_FOR_NOW "" CLIENT_SERVICE_NAME
                  "local" 0)]
              (state_of hosting_run)) as [H|H].
  - vm_compute. reflexivity.
  - vm_compute in H. discriminate H.
  - exact H.
Defined.
